(** * prompt-schema: the extraction engine and the theme registry

    A shallow embedding of the TypeScript sources of the extractors
    ([extractToModel], [extractObjectFields], [extractField],
    [extractArrayItemType], [extractUnionData], [unwrapNullable],
    [detectFieldType], [findDiscriminator], [extractConstraints]), of
    the theme registry ([ThemeRegistry], [formatModel]), of the
    standard, condensed and expanded themes and of the [PromptSchema]
    class, followed by the properties proved about them.

    Conventions of the embedding:
    - an optional property [k?: T] is an [option T]; [None] is JavaScript's
      [undefined];
    - a JavaScript object used as a map ([properties]) is an association
      list in the order [Object.entries] enumerates it;
    - JSON numbers are integers ([Z]) of magnitude below 10^21, for which
      JavaScript's number-to-string conversion is the decimal numeral;
    - [depth] and [maxDepth] are [Z], compared with [<] as in the source. *)

From Stdlib Require Import List String Ascii ZArith Bool Arith Lia.
From Stdlib Require Import DecimalString Permutation Sorted.
Import ListNotations.

Set Warnings "-register-all".
Local Open Scope string_scope.

(** ** JavaScript values and built-ins used by the sources *)

(** A value of TypeScript type [unknown] coming from a JSON document. *)
Inductive JsonValue : Type :=
| JNull
| JBool (b : bool)
| JNum (n : Z)
| JStr (s : string)
| JArr (l : list JsonValue)
| JObj (l : list (string * JsonValue)).

Module JS.

(** [`${n}`] and [String(n)] on a number. *)
Definition Number_toString (n : Z) : string :=
  NilZero.string_of_int (Z.to_int n).

(** [Array.prototype.join]. *)
Definition join (sep : string) (l : list string) : string :=
  String.concat sep l.

(** [String(v)]: arrays print their elements joined by commas, [null]
    elements as the empty string; plain objects print as
    ["[object Object]"]. *)
Fixpoint String_ (v : JsonValue) : string :=
  match v with
  | JNull => "null"
  | JBool true => "true"
  | JBool false => "false"
  | JNum n => Number_toString n
  | JStr s => s
  | JArr l =>
      join "," (map (fun e => match e with JNull => "" | _ => String_ e end) l)
  | JObj _ => "[object Object]"
  end.

(** Truthiness of a string-typed optional property. *)
Definition truthy_string (o : option string) : bool :=
  match o with
  | Some s => negb (s =? "")
  | None => false
  end.

(** Truthiness of an [unknown] optional property. *)
Definition truthy_value (o : option JsonValue) : bool :=
  match o with
  | None | Some JNull | Some (JBool false) => false
  | Some (JNum n) => negb (n =? 0)%Z
  | Some (JStr s) => negb (s =? "")
  | Some _ => true
  end.

(** Truthiness of an optional property holding an array or an object:
    every array and every object is truthy, also the empty ones. *)
Definition defined {A : Type} (o : option A) : bool :=
  match o with
  | Some _ => true
  | None => false
  end.

(** [a || b] where [a] is truthy according to [t]. *)
Definition or_else {A : Type} (t : A -> bool) (a b : A) : A :=
  if t a then a else b.

(** [new Set(l).has(x)] on strings. *)
Definition Set_has (l : list string) (x : string) : bool :=
  existsb (String.eqb x) l.

(** [obj[key]] on an object given by its entries. *)
Fixpoint get {A : Type} (key : string) (entries : list (string * A))
  : option A :=
  match entries with
  | [] => None
  | (k, v) :: rest => if k =? key then Some v else get key rest
  end.

(** [Array.prototype.sort(compare)].  The language requires the sort to be
    stable; for a comparator that is a consistent ordering every
    conforming implementation returns the list computed here, an insertion
    sort that places an element before the first one it does not
    follow. *)
Fixpoint sort_insert {A : Type} (compare : A -> A -> Z) (x : A) (l : list A)
  : list A :=
  match l with
  | [] => [x]
  | y :: rest =>
      if (compare x y <=? 0)%Z then x :: y :: rest
      else y :: sort_insert compare x rest
  end.

Fixpoint sort {A : Type} (compare : A -> A -> Z) (l : list A) : list A :=
  match l with
  | [] => []
  | x :: rest => sort_insert compare x (sort compare rest)
  end.

End JS.

(** ** JSON-Schema nodes (src/types.ts) *)

(** [type?: string | string[]] *)
Inductive TypeSpec : Type :=
| TypeName (t : string)
| TypeList (ts : list string).

(** [items] is declared as one schema, and tested with [Array.isArray]
    for the positional (tuple) form. *)
Inductive OneOrMany (A : Type) : Type :=
| One (a : A)
| Many (l : list A).
Arguments One {A} a.
Arguments Many {A} l.

(** [additionalProperties] is declared as a schema; documents also carry
    the booleans [true] and [false] there. *)
Inductive BoolOr (A : Type) : Type :=
| IsBool (b : bool)
| IsSchema (s : A).
Arguments IsBool {A} b.
Arguments IsSchema {A} s.

Module Schema.

(** The properties of [JsonSchema] that extraction reads.  [badExamples]
    is read through the index signature [[key: string]: unknown]. *)
Inductive JsonSchema : Type := mk {
  type : option TypeSpec;
  properties : option (list (string * JsonSchema));
  required : option (list string);
  items : option (OneOrMany JsonSchema);
  enum : option (list JsonValue);
  const : option JsonValue;
  anyOf : option (list JsonSchema);
  oneOf : option (list JsonSchema);
  allOf : option (list JsonSchema);
  description : option string;
  title : option string;
  examples : option (list JsonValue);
  default : option JsonValue;
  not : option JsonSchema;
  minLength : option Z;
  maxLength : option Z;
  pattern : option string;
  format : option string;
  minimum : option Z;
  maximum : option Z;
  minItems : option Z;
  maxItems : option Z;
  additionalProperties : option (BoolOr JsonSchema);
  badExamples : option JsonValue;
}.

(** The empty document [{}]. *)
Definition empty : JsonSchema :=
  mk None None None None None None None None None None None None
     None None None None None None None None None None None None.

(** [{...s, k: v}] for each property [k]. *)
Definition with_type v (s : JsonSchema) : JsonSchema :=
  mk v (properties s) (required s) (items s) (enum s) (const s) (anyOf s)
    (oneOf s) (allOf s) (description s) (title s) (examples s) (default s)
    (not s) (minLength s) (maxLength s) (pattern s) (format s) (minimum s)
    (maximum s) (minItems s) (maxItems s) (additionalProperties s)
    (badExamples s).

Definition with_properties v (s : JsonSchema) : JsonSchema :=
  mk (type s) v (required s) (items s) (enum s) (const s) (anyOf s) (oneOf s)
    (allOf s) (description s) (title s) (examples s) (default s) (not s)
    (minLength s) (maxLength s) (pattern s) (format s) (minimum s) (maximum s)
    (minItems s) (maxItems s) (additionalProperties s) (badExamples s).

Definition with_required v (s : JsonSchema) : JsonSchema :=
  mk (type s) (properties s) v (items s) (enum s) (const s) (anyOf s)
    (oneOf s) (allOf s) (description s) (title s) (examples s) (default s)
    (not s) (minLength s) (maxLength s) (pattern s) (format s) (minimum s)
    (maximum s) (minItems s) (maxItems s) (additionalProperties s)
    (badExamples s).

Definition with_items v (s : JsonSchema) : JsonSchema :=
  mk (type s) (properties s) (required s) v (enum s) (const s) (anyOf s)
    (oneOf s) (allOf s) (description s) (title s) (examples s) (default s)
    (not s) (minLength s) (maxLength s) (pattern s) (format s) (minimum s)
    (maximum s) (minItems s) (maxItems s) (additionalProperties s)
    (badExamples s).

Definition with_enum v (s : JsonSchema) : JsonSchema :=
  mk (type s) (properties s) (required s) (items s) v (const s) (anyOf s)
    (oneOf s) (allOf s) (description s) (title s) (examples s) (default s)
    (not s) (minLength s) (maxLength s) (pattern s) (format s) (minimum s)
    (maximum s) (minItems s) (maxItems s) (additionalProperties s)
    (badExamples s).

Definition with_const v (s : JsonSchema) : JsonSchema :=
  mk (type s) (properties s) (required s) (items s) (enum s) v (anyOf s)
    (oneOf s) (allOf s) (description s) (title s) (examples s) (default s)
    (not s) (minLength s) (maxLength s) (pattern s) (format s) (minimum s)
    (maximum s) (minItems s) (maxItems s) (additionalProperties s)
    (badExamples s).

Definition with_anyOf v (s : JsonSchema) : JsonSchema :=
  mk (type s) (properties s) (required s) (items s) (enum s) (const s) v
    (oneOf s) (allOf s) (description s) (title s) (examples s) (default s)
    (not s) (minLength s) (maxLength s) (pattern s) (format s) (minimum s)
    (maximum s) (minItems s) (maxItems s) (additionalProperties s)
    (badExamples s).

Definition with_oneOf v (s : JsonSchema) : JsonSchema :=
  mk (type s) (properties s) (required s) (items s) (enum s) (const s)
    (anyOf s) v (allOf s) (description s) (title s) (examples s) (default s)
    (not s) (minLength s) (maxLength s) (pattern s) (format s) (minimum s)
    (maximum s) (minItems s) (maxItems s) (additionalProperties s)
    (badExamples s).

Definition with_allOf v (s : JsonSchema) : JsonSchema :=
  mk (type s) (properties s) (required s) (items s) (enum s) (const s)
    (anyOf s) (oneOf s) v (description s) (title s) (examples s) (default s)
    (not s) (minLength s) (maxLength s) (pattern s) (format s) (minimum s)
    (maximum s) (minItems s) (maxItems s) (additionalProperties s)
    (badExamples s).

Definition with_description v (s : JsonSchema) : JsonSchema :=
  mk (type s) (properties s) (required s) (items s) (enum s) (const s)
    (anyOf s) (oneOf s) (allOf s) v (title s) (examples s) (default s) (not s)
    (minLength s) (maxLength s) (pattern s) (format s) (minimum s) (maximum s)
    (minItems s) (maxItems s) (additionalProperties s) (badExamples s).

Definition with_title v (s : JsonSchema) : JsonSchema :=
  mk (type s) (properties s) (required s) (items s) (enum s) (const s)
    (anyOf s) (oneOf s) (allOf s) (description s) v (examples s) (default s)
    (not s) (minLength s) (maxLength s) (pattern s) (format s) (minimum s)
    (maximum s) (minItems s) (maxItems s) (additionalProperties s)
    (badExamples s).

Definition with_examples v (s : JsonSchema) : JsonSchema :=
  mk (type s) (properties s) (required s) (items s) (enum s) (const s)
    (anyOf s) (oneOf s) (allOf s) (description s) (title s) v (default s)
    (not s) (minLength s) (maxLength s) (pattern s) (format s) (minimum s)
    (maximum s) (minItems s) (maxItems s) (additionalProperties s)
    (badExamples s).

Definition with_default v (s : JsonSchema) : JsonSchema :=
  mk (type s) (properties s) (required s) (items s) (enum s) (const s)
    (anyOf s) (oneOf s) (allOf s) (description s) (title s) (examples s) v
    (not s) (minLength s) (maxLength s) (pattern s) (format s) (minimum s)
    (maximum s) (minItems s) (maxItems s) (additionalProperties s)
    (badExamples s).

Definition with_not v (s : JsonSchema) : JsonSchema :=
  mk (type s) (properties s) (required s) (items s) (enum s) (const s)
    (anyOf s) (oneOf s) (allOf s) (description s) (title s) (examples s)
    (default s) v (minLength s) (maxLength s) (pattern s) (format s)
    (minimum s) (maximum s) (minItems s) (maxItems s) (additionalProperties s)
    (badExamples s).

Definition with_minLength v (s : JsonSchema) : JsonSchema :=
  mk (type s) (properties s) (required s) (items s) (enum s) (const s)
    (anyOf s) (oneOf s) (allOf s) (description s) (title s) (examples s)
    (default s) (not s) v (maxLength s) (pattern s) (format s) (minimum s)
    (maximum s) (minItems s) (maxItems s) (additionalProperties s)
    (badExamples s).

Definition with_maxLength v (s : JsonSchema) : JsonSchema :=
  mk (type s) (properties s) (required s) (items s) (enum s) (const s)
    (anyOf s) (oneOf s) (allOf s) (description s) (title s) (examples s)
    (default s) (not s) (minLength s) v (pattern s) (format s) (minimum s)
    (maximum s) (minItems s) (maxItems s) (additionalProperties s)
    (badExamples s).

Definition with_pattern v (s : JsonSchema) : JsonSchema :=
  mk (type s) (properties s) (required s) (items s) (enum s) (const s)
    (anyOf s) (oneOf s) (allOf s) (description s) (title s) (examples s)
    (default s) (not s) (minLength s) (maxLength s) v (format s) (minimum s)
    (maximum s) (minItems s) (maxItems s) (additionalProperties s)
    (badExamples s).

Definition with_format v (s : JsonSchema) : JsonSchema :=
  mk (type s) (properties s) (required s) (items s) (enum s) (const s)
    (anyOf s) (oneOf s) (allOf s) (description s) (title s) (examples s)
    (default s) (not s) (minLength s) (maxLength s) (pattern s) v (minimum s)
    (maximum s) (minItems s) (maxItems s) (additionalProperties s)
    (badExamples s).

Definition with_minimum v (s : JsonSchema) : JsonSchema :=
  mk (type s) (properties s) (required s) (items s) (enum s) (const s)
    (anyOf s) (oneOf s) (allOf s) (description s) (title s) (examples s)
    (default s) (not s) (minLength s) (maxLength s) (pattern s) (format s) v
    (maximum s) (minItems s) (maxItems s) (additionalProperties s)
    (badExamples s).

Definition with_maximum v (s : JsonSchema) : JsonSchema :=
  mk (type s) (properties s) (required s) (items s) (enum s) (const s)
    (anyOf s) (oneOf s) (allOf s) (description s) (title s) (examples s)
    (default s) (not s) (minLength s) (maxLength s) (pattern s) (format s)
    (minimum s) v (minItems s) (maxItems s) (additionalProperties s)
    (badExamples s).

Definition with_minItems v (s : JsonSchema) : JsonSchema :=
  mk (type s) (properties s) (required s) (items s) (enum s) (const s)
    (anyOf s) (oneOf s) (allOf s) (description s) (title s) (examples s)
    (default s) (not s) (minLength s) (maxLength s) (pattern s) (format s)
    (minimum s) (maximum s) v (maxItems s) (additionalProperties s)
    (badExamples s).

Definition with_maxItems v (s : JsonSchema) : JsonSchema :=
  mk (type s) (properties s) (required s) (items s) (enum s) (const s)
    (anyOf s) (oneOf s) (allOf s) (description s) (title s) (examples s)
    (default s) (not s) (minLength s) (maxLength s) (pattern s) (format s)
    (minimum s) (maximum s) (minItems s) v (additionalProperties s)
    (badExamples s).

Definition with_additionalProperties v (s : JsonSchema) : JsonSchema :=
  mk (type s) (properties s) (required s) (items s) (enum s) (const s)
    (anyOf s) (oneOf s) (allOf s) (description s) (title s) (examples s)
    (default s) (not s) (minLength s) (maxLength s) (pattern s) (format s)
    (minimum s) (maximum s) (minItems s) (maxItems s) v (badExamples s).

Definition with_badExamples v (s : JsonSchema) : JsonSchema :=
  mk (type s) (properties s) (required s) (items s) (enum s) (const s)
    (anyOf s) (oneOf s) (allOf s) (description s) (title s) (examples s)
    (default s) (not s) (minLength s) (maxLength s) (pattern s) (format s)
    (minimum s) (maximum s) (minItems s) (maxItems s) (additionalProperties s)
    v.

(** [schema.type === t] *)
Definition type_is (s : JsonSchema) (t : string) : bool :=
  match type s with
  | Some (TypeName t') => t' =? t
  | _ => false
  end.

End Schema.

Abbreviation JsonSchema := Schema.JsonSchema.

(** ** The intermediate model (src/extractors/types.ts) *)

(** [FieldType] is a union of string literals; the extractors also cast
    arbitrary [type] strings of the document to it, so at run time it is
    a string. *)
Definition FieldType : Type := string.

Inductive ConstraintType : Type :=
| CMin | CMax | CPattern | CFormat
| CMinItems | CMaxItems | CMinLength | CMaxLength.

(** [value: string | number] *)
Inductive ConstraintValue : Type :=
| CNum (n : Z)
| CStr (s : string).

Record FieldConstraint : Type := mkFieldConstraint {
  c_type : ConstraintType;
  c_value : ConstraintValue;
  c_display : option string;
}.

Record FieldExample : Type := mkFieldExample {
  e_value : JsonValue;
  e_isCorrect : bool;
  e_description : option string;
}.

(** [FieldType | SchemaField] *)
Inductive TypeOrField (F : Type) : Type :=
| BareType (t : FieldType)
| NestedField (f : F).
Arguments BareType {F} t.
Arguments NestedField {F} f.

Record UnionVariantOf (F : Type) : Type := mkUnionVariant {
  discriminatorValue : string;
  fields : list F;
}.
Arguments mkUnionVariant {F} _ _.
Arguments discriminatorValue {F} _.
Arguments fields {F} _.

Module Field.

(** [SchemaField].  The display hints [displayOrder] and [isPrimary] are
    never written or read by the sources and are left out. *)
Inductive SchemaField : Type := mk {
  name : string;
  type : FieldType;
  isRequired : bool;
  isNullable : option bool;
  enumValues : option (list string);
  arrayItemType : option (TypeOrField SchemaField);
  tupleItems : option (list (TypeOrField SchemaField));
  recordKeyType : option FieldType;
  recordValueType : option (TypeOrField SchemaField);
  objectFields : option (list SchemaField);
  unionVariants : option (list (UnionVariantOf SchemaField));
  unionTypes : option (list (TypeOrField SchemaField));
  discriminatorField : option string;
  description : option string;
  constraints : option (list FieldConstraint);
  examples : option (list FieldExample);
  defaultValue : option JsonValue;
}.

(** The object literal [{ name, type, isRequired }]. *)
Definition literal (name : string) (type : FieldType) (isRequired : bool)
  : SchemaField :=
  mk name type isRequired None None None None None None None None None
     None None None None None.

(** The assignment [f.k = v] for each property [k]. *)
Definition set_type (f : SchemaField) v : SchemaField :=
  mk (name f) v (isRequired f) (isNullable f) (enumValues f) (arrayItemType f)
    (tupleItems f) (recordKeyType f) (recordValueType f) (objectFields f)
    (unionVariants f) (unionTypes f) (discriminatorField f) (description f)
    (constraints f) (examples f) (defaultValue f).

Definition set_enumValues (f : SchemaField) v : SchemaField :=
  mk (name f) (type f) (isRequired f) (isNullable f) v (arrayItemType f)
    (tupleItems f) (recordKeyType f) (recordValueType f) (objectFields f)
    (unionVariants f) (unionTypes f) (discriminatorField f) (description f)
    (constraints f) (examples f) (defaultValue f).

Definition set_arrayItemType (f : SchemaField) v : SchemaField :=
  mk (name f) (type f) (isRequired f) (isNullable f) (enumValues f) v
    (tupleItems f) (recordKeyType f) (recordValueType f) (objectFields f)
    (unionVariants f) (unionTypes f) (discriminatorField f) (description f)
    (constraints f) (examples f) (defaultValue f).

Definition set_tupleItems (f : SchemaField) v : SchemaField :=
  mk (name f) (type f) (isRequired f) (isNullable f) (enumValues f)
    (arrayItemType f) v (recordKeyType f) (recordValueType f) (objectFields f)
    (unionVariants f) (unionTypes f) (discriminatorField f) (description f)
    (constraints f) (examples f) (defaultValue f).

Definition set_recordKeyType (f : SchemaField) v : SchemaField :=
  mk (name f) (type f) (isRequired f) (isNullable f) (enumValues f)
    (arrayItemType f) (tupleItems f) v (recordValueType f) (objectFields f)
    (unionVariants f) (unionTypes f) (discriminatorField f) (description f)
    (constraints f) (examples f) (defaultValue f).

Definition set_recordValueType (f : SchemaField) v : SchemaField :=
  mk (name f) (type f) (isRequired f) (isNullable f) (enumValues f)
    (arrayItemType f) (tupleItems f) (recordKeyType f) v (objectFields f)
    (unionVariants f) (unionTypes f) (discriminatorField f) (description f)
    (constraints f) (examples f) (defaultValue f).

Definition set_objectFields (f : SchemaField) v : SchemaField :=
  mk (name f) (type f) (isRequired f) (isNullable f) (enumValues f)
    (arrayItemType f) (tupleItems f) (recordKeyType f) (recordValueType f) v
    (unionVariants f) (unionTypes f) (discriminatorField f) (description f)
    (constraints f) (examples f) (defaultValue f).

Definition set_unionVariants (f : SchemaField) v : SchemaField :=
  mk (name f) (type f) (isRequired f) (isNullable f) (enumValues f)
    (arrayItemType f) (tupleItems f) (recordKeyType f) (recordValueType f)
    (objectFields f) v (unionTypes f) (discriminatorField f) (description f)
    (constraints f) (examples f) (defaultValue f).

Definition set_unionTypes (f : SchemaField) v : SchemaField :=
  mk (name f) (type f) (isRequired f) (isNullable f) (enumValues f)
    (arrayItemType f) (tupleItems f) (recordKeyType f) (recordValueType f)
    (objectFields f) (unionVariants f) v (discriminatorField f)
    (description f) (constraints f) (examples f) (defaultValue f).

Definition set_discriminatorField (f : SchemaField) v : SchemaField :=
  mk (name f) (type f) (isRequired f) (isNullable f) (enumValues f)
    (arrayItemType f) (tupleItems f) (recordKeyType f) (recordValueType f)
    (objectFields f) (unionVariants f) (unionTypes f) v (description f)
    (constraints f) (examples f) (defaultValue f).

Definition set_description (f : SchemaField) v : SchemaField :=
  mk (name f) (type f) (isRequired f) (isNullable f) (enumValues f)
    (arrayItemType f) (tupleItems f) (recordKeyType f) (recordValueType f)
    (objectFields f) (unionVariants f) (unionTypes f) (discriminatorField f) v
    (constraints f) (examples f) (defaultValue f).

Definition set_constraints (f : SchemaField) v : SchemaField :=
  mk (name f) (type f) (isRequired f) (isNullable f) (enumValues f)
    (arrayItemType f) (tupleItems f) (recordKeyType f) (recordValueType f)
    (objectFields f) (unionVariants f) (unionTypes f) (discriminatorField f)
    (description f) v (examples f) (defaultValue f).

Definition set_examples (f : SchemaField) v : SchemaField :=
  mk (name f) (type f) (isRequired f) (isNullable f) (enumValues f)
    (arrayItemType f) (tupleItems f) (recordKeyType f) (recordValueType f)
    (objectFields f) (unionVariants f) (unionTypes f) (discriminatorField f)
    (description f) (constraints f) v (defaultValue f).

Definition set_defaultValue (f : SchemaField) v : SchemaField :=
  mk (name f) (type f) (isRequired f) (isNullable f) (enumValues f)
    (arrayItemType f) (tupleItems f) (recordKeyType f) (recordValueType f)
    (objectFields f) (unionVariants f) (unionTypes f) (discriminatorField f)
    (description f) (constraints f) (examples f) v.

End Field.

Abbreviation SchemaField := Field.SchemaField.
Abbreviation UnionVariant := (UnionVariantOf SchemaField).

Record ModelMetadata : Type := mkModelMetadata {
  m_title : option string;
  m_description : option string;
  m_version : option string;
  m_examples : option (list JsonValue);
}.

Record SchemaModel : Type := mkSchemaModel {
  model_fields : list SchemaField;
  model_metadata : option ModelMetadata;
}.

Record ExtractOptions : Type := mkExtractOptions {
  maxDepth : option Z;
  includeDefaults : option bool;
}.

(** ** src/extractors/extractConstraints.ts *)

(** [constraints.push(c)] *)
Definition push {A : Type} (l : list A) (x : A) : list A := l ++ [x].

Definition extractConstraints (schema : JsonSchema) : list FieldConstraint :=
  let constraints := [] in
  (* String constraints *)
  let constraints :=
    match Schema.minLength schema with
    | Some n =>
        push constraints
          (mkFieldConstraint CMinLength (CNum n)
             (Some ("min " ++ JS.Number_toString n ++ " chars")))
    | None => constraints
    end in
  let constraints :=
    match Schema.maxLength schema with
    | Some n =>
        push constraints
          (mkFieldConstraint CMaxLength (CNum n)
             (Some ("max " ++ JS.Number_toString n ++ " chars")))
    | None => constraints
    end in
  let constraints :=
    match Schema.pattern schema with
    | Some p =>
        if JS.truthy_string (Some p) then
          push constraints
            (mkFieldConstraint CPattern (CStr p) (Some ("pattern: " ++ p)))
        else constraints
    | None => constraints
    end in
  let constraints :=
    match Schema.format schema with
    | Some f =>
        if JS.truthy_string (Some f) then
          push constraints
            (mkFieldConstraint CFormat (CStr f) (Some ("format: " ++ f)))
        else constraints
    | None => constraints
    end in
  (* Number constraints *)
  let constraints :=
    match Schema.minimum schema with
    | Some n =>
        push constraints
          (mkFieldConstraint CMin (CNum n)
             (Some ("min: " ++ JS.Number_toString n)))
    | None => constraints
    end in
  let constraints :=
    match Schema.maximum schema with
    | Some n =>
        push constraints
          (mkFieldConstraint CMax (CNum n)
             (Some ("max: " ++ JS.Number_toString n)))
    | None => constraints
    end in
  (* Array constraints *)
  let constraints :=
    match Schema.minItems schema with
    | Some n =>
        push constraints
          (mkFieldConstraint CMinItems (CNum n)
             (Some ("min " ++ JS.Number_toString n ++ " items")))
    | None => constraints
    end in
  let constraints :=
    match Schema.maxItems schema with
    | Some n =>
        push constraints
          (mkFieldConstraint CMaxItems (CNum n)
             (Some ("max " ++ JS.Number_toString n ++ " items")))
    | None => constraints
    end in
  constraints.

(** ** src/extractors/utils/detectFieldType.ts *)

(** [Array.isArray(schema.type) && schema.type.length > 1] *)
Definition type_is_union (schema : JsonSchema) : bool :=
  match Schema.type schema with
  | Some (TypeList ts) => (1 <? List.length ts)%nat
  | _ => false
  end.

(** Truthiness of [schema.additionalProperties]. *)
Definition truthy_additional (o : option (BoolOr JsonSchema)) : bool :=
  match o with
  | Some (IsSchema _) => true
  | Some (IsBool b) => b
  | None => false
  end.

(** [Array.isArray(schema.items)] *)
Definition items_isArray (o : option (OneOrMany JsonSchema)) : bool :=
  match o with
  | Some (Many _) => true
  | _ => false
  end.

(** [schema.format === f] *)
Definition format_is (schema : JsonSchema) (f : string) : bool :=
  match Schema.format schema with
  | Some f' => f' =? f
  | None => false
  end.

Definition detectFieldType (schema : JsonSchema) : FieldType :=
  if JS.defined (Schema.enum schema) then "enum"
  else if JS.defined (Schema.const schema) then "enum"
  else if JS.defined (Schema.oneOf schema) || JS.defined (Schema.anyOf schema)
  then "union"
  else if JS.defined (Schema.allOf schema) then "object"
  else if type_is_union schema then "union"
  else if Schema.type_is schema "object" then
    if truthy_additional (Schema.additionalProperties schema)
       && negb (JS.defined (Schema.properties schema))
    then "record"
    else "object"
  else if Schema.type_is schema "array" then
    if items_isArray (Schema.items schema) then "tuple" else "array"
  else if Schema.type_is schema "string" && format_is schema "date-time"
  then "date"
  else if Schema.type_is schema "integer" then "integer"
  else if Schema.type_is schema "number" then "number"
  else if Schema.type_is schema "boolean" then "boolean"
  else if Schema.type_is schema "string" then "string"
  else "any".

(** ** src/extractors/utils/unwrapNullable.ts *)

Record Unwrapped : Type := mkUnwrapped {
  actualSchema : JsonSchema;
  isNullable : bool;
}.

Definition unwrapNullable (schema : JsonSchema) : Unwrapped :=
  (* Check for nullable pattern: anyOf with null type *)
  let fromAnyOf :=
    match Schema.anyOf schema with
    | Some anyOf =>
        let hasNull := existsb (fun s => Schema.type_is s "null") anyOf in
        let nonNullSchemas :=
          filter (fun s => negb (Schema.type_is s "null")) anyOf in
        match nonNullSchemas with
        | [actualSchema] =>
            if hasNull then
              (* Handle nested anyOf (from optional + nullable) *)
              let actualSchema :=
                match Schema.anyOf actualSchema with
                | Some inner =>
                    match
                      find (fun s => negb (JS.defined (Schema.not s))) inner
                    with
                    | Some innerActual => innerActual
                    | None => actualSchema
                    end
                | None => actualSchema
                end in
              Some (mkUnwrapped actualSchema true)
            else None
        | _ => None
        end
    | None => None
    end in
  match fromAnyOf with
  | Some result => result
  | None =>
      (* Check for type array with null *)
      match Schema.type schema with
      | Some (TypeList ts) =>
          if existsb (String.eqb "null") ts then
            let nonNullTypes := filter (fun t => negb (t =? "null")) ts in
            mkUnwrapped
              (Schema.with_type
                 (Some match nonNullTypes with
                       | [t] => TypeName t
                       | _ => TypeList nonNullTypes
                       end)
                 schema)
              true
          else mkUnwrapped schema false
      | _ => mkUnwrapped schema false
      end
  end.

(** ** src/extractors/utils/getVariantType.ts *)

Definition getVariantType (schema : JsonSchema) : string :=
  if Schema.type_is schema "string" then "string"
  else if Schema.type_is schema "number" then "number"
  else if Schema.type_is schema "integer" then "integer"
  else if Schema.type_is schema "boolean" then "boolean"
  else if Schema.type_is schema "object" then "object"
  else if Schema.type_is schema "array" then "array"
  else if JS.defined (Schema.enum schema) then "enum"
  else "unknown".

(** ** src/extractors/utils/findDiscriminator.ts *)

(** [v.properties?.[fieldName]?.const] *)
Definition property_const (v : JsonSchema) (fieldName : string)
  : option JsonValue :=
  match Schema.properties v with
  | Some props =>
      match JS.get fieldName props with
      | Some p => Schema.const p
      | None => None
      end
  | None => None
  end.

Definition discriminatorNames : list string :=
  ["type"; "kind"; "discriminator"].

Definition findDiscriminator (variants : list JsonSchema) : option string :=
  (* Check common discriminator field names *)
  find
    (fun fieldName =>
       forallb (fun v => JS.defined (property_const v fieldName)) variants)
    discriminatorNames.

(** ** src/extractors/extractUnionData.ts *)

Record UnionData : Type := mkUnionData {
  isDiscriminated : bool;
  variants : option (list UnionVariant);
  u_discriminatorField : option string;
  types : list string;
  u_unionTypes : option (list (TypeOrField SchemaField));
}.

(** [schema.oneOf || schema.anyOf || []] *)
Definition union_branches (schema : JsonSchema) : list JsonSchema :=
  match Schema.oneOf schema with
  | Some l => l
  | None =>
      match Schema.anyOf schema with
      | Some l => l
      | None => []
      end
  end.

(** [variant.type && typeof variant.type === 'string'], giving the string. *)
Definition scalar_type (schema : JsonSchema) : option string :=
  match Schema.type schema with
  | Some (TypeName t) => if t =? "" then None else Some t
  | _ => None
  end.

(** The recursive extractor is a parameter here, as in the source. *)
Definition extractUnionData
    (schema : JsonSchema)
    (extractObjectFields :
       JsonSchema -> ExtractOptions -> Z -> list SchemaField)
    (options : ExtractOptions) (depth : Z) : UnionData :=
  let variants := union_branches schema in
  (* Check for discriminated union *)
  let discriminatorField := findDiscriminator variants in
  match discriminatorField with
  | Some discriminatorName =>
      (* every candidate name is a non-empty string, hence truthy *)
      let unionVariants :=
        flat_map
          (fun variant =>
             match property_const variant discriminatorName with
             | Some discriminatorValue =>
                 [mkUnionVariant (JS.String_ discriminatorValue)
                    (extractObjectFields variant options (depth + 1)%Z)]
             | None => []
             end)
          variants in
      mkUnionData true (Some unionVariants) discriminatorField [] None
  | None =>
      (* Non-discriminated union - collect both type names and actual types *)
      let types := map getVariantType variants in
      let unionTypes :=
        map
          (fun variant =>
             match Schema.enum variant with
             | Some values =>
                 (* Enum variant *)
                 NestedField
                   (Field.set_enumValues
                      (Field.literal "variant" "enum" true)
                      (Some (map JS.String_ values)))
             | None =>
                 if JS.defined (Schema.properties variant) then
                   (* Complex object - extract as SchemaField *)
                   let fields :=
                     extractObjectFields variant options (depth + 1)%Z in
                   NestedField
                     (Field.set_objectFields
                        (Field.literal "variant" "object" true)
                        (Some fields))
                 else
                   match scalar_type variant with
                   | Some t => BareType t (* Simple primitive type *)
                   | None => BareType "any" (* Fallback to type name *)
                   end
             end)
          variants in
      mkUnionData false None None types (Some unionTypes)
  end.

(** [options.maxDepth || 3] *)
Definition maxDepth_or_3 (options : ExtractOptions) : Z :=
  match maxDepth options with
  | Some m => if (m =? 0)%Z then 3%Z else m
  | None => 3%Z
  end.

(** [a || b] on optional arrays. *)
Definition or_defined {A : Type} (a b : option A) : option A :=
  JS.or_else JS.defined a b.

(** ** The extractors that call [extractObjectFields]

    [extractObjectFields] and [extractField] call each other through
    [extractUnionField] and [extractArrayItemType].  The functions of this
    section take the object-field extractor as a variable; the recursion
    is closed below. *)

Module Open.
Section WithObjectFields.

Variable extractObjectFields :
  JsonSchema -> ExtractOptions -> Z -> list SchemaField.

(** *** src/extractors/extractUnionField.ts *)

Definition extractUnionField
    (name : string) (schema : JsonSchema) (isRequired : bool)
    (options : ExtractOptions) (depth : Z) : SchemaField :=
  let unionData := extractUnionData schema extractObjectFields options depth in
  if isDiscriminated unionData then
    Field.set_discriminatorField
      (Field.set_unionVariants
         (Field.literal name "discriminated-union" isRequired)
         (variants unionData))
      (u_discriminatorField unionData)
  else
    Field.set_description
      (Field.set_unionTypes
         (Field.literal name "union" isRequired)
         (u_unionTypes unionData))
      (Some ("Union of " ++ JS.join ", " (types unionData))).

(** *** src/extractors/extractArrayItemType.ts *)

(** [typeof t === 'object' && t.type === 'enum' && t.enumValues] *)
Definition is_enum_variant (t : TypeOrField SchemaField) : bool :=
  match t with
  | NestedField f =>
      (Field.type f =? "enum") && JS.defined (Field.enumValues f)
  | BareType _ => false
  end.

Definition extractArrayItemType
    (itemSchema : JsonSchema) (options : ExtractOptions) (depth : Z)
  : TypeOrField SchemaField :=
  (* Handle union types first - check if it contains an enum *)
  if JS.defined (Schema.oneOf itemSchema)
     || JS.defined (Schema.anyOf itemSchema)
  then
    let unionField :=
      extractUnionField "item" itemSchema true options (depth + 1)%Z in
    (* If this union contains an enum, extract it for display *)
    let enumVariant :=
      if Field.type unionField =? "union" then
        match Field.unionTypes unionField with
        | Some unionTypes => find is_enum_variant unionTypes
        | None => None
        end
      else None in
    match enumVariant with
    | Some (NestedField e) =>
        match Field.enumValues e with
        | Some values =>
            (* Return the enum variant so it displays prominently *)
            NestedField
              (Field.set_enumValues (Field.literal "item" "enum" true)
                 (Some values))
        | None => NestedField unionField
        end
    | _ => NestedField unionField
    end
  else
    match
      if negb (JS.defined (Schema.properties itemSchema))
      then scalar_type itemSchema
      else None
    with
    | Some t =>
        (* Simple types *)
        match Schema.enum itemSchema with
        | Some values =>
            NestedField
              (Field.set_enumValues (Field.literal "item" "enum" true)
                 (Some (map JS.String_ values)))
        | None => BareType t
        end
    | None =>
        if Schema.type_is itemSchema "object"
           || JS.defined (Schema.properties itemSchema)
        then
          (* Complex types - return full SchemaField *)
          NestedField
            (Field.set_objectFields (Field.literal "item" "object" true)
               (Some (extractObjectFields itemSchema options (depth + 1)%Z)))
        else BareType "any"
    end.

(** [extractArrayItemType(schema.items, ...)]: when [items] is an array
    (the positional form), the value passed is a JavaScript array, which
    has none of [oneOf], [anyOf], [type] and [properties]. *)
Definition extractArrayItemType_of_items
    (items : OneOrMany JsonSchema) (options : ExtractOptions) (depth : Z)
  : TypeOrField SchemaField :=
  match items with
  | One itemSchema => extractArrayItemType itemSchema options depth
  | Many _ => BareType "any"
  end.

(** *** src/extractors/extractField.ts *)

Definition extractField
    (name : string) (schema : JsonSchema) (isRequired : bool)
    (options : ExtractOptions) (depth : Z) : SchemaField :=
  (* Preserve top-level properties before unwrapping *)
  let topLevelDescription := Schema.description schema in
  let topLevelExamples := Schema.examples schema in
  (* Handle nullable types *)
  let '(mkUnwrapped actualSchema isNullable) := unwrapNullable schema in
  let field :=
    Field.mk name (detectFieldType actualSchema) isRequired (Some isNullable)
      None None None None None None None None None
      (JS.or_else JS.truthy_string topLevelDescription
         (Schema.description actualSchema))
      None None None in
  (* Extract constraints *)
  let field :=
    Field.set_constraints field (Some (extractConstraints actualSchema)) in
  (* Extract examples (prefer top-level, fall back to unwrapped schema) *)
  let examples := or_defined topLevelExamples (Schema.examples actualSchema) in
  let badExamples :=
    JS.or_else JS.truthy_value (Schema.badExamples schema)
      (Schema.badExamples actualSchema) in
  let allExamples : list FieldExample := [] in
  let allExamples :=
    match examples with
    | Some values =>
        (allExamples
           ++ map (fun value => mkFieldExample value true None) values)%list
    | None => allExamples
    end in
  let allExamples :=
    match badExamples with
    | Some (JArr values) =>
        (allExamples
           ++ map (fun value => mkFieldExample value false None) values)%list
    | _ => allExamples
    end in
  let field :=
    if (0 <? List.length allExamples)%nat
    then Field.set_examples field (Some allExamples)
    else field in
  (* Extract type-specific properties *)
  let field :=
    match Schema.enum actualSchema with
    | Some values =>
        Field.set_enumValues (Field.set_type field "enum")
          (Some (map JS.String_ values))
    | None =>
    match Schema.const actualSchema with
    | Some value =>
        (* Discriminator field *)
        Field.set_discriminatorField
          (Field.set_enumValues (Field.set_type field "enum")
             (Some [JS.String_ value]))
          (Some name)
    | None =>
    if (Field.type field =? "record")
       && truthy_additional (Schema.additionalProperties actualSchema)
    then
      (* Extract record key/value types *)
      let field := Field.set_recordKeyType field (Some "string") in
      match Schema.additionalProperties actualSchema with
      | Some (IsSchema valueSchema) =>
          if JS.defined (Schema.properties valueSchema) then
            (* Complex object value *)
            Field.set_recordValueType field
              (Some (NestedField
                 (Field.set_objectFields
                    (Field.literal "value" "object" true)
                    (Some (extractObjectFields valueSchema options
                             (depth + 1)%Z)))))
          else
            match scalar_type valueSchema with
            | Some t =>
                (* Simple type value *)
                Field.set_recordValueType field (Some (BareType t))
            | None => Field.set_recordValueType field (Some (BareType "any"))
            end
      | _ =>
          (* the boolean [true]: it has neither [properties] nor [type] *)
          Field.set_recordValueType field (Some (BareType "any"))
      end
    else if (Field.type field =? "object")
            && (depth <? maxDepth_or_3 options)%Z
    then
      if JS.defined (Schema.properties actualSchema) then
        Field.set_objectFields field
          (Some (extractObjectFields actualSchema options (depth + 1)%Z))
      else field
    else if (Field.type field =? "tuple")
            && items_isArray (Schema.items actualSchema)
    then
      (* Extract tuple items *)
      match Schema.items actualSchema with
      | Some (Many items) =>
          Field.set_tupleItems field
            (Some (map (fun item => extractArrayItemType item options depth)
                     items))
      | _ => field
      end
    else if (Field.type field =? "array")
            && JS.defined (Schema.items actualSchema)
    then
      match Schema.items actualSchema with
      | Some items =>
          Field.set_arrayItemType field
            (Some (extractArrayItemType_of_items items options depth))
      | None => field
      end
    else if type_is_union actualSchema then
      (* Handle type arrays (union of primitives like ["string", "number"]) *)
      match Schema.type actualSchema with
      | Some (TypeList ts) =>
          Field.set_unionTypes (Field.set_type field "union")
            (Some (map BareType ts))
      | _ => field
      end
    else if (JS.defined (Schema.oneOf actualSchema)
             || JS.defined (Schema.anyOf actualSchema))
            && (depth <? maxDepth_or_3 options)%Z
    then
      let unionData :=
        extractUnionData actualSchema extractObjectFields options depth in
      if isDiscriminated unionData then
        Field.set_discriminatorField
          (Field.set_unionVariants
             (Field.set_type field "discriminated-union")
             (variants unionData))
          (u_discriminatorField unionData)
      else
        (* For simple unions, describe the types *)
        Field.set_description
          (Field.set_unionTypes (Field.set_type field "union")
             (u_unionTypes unionData))
          (Some ("Union of " ++ JS.join ", " (types unionData)))
    else field
    end
    end in
  (* Extract default value if requested *)
  let field :=
    match includeDefaults options, Schema.default actualSchema with
    | Some true, Some value => Field.set_defaultValue field (Some value)
    | _, _ => field
    end in
  field.

(** *** src/extractors/extractArrayField.ts *)

Definition extractArrayField
    (name : string) (schema : JsonSchema) (isRequired : bool)
    (options : ExtractOptions) (depth : Z) : SchemaField :=
  let field :=
    Field.set_description (Field.literal name "array" isRequired)
      (Schema.description schema) in
  let field := Field.set_constraints field (Some (extractConstraints schema)) in
  let field :=
    match Schema.items schema with
    | Some items =>
        Field.set_arrayItemType field
          (Some (extractArrayItemType_of_items items options depth))
    | None => field
    end in
  field.

End WithObjectFields.
End Open.

(** ** src/extractors/extractObjectFields.ts *)

(** Truthiness of [f.discriminatorField]. *)
Definition hasDiscriminator (f : SchemaField) : bool :=
  JS.truthy_string (Field.discriminatorField f).

(** The comparator passed to [fields.sort]:
    discriminator fields first, then required, then optional. *)
Definition compareFields (a b : SchemaField) : Z :=
  if hasDiscriminator a && negb (hasDiscriminator b) then (-1)%Z
  else if negb (hasDiscriminator a) && hasDiscriminator b then 1%Z
  else if Field.isRequired a && negb (Field.isRequired b) then (-1)%Z
  else if negb (Field.isRequired a) && Field.isRequired b then 1%Z
  else 0%Z.

(** The body of [extractObjectFields], over the field extractor it
    calls. *)
Definition extractObjectFields_body
    (extractField :
       string -> JsonSchema -> bool -> ExtractOptions -> Z -> SchemaField)
    (schema : JsonSchema) (options : ExtractOptions) (depth : Z)
  : list SchemaField :=
  let required :=
    match Schema.required schema with
    | Some names => names
    | None => []
    end in
  let fields :=
    match Schema.properties schema with
    | Some props =>
        map (fun '(name, fieldSchema) =>
               extractField name fieldSchema (JS.Set_has required name)
                 options depth)
          props
    | None => []
    end in
  JS.sort compareFields fields.

(** ** Closing the recursion

    A JSON document is a finite tree, and every call of
    [extractObjectFields] made while extracting a field of [schema] is on
    a node strictly below [schema].  The recursion is therefore run for
    [height schema] rounds; [extractObjectFields_unfold] below shows that
    this is the function the source defines. *)

Definition height_list {A : Type} (h : A -> nat) (l : list A) : nat :=
  list_max (map h l).

Definition height_option {A : Type} (h : A -> nat) (o : option A) : nat :=
  match o with
  | Some a => h a
  | None => 0
  end.

Fixpoint height (s : JsonSchema) : nat :=
  S (list_max
       [ height_option (height_list (fun p => height (snd p)))
           (Schema.properties s);
         height_option
           (fun i =>
              match i with
              | One a => height a
              | Many l => height_list height l
              end)
           (Schema.items s);
         height_option (height_list height) (Schema.anyOf s);
         height_option (height_list height) (Schema.oneOf s);
         height_option (height_list height) (Schema.allOf s);
         height_option height (Schema.not s);
         height_option
           (fun a =>
              match a with
              | IsSchema v => height v
              | IsBool _ => 0
              end)
           (Schema.additionalProperties s) ]).

Fixpoint extractObjectFields_rounds (rounds : nat)
    (schema : JsonSchema) (options : ExtractOptions) (depth : Z)
  : list SchemaField :=
  match rounds with
  | O => []
  | S rounds' =>
      extractObjectFields_body
        (Open.extractField (extractObjectFields_rounds rounds'))
        schema options depth
  end.

Definition extractObjectFields
    (schema : JsonSchema) (options : ExtractOptions) (depth : Z)
  : list SchemaField :=
  extractObjectFields_rounds (height schema) schema options depth.

Definition extractField := Open.extractField extractObjectFields.
Definition extractUnionField := Open.extractUnionField extractObjectFields.
Definition extractArrayItemType :=
  Open.extractArrayItemType extractObjectFields.
Definition extractArrayItemType_of_items :=
  Open.extractArrayItemType_of_items extractObjectFields.
Definition extractArrayField := Open.extractArrayField extractObjectFields.

(** ** src/extractors/extractToModel.ts *)

Definition OPTIONS : ExtractOptions := mkExtractOptions (Some 3%Z) (Some false).

(** [{ ...OPTIONS, ...options }].  A key of [options] that is present
    with the value [undefined] would overwrite the default by [undefined];
    [extractField] reads [maxDepth] through [|| 3] and [includeDefaults]
    by truthiness, so that case behaves as the default does. *)
Definition merge_options (options : option ExtractOptions) : ExtractOptions :=
  match options with
  | Some o =>
      mkExtractOptions
        (match maxDepth o with
         | Some m => Some m
         | None => maxDepth OPTIONS
         end)
        (match includeDefaults o with
         | Some b => Some b
         | None => includeDefaults OPTIONS
         end)
  | None => OPTIONS
  end.

Definition extractToModel
    (schema : JsonSchema) (options : option ExtractOptions) : SchemaModel :=
  let opts := merge_options options in
  let metadata :=
    mkModelMetadata (Schema.title schema) (Schema.description schema) None
      (Schema.examples schema) in
  (* Extract root-level fields *)
  let fields :=
    if Schema.type_is schema "object" && JS.defined (Schema.properties schema)
    then extractObjectFields schema opts 0%Z
    else if Schema.type_is schema "array" && JS.defined (Schema.items schema)
    then
      (* Root array *)
      [extractArrayField "root" schema true opts 0%Z]
    else if JS.defined (Schema.oneOf schema) || JS.defined (Schema.anyOf schema)
    then
      (* Root union *)
      [extractUnionField "root" schema true opts 0%Z]
    else
      (* Primitive root *)
      [extractField "root" schema true opts 0%Z] in
  mkSchemaModel fields (Some metadata).

(** ** Sample documents *)

Module Samples.

Definition string_schema : JsonSchema :=
  Schema.with_type (Some (TypeName "string")) Schema.empty.

Definition number_schema : JsonSchema :=
  Schema.with_type (Some (TypeName "number")) Schema.empty.

Definition null_schema : JsonSchema :=
  Schema.with_type (Some (TypeName "null")) Schema.empty.

(** [{type: "object", properties: props}] *)
Definition object_schema (props : list (string * JsonSchema)) : JsonSchema :=
  Schema.with_properties (Some props)
    (Schema.with_type (Some (TypeName "object")) Schema.empty).

(** [{type: "array", items: item}] *)
Definition array_schema (item : JsonSchema) : JsonSchema :=
  Schema.with_items (Some (One item))
    (Schema.with_type (Some (TypeName "array")) Schema.empty).

(** [{const: v}] *)
Definition const_schema (v : string) : JsonSchema :=
  Schema.with_const (Some (JStr v)) Schema.empty.

(** [{anyOf: [{type: "null"}, {type: "string"}]}] *)
Definition nullable_string : JsonSchema :=
  Schema.with_anyOf (Some [null_schema; string_schema]) Schema.empty.

(** A document three levels deep:
    [{type: "object", properties: {level1: {type: "object", properties:
       {level2: {type: "object", properties: {level3: {type: "string"}}}}}}}] *)
Definition three_levels : JsonSchema :=
  object_schema
    [("level1",
      object_schema
        [("level2", object_schema [("level3", string_schema)])])].

(** [{type: "object", properties: {a: {type: "object", properties:
       {b: {type: "array", items: {type: "object", properties:
          {c: {type: "string"}}}}}}}}] *)
Definition array_below_bound : JsonSchema :=
  object_schema
    [("a",
      object_schema
        [("b", array_schema (object_schema [("c", string_schema)]))])].

(** [{type: "object", properties: {a: {type: "object", properties:
       {r: {type: "object", additionalProperties: {type: "object",
          properties: {x: {type: "string"}}}}}}}}] *)
Definition record_below_bound : JsonSchema :=
  object_schema
    [("a",
      object_schema
        [("r",
          Schema.with_additionalProperties
            (Some (IsSchema (object_schema [("x", string_schema)])))
            (Schema.with_type (Some (TypeName "object")) Schema.empty))])].

(** [{oneOf: [{type: "object", properties: {type: {const: "text"},
       content: {type: "string"}}}, {type: "object", properties:
       {type: {const: "image"}, url: {type: "string"}}}]}] *)
Definition text_or_image : JsonSchema :=
  Schema.with_oneOf
    (Some [object_schema
             [("type", const_schema "text"); ("content", string_schema)];
           object_schema
             [("type", const_schema "image"); ("url", string_schema)]])
    Schema.empty.

(** [{type: "object", properties: {name: {type: "string"},
       age: {type: "number"}}, required: ["name"]}] *)
Definition name_and_age : JsonSchema :=
  Schema.with_required (Some ["name"])
    (object_schema [("name", string_schema); ("age", number_schema)]).

(** [{oneOf: []}] *)
Definition empty_oneOf : JsonSchema :=
  Schema.with_oneOf (Some []) Schema.empty.

(** [{description: "Top", oneOf: [{type: "string"}, {type: "number"}]}] *)
Definition described_union : JsonSchema :=
  Schema.with_description (Some "Top")
    (Schema.with_oneOf (Some [string_schema; number_schema]) Schema.empty).

(** [{type: "string", pattern: ""}] *)
Definition empty_pattern : JsonSchema :=
  Schema.with_pattern (Some "") string_schema.

(** [{type: "string", minLength: 3, format: "email"}] *)
Definition email_schema : JsonSchema :=
  Schema.with_format (Some "email")
    (Schema.with_minLength (Some 3%Z) string_schema).

End Samples.

(** ** Themes (src/formatters/types.ts) *)

Record ThemeOptions : Type := mkThemeOptions {
  indentSize : option Z;
  maxLineWidth : option Z;
}.

Record ThemeFormatOptions : Type := mkThemeFormatOptions {
  style : option string;
  tf_indentSize : option Z;
}.

(** The outcome of a call that may throw: the value it returns, or the
    message of the error it throws. *)
Inductive Outcome (A : Type) : Type :=
| Returns (a : A)
| Throws (message : string).
Arguments Returns {A} a.
Arguments Throws {A} message.

(** The interface [SchemaTheme]: the registry only reads [name] and
    calls [format].  A [format] method returns a string or throws. *)
Record SchemaTheme : Type := mkSchemaTheme {
  theme_name : string;
  theme_description : string;
  theme_format : SchemaModel -> option ThemeOptions -> Outcome string;
}.

(** ** src/formatters/ThemeRegistry.ts *)

Module ThemeRegistry.

(** [Map<string, SchemaTheme>], in insertion order. *)
Definition t : Type := list (string * SchemaTheme).

(** [new Map()] *)
Definition empty : t := [].

(** [Map.prototype.set]: a key already present keeps its position. *)
Fixpoint Map_set (key : string) (value : SchemaTheme) (m : t) : t :=
  match m with
  | [] => [(key, value)]
  | (k, v) :: rest =>
      if k =? key then (k, value) :: rest
      else (k, v) :: Map_set key value rest
  end.

Definition register (theme : SchemaTheme) (this : t) : t :=
  Map_set (theme_name theme) theme this.

Definition get (this : t) (name : string) : option SchemaTheme :=
  JS.get name this.

Definition has (this : t) (name : string) : bool :=
  JS.defined (JS.get name this).

Definition list (this : t) : list string :=
  map fst this.

Definition format (this : t) (model : SchemaModel) (themeName : string)
    (options : option ThemeOptions) : Outcome string :=
  match get this themeName with
  | Some theme => theme_format theme model options
  | None =>
      Throws
        ("Theme '" ++ themeName ++ "' not found. Available: "
           ++ JS.join ", " (list this))
  end.

End ThemeRegistry.

(** ** The registered themes, src/formatters/index.ts and
    src/formatters/formatModel.ts

    The registry reaches a theme only through the [SchemaTheme]
    interface.  The [format] methods of the four theme classes are
    variables here; those of [StandardTheme], [ExpandedTheme] and
    [CondensedTheme] are given further down ([Standard_format],
    [Expanded_format], [Condensed_format]). *)

Section Formatters.

Variable StandardTheme_format :
  SchemaModel -> option ThemeOptions -> Outcome string.
Variable ExpandedTheme_format :
  SchemaModel -> option ThemeOptions -> Outcome string.
Variable CondensedTheme_format :
  SchemaModel -> option ThemeOptions -> Outcome string.
Variable JSONTheme_format :
  SchemaModel -> option ThemeOptions -> Outcome string.

Definition StandardTheme : SchemaTheme :=
  mkSchemaTheme "standard" "Clean, minimal format for schema documentation"
    StandardTheme_format.

Definition ExpandedTheme : SchemaTheme :=
  mkSchemaTheme "expanded" "Full detail format with descriptions and examples"
    ExpandedTheme_format.

Definition CondensedTheme : SchemaTheme :=
  mkSchemaTheme "condensed"
    "Ultra-compact format for minimal token usage in AI prompts"
    CondensedTheme_format.

Definition JSONTheme : SchemaTheme :=
  mkSchemaTheme "json" "Structured JSON output for programmatic consumption"
    JSONTheme_format.

(** [new ThemeRegistry()]: the constructor registers the default themes. *)
Definition defaultRegistry : ThemeRegistry.t :=
  ThemeRegistry.register JSONTheme
    (ThemeRegistry.register CondensedTheme
       (ThemeRegistry.register ExpandedTheme
          (ThemeRegistry.register StandardTheme ThemeRegistry.empty))).

Definition DEFALUT_OPTIONS : ThemeFormatOptions :=
  mkThemeFormatOptions (Some "standard") (Some 2%Z).

(** [{ ...DEFALUT_OPTIONS, ...options }] *)
Definition merge_format_options (options : option ThemeFormatOptions)
  : ThemeFormatOptions :=
  match options with
  | Some o =>
      mkThemeFormatOptions
        (match style o with
         | Some s => Some s
         | None => style DEFALUT_OPTIONS
         end)
        (match tf_indentSize o with
         | Some n => Some n
         | None => tf_indentSize DEFALUT_OPTIONS
         end)
  | None => DEFALUT_OPTIONS
  end.

(** [opts.style || 'standard'], the theme name [formatModel] requests. *)
Definition requestedTheme (options : option ThemeFormatOptions) : string :=
  match
    JS.or_else JS.truthy_string (style (merge_format_options options))
      (Some "standard")
  with
  | Some themeName => themeName
  | None => "standard"
  end.

Definition formatModel (model : SchemaModel)
    (options : option ThemeFormatOptions) : Outcome string :=
  let opts := merge_format_options options in
  let themeName := requestedTheme options in
  let themeOptions := mkThemeOptions (tf_indentSize opts) None in
  ThemeRegistry.format defaultRegistry model themeName (Some themeOptions).

End Formatters.

(** ** Notions used to state the properties *)

(** The bucket of a field under [compareFields]: discriminator fields,
    required before optional, then the other fields, required before
    optional. *)
Definition fieldRank (f : SchemaField) : nat :=
  (if hasDiscriminator f then 0 else 2) + (if Field.isRequired f then 0 else 1).

(** [schema.required || []] *)
Definition requiredNames (schema : JsonSchema) : list string :=
  match Schema.required schema with
  | Some names => names
  | None => []
  end.

(** The fields of [schema.properties] in the order of the document, as
    [extractObjectFields] pushes them before it sorts. *)
Definition fieldsInDocumentOrder
    (schema : JsonSchema) (options : ExtractOptions) (depth : Z)
  : list SchemaField :=
  match Schema.properties schema with
  | Some props =>
      map (fun '(name, fieldSchema) =>
             extractField name fieldSchema
               (JS.Set_has (requiredNames schema) name) options depth)
        props
  | None => []
  end.

(** The fields of one bucket. *)
Definition inBucket (tagged required : bool) (f : SchemaField) : bool :=
  Bool.eqb (hasDiscriminator f) tagged && Bool.eqb (Field.isRequired f) required.





(** The two encodings of a nullable schema that [unwrapNullable]
    recognizes: an [anyOf] with a null branch and exactly one other
    branch, and a [type] array that contains ["null"]. *)
Definition nullableAnyOf (schema : JsonSchema) : bool :=
  match Schema.anyOf schema with
  | Some branches =>
      existsb (fun s => Schema.type_is s "null") branches
      && (List.length
            (filter (fun s => negb (Schema.type_is s "null")) branches)
          =? 1)%nat
  | None => false
  end.

Definition nullableTypeArray (schema : JsonSchema) : bool :=
  match Schema.type schema with
  | Some (TypeList ts) => existsb (String.eqb "null") ts
  | _ => false
  end.

(** The constraint entry of one recognized key: a numeric key gives an
    entry when it is present, [pattern] and [format] when they hold a
    non-empty string. *)
Definition constraintFor (kind : ConstraintType) (schema : JsonSchema)
  : option FieldConstraint :=
  let numeric (value : option Z) (display : string -> string) :=
    option_map
      (fun n =>
         mkFieldConstraint kind (CNum n)
           (Some (display (JS.Number_toString n))))
      value in
  let textual (value : option string) (display : string -> string) :=
    match value with
    | Some text =>
        if text =? "" then None
        else Some (mkFieldConstraint kind (CStr text) (Some (display text)))
    | None => None
    end in
  match kind with
  | CMinLength =>
      numeric (Schema.minLength schema) (fun n => "min " ++ n ++ " chars")
  | CMaxLength =>
      numeric (Schema.maxLength schema) (fun n => "max " ++ n ++ " chars")
  | CPattern => textual (Schema.pattern schema) (fun p => "pattern: " ++ p)
  | CFormat => textual (Schema.format schema) (fun f => "format: " ++ f)
  | CMin => numeric (Schema.minimum schema) (fun n => "min: " ++ n)
  | CMax => numeric (Schema.maximum schema) (fun n => "max: " ++ n)
  | CMinItems =>
      numeric (Schema.minItems schema) (fun n => "min " ++ n ++ " items")
  | CMaxItems =>
      numeric (Schema.maxItems schema) (fun n => "max " ++ n ++ " items")
  end.

(** The fixed enumeration: string keys, numeric bounds, item counts. *)
Definition constraintOrder : list ConstraintType :=
  [CMinLength; CMaxLength; CPattern; CFormat; CMin; CMax; CMinItems; CMaxItems].

(** An optional entry as a list of zero or one entry. *)
Definition option_list {A : Type} (o : option A) : list A :=
  match o with
  | Some a => [a]
  | None => []
  end.

(** The description [extractField] starts from: the top-level one when
    it is a non-empty string, else the unwrapped schema's. *)
Definition resolvedDescription (schema : JsonSchema) : option string :=
  JS.or_else JS.truthy_string (Schema.description schema)
    (Schema.description (actualSchema (unwrapNullable schema))).

(** The examples of a Field: the top-level [examples] when the key is
    present, else the unwrapped schema's, marked correct; then the
    [badExamples], marked incorrect; no property at all when there are
    none. *)
Definition resolvedExamples (schema : JsonSchema)
  : option (list FieldExample) :=
  let inner := actualSchema (unwrapNullable schema) in
  let good :=
    match or_defined (Schema.examples schema) (Schema.examples inner) with
    | Some values => map (fun value => mkFieldExample value true None) values
    | None => []
    end in
  let bad :=
    match
      JS.or_else JS.truthy_value (Schema.badExamples schema)
        (Schema.badExamples inner)
    with
    | Some (JArr values) =>
        map (fun value => mkFieldExample value false None) values
    | _ => []
    end in
  match (good ++ bad)%list with
  | [] => None
  | all => Some all
  end.

(** The nodes [extractField] hands to the union resolver and that come
    back as a plain union. *)
Definition resolvedAsPlainUnion
    (schema : JsonSchema) (options : ExtractOptions) (depth : Z) : bool :=
  let inner := actualSchema (unwrapNullable schema) in
  negb (JS.defined (Schema.enum inner))
  && negb (JS.defined (Schema.const inner))
  && negb (type_is_union inner)
  && (JS.defined (Schema.oneOf inner) || JS.defined (Schema.anyOf inner))
  && (depth <? maxDepth_or_3 options)%Z
  && negb (JS.defined (findDiscriminator (union_branches inner))).

(** A Field none of whose children is expanded: no object fields, no
    union variants, and only bare kinds as array item, tuple items and
    union alternatives. *)
Definition isBare (t : TypeOrField SchemaField) : bool :=
  match t with
  | BareType _ => true
  | NestedField _ => false
  end.

Definition collapsed (f : SchemaField) : bool :=
  negb (JS.defined (Field.objectFields f))
  && negb (JS.defined (Field.unionVariants f))
  && match Field.arrayItemType f with
     | Some t => isBare t
     | None => true
     end
  && match Field.tupleItems f with
     | Some ts => forallb isBare ts
     | None => true
     end
  && match Field.unionTypes f with
     | Some ts => forallb isBare ts
     | None => true
     end.

(** [{ maxDepth: 1 }] and [{ maxDepth: 0 }] *)
Definition maxDepth1 : ExtractOptions := mkExtractOptions (Some 1%Z) None.
Definition maxDepth0 : ExtractOptions := mkExtractOptions (Some 0%Z) None.

(** A renderer that prints nothing, to instantiate the registry in
    examples. *)
Definition blank_format
  : SchemaModel -> option ThemeOptions -> Outcome string :=
  fun _ _ => Returns "".

(** The order of [compareFields] along a list, and along every
    [objectFields] list of a Field tree. *)
Fixpoint fieldsOrdered (l : list SchemaField) : bool :=
  match l with
  | [] => true
  | a :: rest =>
      forallb (fun b => (fieldRank a <=? fieldRank b)%nat) rest
      && fieldsOrdered rest
  end.

(** A check on a property that is present, and on a nested Field. *)
Definition whenSome {A : Type} (p : A -> bool) (o : option A) : bool :=
  match o with
  | Some a => p a
  | None => true
  end.

Definition whenNested {F : Type} (p : F -> bool) (t : TypeOrField F) : bool :=
  match t with
  | NestedField f => p f
  | BareType _ => true
  end.

Fixpoint objectFieldsOrdered (f : SchemaField) : bool :=
  whenSome (fun l => fieldsOrdered l && forallb objectFieldsOrdered l)
    (Field.objectFields f)
  && whenSome (whenNested objectFieldsOrdered) (Field.arrayItemType f)
  && whenSome (forallb (whenNested objectFieldsOrdered)) (Field.tupleItems f)
  && whenSome (whenNested objectFieldsOrdered) (Field.recordValueType f)
  && whenSome (forallb (fun v => forallb objectFieldsOrdered (fields v)))
       (Field.unionVariants f)
  && whenSome (forallb (whenNested objectFieldsOrdered)) (Field.unionTypes f).

(** A list of fields in order, each with its tree in order. *)
Definition wellOrdered (l : list SchemaField) : bool :=
  fieldsOrdered l && forallb objectFieldsOrdered l.

(** ** Notions used to state further properties *)

(** A check on every Field of a tree: the Field itself, its object
    fields, array item, tuple items, record value, union variants and
    union alternatives. *)
Fixpoint everyField (p : SchemaField -> bool) (f : SchemaField) : bool :=
  p f
  && whenSome (forallb (everyField p)) (Field.objectFields f)
  && whenSome (whenNested (everyField p)) (Field.arrayItemType f)
  && whenSome (forallb (whenNested (everyField p))) (Field.tupleItems f)
  && whenSome (whenNested (everyField p)) (Field.recordValueType f)
  && whenSome (forallb (fun v => forallb (everyField p) (fields v)))
       (Field.unionVariants f)
  && whenSome (forallb (whenNested (everyField p))) (Field.unionTypes f).

(** The closed set of field kinds of [FieldType]. *)
Definition fieldKinds : list string :=
  ["string"; "number"; "integer"; "boolean"; "object"; "array"; "enum";
   "date"; "union"; "discriminated-union"; "record"; "tuple"; "any"].

Definition isFieldKind (t : string) : bool :=
  existsb (String.eqb t) fieldKinds.

(** The payload of a Field belongs to its [type]: a payload property is
    present only on a Field of the matching kind. *)
Definition payloadMatchesType (f : SchemaField) : bool :=
  implb (JS.defined (Field.enumValues f)) (Field.type f =? "enum")
  && implb (JS.defined (Field.arrayItemType f)) (Field.type f =? "array")
  && implb (JS.defined (Field.tupleItems f)) (Field.type f =? "tuple")
  && implb (JS.defined (Field.recordKeyType f)
            || JS.defined (Field.recordValueType f))
       (Field.type f =? "record")
  && implb (JS.defined (Field.objectFields f)) (Field.type f =? "object")
  && implb (JS.defined (Field.unionVariants f))
       (Field.type f =? "discriminated-union")
  && implb (JS.defined (Field.unionTypes f)) (Field.type f =? "union").

(** A Field of a known kind whose payload matches it. *)
Definition wellTyped (f : SchemaField) : bool :=
  isFieldKind (Field.type f) && payloadMatchesType f.

(** What the extractors read of the options: [options.maxDepth || 3]
    and whether [options.includeDefaults] is true. *)
Definition includesDefaults (options : ExtractOptions) : bool :=
  match includeDefaults options with
  | Some true => true
  | _ => false
  end.

Definition sameReading (o o' : ExtractOptions) : Prop :=
  maxDepth_or_3 o = maxDepth_or_3 o' /\
  includesDefaults o = includesDefaults o'.

(** The alternative the union resolver builds for one branch of a plain
    union. *)
Definition alternativeOf
    (extractObjectFields :
       JsonSchema -> ExtractOptions -> Z -> list SchemaField)
    (options : ExtractOptions) (depth : Z) (variant : JsonSchema)
  : TypeOrField SchemaField :=
  match Schema.enum variant with
  | Some values =>
      NestedField
        (Field.set_enumValues (Field.literal "variant" "enum" true)
           (Some (map JS.String_ values)))
  | None =>
      if JS.defined (Schema.properties variant) then
        NestedField
          (Field.set_objectFields (Field.literal "variant" "object" true)
             (Some (extractObjectFields variant options (depth + 1)%Z)))
      else
        match scalar_type variant with
        | Some t => BareType t
        | None => BareType "any"
        end
  end.

Module MoreSamples.

(** [{enum: ["a", "b"]}] *)
Definition a_or_b : JsonSchema :=
  Schema.with_enum (Some [JStr "a"; JStr "b"]) Schema.empty.

(** [{oneOf: [{type: "string"}, {enum: ["a", "b"]}]}] *)
Definition string_or_enum : JsonSchema :=
  Schema.with_oneOf (Some [Samples.string_schema; a_or_b]) Schema.empty.

(** [{type: ["string", "null"]}] *)
Definition string_or_null : JsonSchema :=
  Schema.with_type (Some (TypeList ["string"; "null"])) Schema.empty.

End MoreSamples.

(** A Field without a [defaultValue]. *)
Definition withoutDefault (f : SchemaField) : bool :=
  negb (JS.defined (Field.defaultValue f)).

(** ** src/PromptSchema.ts and src/index.ts

    The schema a caller passes has type [unknown]; its values, the two
    zod adapters (their conversions are library calls) and the test
    ['_zod' in schema] are variables here.  An adapter's [canHandle] and
    [toJsonSchema] may throw. *)

Record PromptOptions : Type := mkPromptOptions {
  p_theme : option string;
  p_maxDepth : option Z;
  p_safe : option bool;
}.

Section PromptSchemaClass.

Variable Unknown : Type.

Record SchemaAdapter : Type := mkSchemaAdapter {
  adapter_name : string;
  canHandle : Unknown -> Outcome bool;
  toJsonSchema : Unknown -> Outcome JsonSchema;
}.

Variable StandardTheme_format :
  SchemaModel -> option ThemeOptions -> Outcome string.
Variable ExpandedTheme_format :
  SchemaModel -> option ThemeOptions -> Outcome string.
Variable CondensedTheme_format :
  SchemaModel -> option ThemeOptions -> Outcome string.
Variable JSONTheme_format :
  SchemaModel -> option ThemeOptions -> Outcome string.

(** The field [adapters] of a [PromptSchema], latest registration
    first. *)
Definition PromptSchema : Type := list SchemaAdapter.

(** [this.adapters.unshift(adapter)] *)
Definition registerAdapter (adapter : SchemaAdapter) (this : PromptSchema)
  : PromptSchema :=
  adapter :: this.

Definition getAdapters (this : PromptSchema) : list string :=
  map adapter_name this.

(** The callback of [this.adapters.find]: [canHandle], read as [false]
    when it throws. *)
Definition handles (schema : Unknown) (a : SchemaAdapter) : bool :=
  match canHandle a schema with
  | Returns b => b
  | Throws _ => false
  end.

Definition formatWithModel (schema : JsonSchema) (options : PromptOptions)
  : Outcome string :=
  let model :=
    extractToModel schema (Some (mkExtractOptions (p_maxDepth options) None)) in
  let style :=
    JS.or_else JS.truthy_string (p_theme options) (Some "standard") in
  formatModel StandardTheme_format ExpandedTheme_format CondensedTheme_format
    JSONTheme_format model (Some (mkThemeFormatOptions style None)).

(** The default parameter [options = {}]. *)
Definition noPromptOptions : PromptOptions := mkPromptOptions None None None.

Definition toPrompt (this : PromptSchema) (schema : Unknown)
    (options : option PromptOptions) : Outcome string :=
  let options :=
    match options with
    | Some o => o
    | None => noPromptOptions
    end in
  match find (handles schema) this with
  | None =>
      Throws
        ("No adapter found for schema. Registered adapters: "
           ++ JS.join ", " (map adapter_name this))
  | Some adapter =>
      match toJsonSchema adapter schema with
      | Returns jsonSchema => formatWithModel jsonSchema options
      | Throws message => Throws message
      end
  end.

(** [typeof schema === 'object' && schema !== null && '_zod' in schema] *)
Variable has_zod : Unknown -> bool.
Variable zodV3Adapter : SchemaAdapter.
Variable zodV4Adapter : SchemaAdapter.

Definition fallbackPrompt : string :=
  "## Schema" ++ String "010" (String "010"
    "Provide valid JSON matching the expected structure.").

(** [getPrompts]; the [console.warn] of the safe mode is not modelled. *)
Definition getPrompts (schema : Unknown) (options : option PromptOptions)
  : Outcome string :=
  let converter : PromptSchema := [] in
  let converter :=
    if has_zod schema then registerAdapter zodV4Adapter converter
    else registerAdapter zodV3Adapter converter in
  match toPrompt converter schema options with
  | Returns prompt => Returns prompt
  | Throws message =>
      match options with
      | Some o =>
          match p_safe o with
          | Some true => Returns fallbackPrompt
          | _ => Throws message
          end
      | None => Throws message
      end
  end.

End PromptSchemaClass.

Arguments adapter_name {Unknown} _.
Arguments canHandle {Unknown} _ _.
Arguments toJsonSchema {Unknown} _ _.
Arguments mkSchemaAdapter {Unknown} _ _ _.
Arguments registerAdapter {Unknown} _ _.
Arguments getAdapters {Unknown} _.
Arguments handles {Unknown} _ _.
Arguments toPrompt {Unknown} _ _ _ _ _ _ _.
Arguments getPrompts {Unknown} _ _ _ _ _ _ _ _ _.

(** What [toPrompt] does with the adapter it selected. *)
Definition convertWith {Unknown : Type}
    (StandardTheme_format ExpandedTheme_format CondensedTheme_format
       JSONTheme_format
       : SchemaModel -> option ThemeOptions -> Outcome string)
    (adapter : SchemaAdapter Unknown) (schema : Unknown)
    (options : option PromptOptions) : Outcome string :=
  match toJsonSchema adapter schema with
  | Returns jsonSchema =>
      formatWithModel StandardTheme_format ExpandedTheme_format
        CondensedTheme_format JSONTheme_format jsonSchema
        match options with
        | Some o => o
        | None => noPromptOptions
        end
  | Throws message => Throws message
  end.

(** [options?.safe] is true. *)
Definition isSafe (options : option PromptOptions) : bool :=
  match options with
  | Some o =>
      match p_safe o with
      | Some true => true
      | _ => false
      end
  | None => false
  end.

(** Two adapters over schemas of type [unit]: one whose [canHandle]
    throws, one that accepts everything and converts to [{type:
    "string"}]. *)
Module MoreAdapters.

Definition refusing : SchemaAdapter unit :=
  mkSchemaAdapter "refusing" (fun _ => Throws "canHandle error")
    (fun _ => Throws "no conversion").

Definition accepting : SchemaAdapter unit :=
  mkSchemaAdapter "accepting" (fun _ => Returns true)
    (fun _ => Returns Samples.string_schema).

End MoreAdapters.


(** ** Strings as the themes use them

    A JavaScript string is modelled by the string of its UTF-8 bytes.
    [String.prototype.trim] strips the white space and line terminator
    code points: U+0009 to U+000D, U+0020, U+00A0, U+1680, U+2000 to
    U+200A, U+2028, U+2029, U+202F, U+205F, U+3000 and U+FEFF. *)

Module JSString.

(** ["\n"] *)
Definition nl : string := String "010" EmptyString.

Definition isSpace1 (c : ascii) : bool :=
  let n := nat_of_ascii c in
  ((9 <=? n) && (n <=? 13))%nat || (n =? 32)%nat.

(** U+00A0 is [C2 A0]. *)
Definition isSpace2 (c1 c2 : ascii) : bool :=
  (nat_of_ascii c1 =? 194)%nat && (nat_of_ascii c2 =? 160)%nat.

(** U+1680 is [E1 9A 80]; U+2000 to U+200A are [E2 80 80] to
    [E2 80 8A]; U+2028, U+2029, U+202F are [E2 80 A8], [E2 80 A9],
    [E2 80 AF]; U+205F is [E2 81 9F]; U+3000 is [E3 80 80]; U+FEFF is
    [EF BB BF]. *)
Definition isSpace3 (c1 c2 c3 : ascii) : bool :=
  let n1 := nat_of_ascii c1 in
  let n2 := nat_of_ascii c2 in
  let n3 := nat_of_ascii c3 in
  ((n1 =? 225) && (n2 =? 154) && (n3 =? 128))%nat
  || ((n1 =? 226) && (n2 =? 128)
      && (((128 <=? n3) && (n3 <=? 138))
          || (n3 =? 168) || (n3 =? 169) || (n3 =? 175)))%nat
  || ((n1 =? 226) && (n2 =? 129) && (n3 =? 159))%nat
  || ((n1 =? 227) && (n2 =? 128) && (n3 =? 128))%nat
  || ((n1 =? 239) && (n2 =? 187) && (n3 =? 191))%nat.

(** Strip the leading code points recognized by the three tests. *)
Fixpoint stripLeading
    (is1 : ascii -> bool) (is2 : ascii -> ascii -> bool)
    (is3 : ascii -> ascii -> ascii -> bool) (s : string) : string :=
  match s with
  | EmptyString => EmptyString
  | String c1 r1 =>
      if is1 c1 then stripLeading is1 is2 is3 r1
      else
        match r1 with
        | EmptyString => s
        | String c2 r2 =>
            if is2 c1 c2 then stripLeading is1 is2 is3 r2
            else
              match r2 with
              | EmptyString => s
              | String c3 r3 =>
                  if is3 c1 c2 c3 then stripLeading is1 is2 is3 r3 else s
              end
        end
  end.

Definition reverse (s : string) : string :=
  string_of_list_ascii (rev (list_ascii_of_string s)).

(** [String.prototype.trimStart] *)
Definition trimStart (s : string) : string :=
  stripLeading isSpace1 isSpace2 isSpace3 s.

(** [String.prototype.trimEnd]: the same on the reversed bytes. *)
Definition trimEnd (s : string) : string :=
  reverse
    (stripLeading isSpace1 (fun c2 c1 => isSpace2 c1 c2)
       (fun c3 c2 c1 => isSpace3 c1 c2 c3) (reverse s)).

(** [String.prototype.trim] *)
Definition trim (s : string) : string := trimEnd (trimStart s).

(** [' '.repeat(count)] for a count that is not negative. *)
Fixpoint spaces (count : nat) : string :=
  match count with
  | O => EmptyString
  | S n => String " " (spaces n)
  end.

(** [' '.repeat(count)] for an integer count: a negative count is a
    [RangeError].  The limits of an engine on the length of a string
    and on the depth of calls are not modelled. *)
Definition repeat_space (count : Z) : Outcome string :=
  if (count <? 0)%Z
  then Throws ("Invalid count value: " ++ JS.Number_toString count)
  else Returns (spaces (Z.to_nat count)).

End JSString.

(** Sequencing of calls that may throw. *)
Definition bind {A B : Type} (x : Outcome A) (k : A -> Outcome B)
  : Outcome B :=
  match x with
  | Returns a => k a
  | Throws message => Throws message
  end.

(** [for (const x of l) output += f(x)] *)
Definition appendEach {A : Type} (f : A -> Outcome string)
  : list A -> string -> Outcome string :=
  fix go (l : list A) (output : string) : Outcome string :=
    match l with
    | [] => Returns output
    | x :: rest => bind (f x) (fun text => go rest (output ++ text))
    end.

(** ** src/formatters/types.ts, [BaseTheme] *)

(** Truthiness of a [FieldType | SchemaField | undefined]. *)
Definition truthy_typeOrField (o : option (TypeOrField SchemaField)) : bool :=
  match o with
  | Some (BareType t) => negb (t =? "")
  | Some (NestedField _) => true
  | None => false
  end.

(** The string literal of a [FieldConstraint['type']]. *)
Definition constraintTypeName (k : ConstraintType) : string :=
  match k with
  | CMin => "min"
  | CMax => "max"
  | CPattern => "pattern"
  | CFormat => "format"
  | CMinItems => "minItems"
  | CMaxItems => "maxItems"
  | CMinLength => "minLength"
  | CMaxLength => "maxLength"
  end.

(** [`${c.value}`] *)
Definition constraintValueText (v : ConstraintValue) : string :=
  match v with
  | CNum n => JS.Number_toString n
  | CStr s => s
  end.

(** [options?.indentSize] *)
Definition optionsIndentSize (options : option ThemeOptions) : option Z :=
  match options with
  | Some o => indentSize o
  | None => None
  end.

Module BaseTheme.

(** The protected field [indentSize = 2]. *)
Definition indentSize : Z := 2.

(** [options?.indentSize ?? this.indentSize] *)
Definition size (options : option ThemeOptions) : Z :=
  match optionsIndentSize options with
  | Some n => n
  | None => indentSize
  end.

Definition indent (depth : Z) (options : option ThemeOptions)
  : Outcome string :=
  JSString.repeat_space (depth * size options)%Z.

Definition formatModifiers (field : SchemaField) (includeRequired : bool)
  : list string :=
  let modifiers : list string := [] in
  let modifiers :=
    if includeRequired && Field.isRequired field
    then push modifiers "required"
    else modifiers in
  let modifiers :=
    match Field.isNullable field with
    | Some true => push modifiers "nullable"
    | _ => modifiers
    end in
  let modifiers :=
    match Field.constraints field with
    | Some constraints =>
        fold_left
          (fun modifiers constraint =>
             push modifiers
               (if JS.truthy_string (c_display constraint)
                then
                  match c_display constraint with
                  | Some display => display
                  | None => ""
                  end
                else
                  constraintTypeName (c_type constraint) ++ ": "
                    ++ constraintValueText (c_value constraint)))
          constraints modifiers
    | None => modifiers
    end in
  modifiers.

End BaseTheme.

(** ** Lookups in an object literal used as a table

    [table[key] || key] also finds the properties every object inherits
    from [Object.prototype] ([constructor], [toString], ...), whose
    values are truthy and print as text that depends on the engine.
    [inherited key] is that text for an inherited key, and [None] for
    every other key. *)

(** [table[key] || key] for a table of non-empty strings. *)
Definition lookup_or_key (inherited : string -> option string)
    (table : list (string * string)) (key : string) : string :=
  match JS.get key table with
  | Some text => text
  | None =>
      match inherited key with
      | Some text => text
      | None => key
      end
  end.

(** [t => (typeof t === 'string' ? t : t.type)] *)
Definition kindOf (t : TypeOrField SchemaField) : string :=
  match t with
  | BareType kind => kind
  | NestedField f => Field.type f
  end.

(** [field.discriminatorField || 'type'] *)
Definition discriminatorNameOf (field : SchemaField) : string :=
  match
    JS.or_else JS.truthy_string (Field.discriminatorField field) (Some "type")
  with
  | Some name => name
  | None => "type"
  end.

(** ** src/formatters/themes/standard-theme.ts

    The methods of the themes are functions to an [Outcome]: [indent]
    throws when [depth * size] is negative.  [indentSize] is an
    integer.

    [formatField] and [formatVariant] call each other through [this];
    in [Module StandardTheme] the method [formatField] of [this] is the
    variable [this_formatField], and [Standard_formatField] after the
    module closes the recursion.  A test [field.type === k && field.p]
    is written with the lookup of [p] first and the comparison inside
    it. *)

Module StandardTheme.

Section Methods.

Variable inherited : string -> option string.

Definition getPluralType (type : string) : string :=
  lookup_or_key inherited
    [("string", "strings"); ("number", "numbers"); ("integer", "integers");
     ("boolean", "booleans"); ("object", "objects"); ("array", "arrays");
     ("any", "any")]
    type.

Definition getModifiersString (field : SchemaField) : string :=
  let modifiers := BaseTheme.formatModifiers field true in
  if (0 <? List.length modifiers)%nat
  then " (" ++ JS.join " • " modifiers ++ ")"
  else "".

Definition getTypeRepresentation (field : SchemaField) : string :=
  let enumCase :=
    if Field.type field =? "enum" then Field.enumValues field else None in
  match enumCase with
  | Some enumValues =>
      (* Handle enum *)
      match enumValues with
      | [only] => only
      | _ => "MUST BE ONE OF [" ++ JS.join " | " enumValues ++ "]"
      end
  | None =>
  let unionCase :=
    if Field.type field =? "union" then Field.unionTypes field else None in
  match unionCase with
  | Some unionTypes =>
      (* Handle union *)
      JS.join " | " (map kindOf unionTypes)
  | None =>
  let tupleCase :=
    if Field.type field =? "tuple" then Field.tupleItems field else None in
  match tupleCase with
  | Some tupleItems =>
      (* Handle tuple *)
      "[" ++ JS.join ", " (map kindOf tupleItems) ++ "]"
  | None =>
  let recordCase :=
    if (Field.type field =? "record")
       && JS.truthy_string (Field.recordKeyType field)
       && truthy_typeOrField (Field.recordValueType field)
    then
      match Field.recordKeyType field, Field.recordValueType field with
      | Some keyType, Some valueType => Some (keyType, valueType)
      | _, _ => None
      end
    else None in
  match recordCase with
  | Some (keyType, valueType) =>
      (* Handle record *)
      "Record<" ++ keyType ++ ", " ++ kindOf valueType ++ ">"
  | None =>
  if Field.type field =? "array" then
    (* Handle array *)
    match Field.arrayItemType field with
    | Some (BareType itemType) =>
        "array of " ++ getPluralType itemType
    | Some (NestedField itemField) =>
        match
          if Field.type itemField =? "enum"
          then Field.enumValues itemField
          else None
        with
        | Some enumValues =>
            "array where EACH item MUST BE ONE OF ["
              ++ JS.join ", " enumValues ++ "]"
        | None =>
            if Field.type itemField =? "object" then "array of objects"
            else if (Field.type itemField =? "discriminated-union")
                    && JS.truthy_string (Field.discriminatorField itemField)
            then
              match Field.discriminatorField itemField with
              | Some tag => "array of objects (" ++ tag ++ " as discriminator)"
              | None => "array"
              end
            else "array"
        end
    | None => "array"
    end
  else if Field.type field =? "discriminated-union" then
    (* Handle other types *)
    "union"
  else Field.type field
  end end end end.

Variable this_formatField :
  SchemaField -> Z -> option ThemeOptions -> Outcome string.

Definition formatVariant (variant : UnionVariant) (_parentName : string)
    (depth : Z) (options : option ThemeOptions) : Outcome string :=
  bind (BaseTheme.indent depth options) (fun indent =>
  let output := indent ++ "- " ++ discriminatorValue variant ++ JSString.nl in
  appendEach (fun field => this_formatField field (depth + 1)%Z options)
    (fields variant) output).

Definition formatField (field : SchemaField) (depth : Z)
    (options : option ThemeOptions) : Outcome string :=
  bind (BaseTheme.indent depth options) (fun indent =>
  let output := "" in
  let regular : Outcome string :=
    (* Format regular field *)
    let type := getTypeRepresentation field in
    let modifiers := getModifiersString field in
    let output :=
      output ++ indent ++ "- " ++ Field.name field ++ ": " ++ type
        ++ modifiers ++ JSString.nl in
    let arrayItems : Outcome string :=
      match Field.arrayItemType field with
      | Some (NestedField itemField) =>
          if Field.type field =? "array" then
            match Field.objectFields itemField with
            | Some objectFields =>
                appendEach
                  (fun nested =>
                     this_formatField nested (depth + 1)%Z options)
                  objectFields output
            | None =>
                match Field.unionVariants itemField with
                | Some unionVariants =>
                    if Field.type itemField =? "discriminated-union"
                    then
                      (* Handle array of discriminated unions - show
                         discriminator values upfront *)
                      let discriminatorValues :=
                        JS.join " | "
                          (map discriminatorValue unionVariants) in
                      let discriminatorName :=
                        discriminatorNameOf itemField in
                      let output :=
                        output ++ indent ++ "  - " ++ discriminatorName
                          ++ ": " ++ discriminatorValues
                          ++ " (required)" ++ JSString.nl in
                      appendEach
                        (fun variant =>
                           formatVariant variant (Field.name field)
                             (depth + 2)%Z options)
                        unionVariants output
                    else
                      appendEach
                        (fun variant =>
                           formatVariant variant (Field.name field)
                             (depth + 1)%Z options)
                        unionVariants output
                | None => Returns output
                end
            end
          else Returns output
      | _ => Returns output
      end in
    let recordValues : Outcome string :=
      match Field.recordValueType field with
      | Some (NestedField valueField) =>
          match Field.objectFields valueField with
          | Some objectFields =>
              if Field.type field =? "record" then
                (* Show record value structure *)
                appendEach
                  (fun nested =>
                     this_formatField nested (depth + 1)%Z options)
                  objectFields output
              else arrayItems
          | None => arrayItems
          end
      | _ => arrayItems
      end in
    (* Add nested fields *)
    match Field.objectFields field with
    | Some objectFields =>
        appendEach
          (fun nested => this_formatField nested (depth + 1)%Z options)
          objectFields output
    | None => recordValues
    end in
  match Field.unionVariants field with
  | Some unionVariants =>
      if Field.type field =? "discriminated-union" then
        (* Handle discriminated unions - first show the discriminator field
           with all possible values *)
        let discriminatorValues :=
          JS.join " | " (map discriminatorValue unionVariants) in
        let discriminatorName := discriminatorNameOf field in
        let modifiers := getModifiersString field in
        let output :=
          output ++ indent ++ "- " ++ Field.name field ++ ": array of objects"
            ++ modifiers ++ JSString.nl in
        let output :=
          output ++ indent ++ "  - " ++ discriminatorName ++ ": "
            ++ discriminatorValues ++ " (required)" ++ JSString.nl in
        (* Then show each variant *)
        appendEach
          (fun variant =>
             formatVariant variant (Field.name field) (depth + 2)%Z
               options)
          unionVariants output
      else regular
  | None => regular
  end).

End Methods.

End StandardTheme.

Section Standard.

Variable inherited : string -> option string.

Fixpoint Standard_formatField (field : SchemaField) (depth : Z)
    (options : option ThemeOptions) {struct field} : Outcome string :=
  StandardTheme.formatField inherited Standard_formatField field depth
    options.

Definition Standard_formatVariant
  : UnionVariant -> string -> Z -> option ThemeOptions -> Outcome string :=
  StandardTheme.formatVariant Standard_formatField.

Definition Standard_format (model : SchemaModel)
    (options : option ThemeOptions) : Outcome string :=
  let output := "## Schema" ++ JSString.nl ++ JSString.nl in
  bind
    (appendEach (fun field => Standard_formatField field 0%Z options)
       (model_fields model) output)
    (fun output => Returns (JSString.trim output)).

End Standard.

(** ** src/formatters/themes/condensed-theme.ts *)

Module CondensedTheme.

Section Methods.

Variable inherited : string -> option string.

Definition getCompactPrimitive (type : string) : string :=
  lookup_or_key inherited
    [("string", "str"); ("number", "num"); ("integer", "int");
     ("boolean", "bool"); ("object", "obj")]
    type.

(** [t => (typeof t === 'string' ? this.getCompactPrimitive(t) : t.type)] *)
Definition compactKindOf (t : TypeOrField SchemaField) : string :=
  match t with
  | BareType kind => getCompactPrimitive kind
  | NestedField f => Field.type f
  end.

Definition getCompactType (field : SchemaField) : string :=
  (* Ultra-compact type representations *)
  if Field.type field =? "string" then "str"
  else if Field.type field =? "number" then "num"
  else if Field.type field =? "integer" then "int"
  else if Field.type field =? "boolean" then "bool"
  else if Field.type field =? "object" then "obj"
  else if Field.type field =? "date" then "date"
  else if Field.type field =? "any" then "any"
  else
  let unionCase :=
    if Field.type field =? "union" then Field.unionTypes field else None in
  match unionCase with
  | Some unionTypes => JS.join "|" (map compactKindOf unionTypes)
  | None =>
  let tupleCase :=
    if Field.type field =? "tuple" then Field.tupleItems field else None in
  match tupleCase with
  | Some tupleItems => "[" ++ JS.join "," (map compactKindOf tupleItems) ++ "]"
  | None =>
  let recordCase :=
    if (Field.type field =? "record")
       && JS.truthy_string (Field.recordKeyType field)
       && truthy_typeOrField (Field.recordValueType field)
    then
      match Field.recordKeyType field, Field.recordValueType field with
      | Some keyType, Some valueType => Some (keyType, valueType)
      | _, _ => None
      end
    else None in
  match recordCase with
  | Some (keyType, valueType) =>
      "Rec<" ++ getCompactPrimitive keyType ++ ","
        ++ compactKindOf valueType ++ ">"
  | None =>
  let enumCase :=
    if Field.type field =? "enum" then Field.enumValues field else None in
  match enumCase with
  | Some enumValues =>
      match enumValues with
      | [only] => only
      | _ =>
          (* Show first few values for enums *)
          let values := JS.join "|" (firstn 3 enumValues) in
          if (3 <? List.length enumValues)%nat
          then values ++ "..."
          else values
      end
  | None =>
  if Field.type field =? "array" then
    match Field.arrayItemType field with
    | Some (BareType itemType) =>
        getCompactPrimitive itemType ++ "[]"
    | Some (NestedField itemField) =>
        match
          if Field.type itemField =? "enum"
          then Field.enumValues itemField
          else None
        with
        | Some enumValues =>
            let values := JS.join "|" (firstn 2 enumValues) in
            if (2 <? List.length enumValues)%nat
            then "[" ++ values ++ "...]"
            else "[" ++ values ++ "]"
        | None => Field.type itemField ++ "[]"
        end
    | None => "arr"
    end
  else Field.type field
  end end end end.

Definition getCriticalConstraints (field : SchemaField) : string :=
  let critical : list string := [] in
  let critical :=
    match Field.constraints field with
    | Some constraints =>
        fold_left
          (fun critical c =>
             (* Only include critical numeric constraints *)
             match c_type c with
             | CMin | CMinLength | CMinItems =>
                 push critical ("≥" ++ constraintValueText (c_value c))
             | CMax | CMaxLength | CMaxItems =>
                 push critical ("≤" ++ constraintValueText (c_value c))
             | CFormat =>
                 match c_value c with
                 | CStr "email" => push critical "@"
                 | CStr "uri" => push critical "url"
                 | _ => critical
                 end
             | CPattern => critical
             end)
          constraints critical
    | None => critical
    end in
  JS.join "," critical.

(** [field.isRequired ? '!' : '?'] *)
Definition req (field : SchemaField) : string :=
  if Field.isRequired field then "!" else "?".

Variable this_formatField :
  SchemaField -> Z -> option ThemeOptions -> Outcome string.

Definition formatVariant (variant : UnionVariant) (_parentName : string)
    (depth : Z) (options : option ThemeOptions) : Outcome string :=
  bind (BaseTheme.indent depth options) (fun indent =>
  let output :=
    indent ++ "=" ++ discriminatorValue variant ++ ":" ++ JSString.nl in
  appendEach (fun field => this_formatField field (depth + 1)%Z options)
    (fields variant) output).

Definition formatField (field : SchemaField) (depth : Z)
    (options : option ThemeOptions) : Outcome string :=
  bind (BaseTheme.indent depth options) (fun indent =>
  let output := "" in
  let regular : Outcome string :=
    (* Ultra-compact field representation *)
    let type := getCompactType field in
    let output :=
      output ++ indent ++ Field.name field ++ ":" ++ type ++ req field in
    (* Add critical constraints inline *)
    let constraints := getCriticalConstraints field in
    let output :=
      if negb (constraints =? "")
      then output ++ "[" ++ constraints ++ "]"
      else output in
    let output := output ++ JSString.nl in
    (* Nested fields with minimal indentation *)
    match Field.objectFields field with
    | Some objectFields =>
        appendEach
          (fun nested => this_formatField nested (depth + 1)%Z options)
          objectFields output
    | None =>
        match Field.arrayItemType field with
        | Some (NestedField itemField) =>
            if Field.type field =? "array" then
              match Field.objectFields itemField with
              | Some objectFields =>
                  appendEach
                    (fun nested =>
                       this_formatField nested (depth + 1)%Z options)
                    objectFields output
              | None => Returns output
              end
            else Returns output
        | _ => Returns output
        end
    end in
  match Field.unionVariants field with
  | Some unionVariants =>
      if Field.type field =? "discriminated-union" then
        (* Compact discriminated union representation *)
        let discriminatorValues :=
          JS.join "|" (map discriminatorValue unionVariants) in
        let discriminatorName := discriminatorNameOf field in
        let output :=
          output ++ indent ++ Field.name field ++ ":obj[]" ++ req field
            ++ JSString.nl in
        let output :=
          output ++ indent ++ "  " ++ discriminatorName ++ ":"
            ++ discriminatorValues ++ "!" ++ JSString.nl in
        appendEach
          (fun variant =>
             formatVariant variant (Field.name field) (depth + 2)%Z
               options)
          unionVariants output
      else regular
  | None => regular
  end).

End Methods.

End CondensedTheme.

Section Condensed.

Variable inherited : string -> option string.

Fixpoint Condensed_formatField (field : SchemaField) (depth : Z)
    (options : option ThemeOptions) {struct field} : Outcome string :=
  CondensedTheme.formatField inherited Condensed_formatField field depth
    options.

Definition Condensed_formatVariant
  : UnionVariant -> string -> Z -> option ThemeOptions -> Outcome string :=
  CondensedTheme.formatVariant Condensed_formatField.

Definition Condensed_format (model : SchemaModel)
    (options : option ThemeOptions) : Outcome string :=
  let output := "" in
  bind
    (appendEach (fun field => Condensed_formatField field 0%Z options)
       (model_fields model) output)
    (fun output => Returns (JSString.trim output)).

End Condensed.

(** ** src/formatters/themes/expanded-theme.ts

    [JSON.stringify] is taken as given on the JSON values that examples
    are: [stringify value] is [JSON.stringify(value)] and
    [stringifyPretty value] is [JSON.stringify(value, null, 2)]. *)

Module ExpandedTheme.

Section Methods.

Variable inherited : string -> option string.
Variable stringify : JsonValue -> string.

Definition getPluralType (type : string) : string :=
  lookup_or_key inherited
    [("string", "strings"); ("number", "numbers"); ("integer", "integers");
     ("boolean", "booleans"); ("object", "objects"); ("array", "arrays");
     ("any", "any")]
    type.

Definition getModifiersString (field : SchemaField) : string :=
  let modifiers := BaseTheme.formatModifiers field true in
  if (0 <? List.length modifiers)%nat
  then " (" ++ JS.join " • " modifiers ++ ")"
  else "".

(** [t => typeof t === 'object' && t.type === 'enum' && t.enumValues] *)
Definition isEnumVariant (t : TypeOrField SchemaField) : bool :=
  match t with
  | BareType _ => false
  | NestedField variant =>
      (Field.type variant =? "enum") && JS.defined (Field.enumValues variant)
  end.

Definition getTypeRepresentation (field : SchemaField) : string :=
  let enumCase :=
    if Field.type field =? "enum" then Field.enumValues field else None in
  match enumCase with
  | Some enumValues =>
      (* Handle enum *)
      match enumValues with
      | [only] => only
      | _ => "MUST BE ONE OF [" ++ JS.join " | " enumValues ++ "]"
      end
  | None =>
  let unionCase :=
    if Field.type field =? "union" then Field.unionTypes field else None in
  match unionCase with
  | Some unionTypes =>
      (* Handle union - check if it contains an enum variant *)
      let enumVariant := find isEnumVariant unionTypes in
      match
        match enumVariant with
        | Some (NestedField variant) => Field.enumValues variant
        | _ => None
        end
      with
      | Some enumValues =>
          (* Union contains enum - show enum values as the expected type *)
          "MUST BE ONE OF [" ++ JS.join " | " enumValues ++ "]"
      | None =>
          (* Regular union without enum *)
          JS.join " | " (map kindOf unionTypes)
      end
  | None =>
  let tupleCase :=
    if Field.type field =? "tuple" then Field.tupleItems field else None in
  match tupleCase with
  | Some tupleItems =>
      (* Handle tuple *)
      "[" ++ JS.join ", " (map kindOf tupleItems) ++ "]"
  | None =>
  let recordCase :=
    if (Field.type field =? "record")
       && JS.truthy_string (Field.recordKeyType field)
       && truthy_typeOrField (Field.recordValueType field)
    then
      match Field.recordKeyType field, Field.recordValueType field with
      | Some keyType, Some valueType => Some (keyType, valueType)
      | _, _ => None
      end
    else None in
  match recordCase with
  | Some (keyType, valueType) =>
      (* Handle record *)
      "Record<" ++ keyType ++ ", " ++ kindOf valueType ++ ">"
  | None =>
  if Field.type field =? "array" then
    (* Handle array *)
    match Field.arrayItemType field with
    | Some (BareType itemType) =>
        "array of " ++ getPluralType itemType
    | Some (NestedField itemField) =>
        match
          if Field.type itemField =? "enum"
          then Field.enumValues itemField
          else None
        with
        | Some enumValues =>
            "array where EACH item MUST BE ONE OF ["
              ++ JS.join ", " enumValues ++ "]"
        | None =>
            if Field.type itemField =? "object" then "array of objects"
            else if (Field.type itemField =? "discriminated-union")
                    && JS.truthy_string (Field.discriminatorField itemField)
            then
              match Field.discriminatorField itemField with
              | Some tag => "array of objects (" ++ tag ++ " as discriminator)"
              | None => "array"
              end
            else "array"
        end
    | None => "array"
    end
  else if Field.type field =? "discriminated-union" then
    (* Handle other types *)
    "union"
  else Field.type field
  end end end end.

(** [examples.map((ex) => JSON.stringify(ex.value)).join(', ')] *)
Definition exampleValues (examples : list FieldExample) : string :=
  JS.join ", " (map (fun ex => stringify (e_value ex)) examples).

(** [if (f.description) output += `${indent}  - ${f.description}\n`] *)
Definition withDescription (f : SchemaField) (indent output : string)
  : string :=
  match Field.description f with
  | Some description =>
      if negb (description =? "")
      then output ++ indent ++ "  - " ++ description ++ JSString.nl
      else output
  | None => output
  end.

(** [if (f.examples && f.examples.length > 0) output +=
       `${indent}  - Examples: ${exampleValues}\n`], with all the
    examples of [f]. *)
Definition withExamples (f : SchemaField) (indent output : string)
  : string :=
  match Field.examples f with
  | Some examples =>
      if (0 <? List.length examples)%nat
      then
        output ++ indent ++ "  - Examples: " ++ exampleValues examples
          ++ JSString.nl
      else output
  | None => output
  end.

(** [if (field.type === 'array' &&
         typeof field.arrayItemType === 'object' &&
         field.arrayItemType.type === 'enum') {
       if (itemField.enumValues) output += ... }] *)
Definition withWarning (field : SchemaField) (indent output : string)
  : string :=
  match Field.arrayItemType field with
  | Some (NestedField itemField) =>
      if (Field.type field =? "array") && (Field.type itemField =? "enum")
      then
        if JS.defined (Field.enumValues itemField)
        then
          output ++ indent
            ++ "  - ⚠️ CRITICAL: Values MUST be from the list above."
            ++ " No other values are valid."
            ++ JSString.nl
        else output
      else output
  | _ => output
  end.

(** The examples of a regular field, the correct ones on one line and
    the incorrect ones on the next. *)
Definition withExampleLines (field : SchemaField) (indent output : string)
  : string :=
  match Field.examples field with
  | Some examples =>
      if (0 <? List.length examples)%nat then
        let correctExamples := filter e_isCorrect examples in
        let incorrectExamples :=
          filter (fun ex => negb (e_isCorrect ex)) examples in
        let output :=
          if (0 <? List.length correctExamples)%nat
          then
            output ++ indent ++ "  - Examples: "
              ++ exampleValues correctExamples ++ JSString.nl
          else output in
        let output :=
          if (0 <? List.length incorrectExamples)%nat
          then
            output ++ indent ++ "  - ❌ INVALID Examples (DO NOT USE): "
              ++ exampleValues incorrectExamples ++ JSString.nl
          else output in
        output
      else output
  | None => output
  end.

Variable this_formatField :
  SchemaField -> Z -> option ThemeOptions -> Outcome string.

Definition formatVariant (variant : UnionVariant) (_parentName : string)
    (depth : Z) (options : option ThemeOptions) : Outcome string :=
  bind (BaseTheme.indent depth options) (fun indent =>
  let output := indent ++ "- " ++ discriminatorValue variant ++ JSString.nl in
  appendEach (fun field => this_formatField field (depth + 1)%Z options)
    (fields variant) output).

Definition formatField (field : SchemaField) (depth : Z)
    (options : option ThemeOptions) : Outcome string :=
  bind (BaseTheme.indent depth options) (fun indent =>
  let output := "" in
  let regular : Outcome string :=
    (* Format regular field *)
    let type := getTypeRepresentation field in
    let modifiers := getModifiersString field in
    (* Build first line: name, type, modifiers (no description inline) *)
    let output :=
      output ++ indent ++ "- " ++ Field.name field ++ ": " ++ type
        ++ modifiers ++ JSString.nl in
    (* For enum arrays, add an extra critical warning immediately *)
    let output := withWarning field indent output in
    (* Add description as sub-item if present *)
    let output := withDescription field indent output in
    (* Add examples on separate line if present *)
    let output := withExampleLines field indent output in
    let arrayItems : Outcome string :=
      match Field.arrayItemType field with
      | Some (NestedField itemField) =>
          if Field.type field =? "array" then
            match Field.objectFields itemField with
            | Some objectFields =>
                appendEach
                  (fun nested =>
                     this_formatField nested (depth + 1)%Z options)
                  objectFields output
            | None =>
                match Field.unionVariants itemField with
                | Some unionVariants =>
                    if Field.type itemField =? "discriminated-union"
                    then
                      (* Handle array of discriminated unions - show
                         discriminator values upfront *)
                      (* Add description if present on the item field *)
                      let output := withDescription itemField indent output in
                      (* Add examples if present on the item field *)
                      let output := withExamples itemField indent output in
                      let discriminatorValues :=
                        JS.join " | "
                          (map discriminatorValue unionVariants) in
                      let discriminatorName :=
                        discriminatorNameOf itemField in
                      let output :=
                        output ++ indent ++ "  - " ++ discriminatorName
                          ++ ": Must be one of " ++ discriminatorValues
                          ++ " (required)" ++ JSString.nl in
                      appendEach
                        (fun variant =>
                           formatVariant variant (Field.name field)
                             (depth + 2)%Z options)
                        unionVariants output
                    else
                      appendEach
                        (fun variant =>
                           formatVariant variant (Field.name field)
                             (depth + 1)%Z options)
                        unionVariants output
                | None => Returns output
                end
            end
          else Returns output
      | _ => Returns output
      end in
    let recordValues : Outcome string :=
      match Field.recordValueType field with
      | Some (NestedField valueField) =>
          match Field.objectFields valueField with
          | Some objectFields =>
              if Field.type field =? "record" then
                (* Show record value structure *)
                appendEach
                  (fun nested =>
                     this_formatField nested (depth + 1)%Z options)
                  objectFields output
              else arrayItems
          | None => arrayItems
          end
      | _ => arrayItems
      end in
    (* Add nested fields *)
    match Field.objectFields field with
    | Some objectFields =>
        appendEach
          (fun nested => this_formatField nested (depth + 1)%Z options)
          objectFields output
    | None => recordValues
    end in
  match Field.unionVariants field with
  | Some unionVariants =>
      if Field.type field =? "discriminated-union" then
        (* Handle discriminated unions - first show the discriminator field
           with all possible values *)
        let discriminatorValues :=
          JS.join " | " (map discriminatorValue unionVariants) in
        let discriminatorName := discriminatorNameOf field in
        let modifiers := getModifiersString field in
        let output :=
          output ++ indent ++ "- " ++ Field.name field ++ ": array of objects"
            ++ modifiers ++ JSString.nl in
        (* Add description as sub-item if present *)
        let output := withDescription field indent output in
        (* Add examples if present *)
        let output := withExamples field indent output in
        let output :=
          output ++ indent ++ "  - " ++ discriminatorName
            ++ ": Must be one of " ++ discriminatorValues ++ " (required)"
            ++ JSString.nl in
        (* Then show each variant *)
        appendEach
          (fun variant =>
             formatVariant variant (Field.name field) (depth + 2)%Z
               options)
          unionVariants output
      else regular
  | None => regular
  end).

End Methods.

End ExpandedTheme.

Section Expanded.

Variable inherited : string -> option string.
Variables stringify stringifyPretty : JsonValue -> string.

Fixpoint Expanded_formatField (field : SchemaField) (depth : Z)
    (options : option ThemeOptions) {struct field} : Outcome string :=
  ExpandedTheme.formatField inherited stringify Expanded_formatField field
    depth options.

Definition Expanded_formatVariant
  : UnionVariant -> string -> Z -> option ThemeOptions -> Outcome string :=
  ExpandedTheme.formatVariant Expanded_formatField.

Definition Expanded_format (model : SchemaModel)
    (options : option ThemeOptions) : Outcome string :=
  let output := "## Schema" ++ JSString.nl ++ JSString.nl in
  bind
    (appendEach (fun field => Expanded_formatField field 0%Z options)
       (model_fields model) output)
    (fun output =>
  (* Always include examples if available *)
  let output :=
    match model_metadata model with
    | Some metadata =>
        match m_examples metadata with
        | Some (first :: _) =>
            output ++ JSString.nl ++ "## Examples" ++ JSString.nl
              ++ JSString.nl ++ "```json" ++ JSString.nl
              ++ stringifyPretty first ++ JSString.nl ++ "```" ++ JSString.nl
        | _ => output
        end
    | None => output
    end in
  Returns (JSString.trim output)).

End Expanded.

(** ** What the themes leave out *)

Definition mapNested {F G : Type} (h : F -> G) (t : TypeOrField F)
  : TypeOrField G :=
  match t with
  | BareType kind => BareType kind
  | NestedField g => NestedField (h g)
  end.

Definition mapFields {F G : Type} (h : F -> G) (v : UnionVariantOf F)
  : UnionVariantOf G :=
  mkUnionVariant (discriminatorValue v) (map h (fields v)).

(** The Field without its documentation: [description], [examples] and
    [defaultValue] removed at every nesting. *)
Fixpoint undocumented (f : SchemaField) : SchemaField :=
  Field.mk (Field.name f) (Field.type f) (Field.isRequired f)
    (Field.isNullable f) (Field.enumValues f)
    (option_map (mapNested undocumented) (Field.arrayItemType f))
    (option_map (map (mapNested undocumented)) (Field.tupleItems f))
    (Field.recordKeyType f)
    (option_map (mapNested undocumented) (Field.recordValueType f))
    (option_map (map undocumented) (Field.objectFields f))
    (option_map (map (mapFields undocumented)) (Field.unionVariants f))
    (option_map (map (mapNested undocumented)) (Field.unionTypes f))
    (Field.discriminatorField f) None (Field.constraints f) None None.

(** Every constraint of the Field carries a non-empty [display]. *)
Definition constraintsDisplayed (f : SchemaField) : bool :=
  whenSome (forallb (fun c => JS.truthy_string (c_display c)))
    (Field.constraints f).

(** [display] of a constraint that has one. *)
Definition displayOf (c : FieldConstraint) : string :=
  match c_display c with
  | Some display => display
  | None => ""
  end.

(** A property of the Fields nested in a [FieldType | SchemaField], and
    of an optional property when it is present. *)
Definition nestedP (P : SchemaField -> Prop) (t : TypeOrField SchemaField)
  : Prop :=
  match t with
  | BareType _ => True
  | NestedField g => P g
  end.

Definition optionP {A : Type} (Q : A -> Prop) (o : option A) : Prop :=
  match o with
  | Some a => Q a
  | None => True
  end.

(** [formatField] returns for the Field at every depth from 0 on. *)
Definition returnsAt (formatField : SchemaField -> Z -> Outcome string)
    (f : SchemaField) : Prop :=
  forall depth,
    (0 <= depth)%Z -> exists text, formatField f depth = Returns text.

(** The property holds of the Fields one level below the Field. *)
Definition belowP (P : SchemaField -> Prop) (f : SchemaField) : Prop :=
  optionP (Forall P) (Field.objectFields f) /\
  optionP (nestedP P) (Field.arrayItemType f) /\
  optionP (Forall (nestedP P)) (Field.tupleItems f) /\
  optionP (nestedP P) (Field.recordValueType f) /\
  optionP (Forall (fun v => Forall P (fields v))) (Field.unionVariants f) /\
  optionP (Forall (nestedP P)) (Field.unionTypes f).

(** [formatField] renders the Field as it renders the Field without its
    documentation. *)
Definition ignoresDocumentation
    (formatField : SchemaField -> Z -> Outcome string) (f : SchemaField)
  : Prop :=
  forall depth, formatField (undocumented f) depth = formatField f depth.

Module ThemeSamples.

(** [{type: "object", properties: {name: {type: "string"}}}] *)
Definition plain_name : JsonSchema :=
  Samples.object_schema [("name", Samples.string_schema)].

(** [{type: "object", properties:
       {name: {type: "string", description: "The name"}}}] *)
Definition described_name : JsonSchema :=
  Samples.object_schema
    [("name",
      Schema.with_description (Some "The name") Samples.string_schema)].

End ThemeSamples.

(** A Field to which the expanded theme adds nothing: it has no
    description and no examples, it is not rendered as a discriminated
    union, it is not an array of enum values, and it is not a union
    with an enum alternative. *)
Definition plainField (f : SchemaField) : bool :=
  negb (JS.truthy_string (Field.description f))
  && match Field.examples f with
     | Some (_ :: _) => false
     | _ => true
     end
  && negb ((Field.type f =? "discriminated-union")
           && JS.defined (Field.unionVariants f))
  && negb ((Field.type f =? "array")
           && match Field.arrayItemType f with
              | Some (NestedField itemField) =>
                  (Field.type itemField =? "enum")
                  && JS.defined (Field.enumValues itemField)
              | _ => false
              end)
  && negb ((Field.type f =? "union")
           && match Field.unionTypes f with
              | Some unionTypes =>
                  existsb ExpandedTheme.isEnumVariant unionTypes
              | None => false
              end).

(** [model.metadata?.examples?.length] is falsy. *)
Definition withoutModelExamples (model : SchemaModel) : bool :=
  match model_metadata model with
  | Some metadata =>
      match m_examples metadata with
      | Some (_ :: _) => false
      | _ => true
      end
  | None => true
  end.

(** * Properties *)

(** ** The recursion is well founded on the document *)

Lemma list_max_ge (l : list nat) (x : nat) : In x l -> x <= list_max l.
Proof.
  intros Hin.
  assert (H : Forall (fun k => k <= list_max l) l)
    by (apply list_max_le; lia).
  rewrite Forall_forall in H. now apply H.
Qed.

Lemma height_list_ge {A : Type} (h : A -> nat) (l : list A) (a : A) :
  In a l -> h a <= height_list h l.
Proof.
  intros Hin. unfold height_list. apply list_max_ge. now apply in_map.
Qed.

Lemma height_unfold (s : JsonSchema) :
  height s =
  S (list_max
       [ height_option (height_list (fun p => height (snd p)))
           (Schema.properties s);
         height_option
           (fun i =>
              match i with
              | One a => height a
              | Many l => height_list height l
              end)
           (Schema.items s);
         height_option (height_list height) (Schema.anyOf s);
         height_option (height_list height) (Schema.oneOf s);
         height_option (height_list height) (Schema.allOf s);
         height_option height (Schema.not s);
         height_option
           (fun a =>
              match a with
              | IsSchema v => height v
              | IsBool _ => 0
              end)
           (Schema.additionalProperties s) ]).
Proof. destruct s; reflexivity. Qed.

Lemma height_pos (s : JsonSchema) : 1 <= height s.
Proof. rewrite height_unfold. lia. Qed.

Ltac below_height s :=
  rewrite (height_unfold s);
  apply le_n_S;
  match goal with
  | |- ?x <= list_max ?l =>
      transitivity x; [reflexivity | apply list_max_ge; simpl; tauto]
  end.

Lemma height_properties s props name p :
  Schema.properties s = Some props -> In (name, p) props ->
  height p < height s.
Proof.
  intros Hp Hin.
  apply Nat.le_lt_trans with
    (height_option (height_list (fun q => height (snd q)))
       (Schema.properties s)).
  - rewrite Hp. simpl.
    apply (height_list_ge (fun q => height (snd q)) props (name, p) Hin).
  - below_height s.
Qed.

Lemma height_items_one s item :
  Schema.items s = Some (One item) -> height item < height s.
Proof.
  intros Hi.
  apply Nat.le_lt_trans with
    (height_option
       (fun i => match i with
                 | One a => height a
                 | Many l => height_list height l
                 end) (Schema.items s)).
  - rewrite Hi. reflexivity.
  - below_height s.
Qed.

Lemma height_items_many s l item :
  Schema.items s = Some (Many l) -> In item l -> height item < height s.
Proof.
  intros Hi Hin.
  apply Nat.le_lt_trans with
    (height_option
       (fun i => match i with
                 | One a => height a
                 | Many l => height_list height l
                 end) (Schema.items s)).
  - rewrite Hi. simpl. now apply height_list_ge.
  - below_height s.
Qed.

Lemma height_anyOf s l v :
  Schema.anyOf s = Some l -> In v l -> height v < height s.
Proof.
  intros Hl Hin.
  apply Nat.le_lt_trans with
    (height_option (height_list height) (Schema.anyOf s)).
  - rewrite Hl. simpl. now apply height_list_ge.
  - below_height s.
Qed.

Lemma height_oneOf s l v :
  Schema.oneOf s = Some l -> In v l -> height v < height s.
Proof.
  intros Hl Hin.
  apply Nat.le_lt_trans with
    (height_option (height_list height) (Schema.oneOf s)).
  - rewrite Hl. simpl. now apply height_list_ge.
  - below_height s.
Qed.

Lemma height_additionalProperties s v :
  Schema.additionalProperties s = Some (IsSchema v) -> height v < height s.
Proof.
  intros Ha.
  apply Nat.le_lt_trans with
    (height_option
       (fun a => match a with
                 | IsSchema v => height v
                 | IsBool _ => 0
                 end) (Schema.additionalProperties s)).
  - rewrite Ha. reflexivity.
  - below_height s.
Qed.

Lemma height_union_branches s v :
  In v (union_branches s) -> height v < height s.
Proof.
  unfold union_branches.
  destruct (Schema.oneOf s) as [l|] eqn:Ho.
  - intros Hin. eapply height_oneOf; eauto.
  - destruct (Schema.anyOf s) as [l|] eqn:Ha.
    + intros Hin. eapply height_anyOf; eauto.
    + intros [].
Qed.

Lemma height_with_type ty s : height (Schema.with_type ty s) = height s.
Proof. rewrite !height_unfold. reflexivity. Qed.

Ltac unwrap_type_array s :=
  destruct (Schema.type s) as [[?|?]|]; cbn [actualSchema]; try lia;
  match goal with
  | |- context [existsb ?p ?ts] =>
      destruct (existsb p ts); cbn [actualSchema];
      [rewrite height_with_type|]; lia
  end.

Lemma unwrapNullable_height s :
  height (actualSchema (unwrapNullable s)) <= height s.
Proof.
  unfold unwrapNullable.
  destruct (Schema.anyOf s) as [l|] eqn:Hany.
  - destruct (filter _ l) as [|a [|b rest]] eqn:Hf.
    + unwrap_type_array s.
    + assert (Ha : In a l).
      { assert (H : In a (filter (fun s0 => negb (Schema.type_is s0 "null")) l))
          by (rewrite Hf; now left).
        apply filter_In in H. tauto. }
      pose proof (height_anyOf s l a Hany Ha) as Hlt.
      destruct (existsb _ l).
      * simpl.
        destruct (Schema.anyOf a) as [inner|] eqn:Hin; [|lia].
        destruct (find _ inner) as [i|] eqn:Hfind; [|lia].
        apply find_some in Hfind. destruct Hfind as [Hi _].
        pose proof (height_anyOf a inner i Hin Hi). lia.
      * unwrap_type_array s.
    + unwrap_type_array s.
  - unwrap_type_array s.
Qed.

(** Two object-field extractors that agree on the nodes below a schema
    give the same result on it. *)

Section Extensionality.

Variables f g : JsonSchema -> ExtractOptions -> Z -> list SchemaField.

Lemma extractUnionData_ext s o d :
  (forall v o' d', In v (union_branches s) -> f v o' d' = g v o' d') ->
  extractUnionData s f o d = extractUnionData s g o d.
Proof.
  intros Hfg. unfold extractUnionData.
  destruct (findDiscriminator (union_branches s)) as [n|].
  - f_equal. f_equal.
    induction (union_branches s) as [|v vs IH]; [reflexivity|].
    simpl. rewrite IH by (intros; apply Hfg; now right).
    destruct (property_const v n); [|reflexivity].
    rewrite Hfg by now left. reflexivity.
  - f_equal. f_equal. apply map_ext_in. intros v Hv.
    destruct (Schema.enum v); [reflexivity|].
    destruct (JS.defined (Schema.properties v)); [|reflexivity].
    now rewrite Hfg.
Qed.

Lemma extractUnionData_ext_height s o d :
  (forall s' o' d', height s' <= height s -> f s' o' d' = g s' o' d') ->
  extractUnionData s f o d = extractUnionData s g o d.
Proof.
  intros Hfg. apply extractUnionData_ext. intros v o' d' Hv.
  apply Hfg. apply height_union_branches in Hv. lia.
Qed.

Lemma extractUnionField_ext name s r o d :
  (forall s' o' d', height s' <= height s -> f s' o' d' = g s' o' d') ->
  Open.extractUnionField f name s r o d = Open.extractUnionField g name s r o d.
Proof.
  intros Hfg. unfold Open.extractUnionField.
  now rewrite (extractUnionData_ext_height s o d Hfg).
Qed.

Lemma extractArrayItemType_ext item o d :
  (forall s' o' d', height s' <= height item -> f s' o' d' = g s' o' d') ->
  Open.extractArrayItemType f item o d = Open.extractArrayItemType g item o d.
Proof.
  intros Hfg. unfold Open.extractArrayItemType.
  rewrite (extractUnionField_ext "item" item true o (d + 1)%Z Hfg).
  rewrite (Hfg item o (d + 1)%Z (Nat.le_refl _)).
  reflexivity.
Qed.

Lemma extractArrayItemType_of_items_ext s items o d :
  Schema.items s = Some items ->
  (forall s' o' d', height s' <= height s -> f s' o' d' = g s' o' d') ->
  Open.extractArrayItemType_of_items f items o d =
  Open.extractArrayItemType_of_items g items o d.
Proof.
  intros Hi Hfg. destruct items as [item|l]; [|reflexivity].
  simpl. apply extractArrayItemType_ext. intros s' o' d' Hs'.
  apply Hfg. pose proof (height_items_one s item Hi). lia.
Qed.

Lemma extractField_ext name s r o d :
  (forall s' o' d', height s' <= height s -> f s' o' d' = g s' o' d') ->
  Open.extractField f name s r o d = Open.extractField g name s r o d.
Proof.
  intros Hfg. unfold Open.extractField.
  pose proof (unwrapNullable_height s) as Hle.
  destruct (unwrapNullable s) as [a n]. cbn [actualSchema] in Hle.
  assert (Ha : forall s' o' d',
             height s' <= height a -> f s' o' d' = g s' o' d')
    by (intros; apply Hfg; lia).
  rewrite (extractUnionData_ext_height a o d Ha).
  rewrite (Ha a o (d + 1)%Z (Nat.le_refl _)).
  cbv zeta.
  destruct (Schema.enum a); [reflexivity|].
  destruct (Schema.const a); [reflexivity|].
  f_equal.
  assert (Hitems : forall items,
             Schema.items a = Some items ->
             Open.extractArrayItemType_of_items f items o d =
             Open.extractArrayItemType_of_items g items o d)
    by (intros; eapply extractArrayItemType_of_items_ext; eauto).
  assert (Htuple : forall l,
             Schema.items a = Some (Many l) ->
             map (fun item => Open.extractArrayItemType f item o d) l =
             map (fun item => Open.extractArrayItemType g item o d) l).
  { intros l Hl. apply map_ext_in. intros item Hin.
    apply extractArrayItemType_ext. intros. apply Ha.
    pose proof (height_items_many a l item Hl Hin). lia. }
  destruct (Schema.additionalProperties a) as [[b|v]|] eqn:Hadd;
    try (rewrite (Ha v o (d + 1)%Z)
           by (pose proof (height_additionalProperties a v Hadd); lia));
    destruct (Schema.items a) as [[item|l]|];
    rewrite ?(Hitems _ eq_refl), ?(Htuple _ eq_refl); reflexivity.
Qed.

End Extensionality.

Lemma extractObjectFields_body_ext ef1 ef2 s o d :
  (forall name p r,
      (exists props, Schema.properties s = Some props /\ In (name, p) props) ->
      ef1 name p r o d = ef2 name p r o d) ->
  extractObjectFields_body ef1 s o d = extractObjectFields_body ef2 s o d.
Proof.
  intros Hef. unfold extractObjectFields_body. f_equal.
  destruct (Schema.properties s) as [props|] eqn:Hp; [|reflexivity].
  apply map_ext_in. intros [name p] Hin. apply Hef. eauto.
Qed.

Lemma extractObjectFields_rounds_stable n :
  forall m s o d,
    height s <= n -> height s <= m ->
    extractObjectFields_rounds n s o d = extractObjectFields_rounds m s o d.
Proof.
  induction n as [|n IH]; intros m s o d Hn Hm.
  - pose proof (height_pos s). lia.
  - destruct m as [|m]; [pose proof (height_pos s); lia|].
    simpl. apply extractObjectFields_body_ext.
    intros name p r (props & Hp & Hin).
    pose proof (height_properties s props name p Hp Hin).
    apply extractField_ext. intros s' o' d' Hs'. apply IH; lia.
Qed.

(** The defining equation of [extractObjectFields], as in the source:
    extract every property with [extractField], then sort. *)
Lemma extractObjectFields_unfold s o d :
  extractObjectFields s o d =
  extractObjectFields_body extractField s o d.
Proof.
  unfold extractObjectFields.
  destruct (height s) as [|k] eqn:Hk; [pose proof (height_pos s); lia|].
  simpl. apply extractObjectFields_body_ext.
  intros name p r (props & Hp & Hin).
  pose proof (height_properties s props name p Hp Hin).
  unfold extractField. apply extractField_ext. intros s' o' d' Hs'.
  unfold extractObjectFields. apply extractObjectFields_rounds_stable; lia.
Qed.

(** ** [Array.prototype.sort] with a comparator that compares keys *)

Section SortByKey.

Context {A : Type}.
Variable compare : A -> A -> Z.
Variable key : A -> nat.
Hypothesis compare_key : forall a b, (compare a b <= 0)%Z <-> key a <= key b.

Lemma sort_insert_perm x l : Permutation (x :: l) (JS.sort_insert compare x l).
Proof.
  induction l as [|y l IH]; simpl; [reflexivity|].
  destruct (compare x y <=? 0)%Z; [reflexivity|].
  rewrite perm_swap. now constructor.
Qed.

Lemma sort_perm l : Permutation l (JS.sort compare l).
Proof.
  induction l as [|x l IH]; simpl; [constructor|].
  rewrite <- sort_insert_perm. now constructor.
Qed.

Lemma sort_insert_sorted x l :
  StronglySorted (fun a b => key a <= key b) l ->
  StronglySorted (fun a b => key a <= key b) (JS.sort_insert compare x l).
Proof.
  induction 1 as [|y l Hs IH Hall]; simpl.
  - repeat constructor.
  - destruct (compare x y <=? 0)%Z eqn:Hc.
    + apply Z.leb_le, compare_key in Hc.
      constructor; [now constructor|].
      constructor; [exact Hc|].
      eapply Forall_impl; [|exact Hall]. simpl. intros; lia.
    + apply Z.leb_gt in Hc.
      assert (Hyx : key y <= key x).
      { destruct (Nat.le_gt_cases (key x) (key y)) as [Hle|Hgt]; [|lia].
        apply compare_key in Hle. lia. }
      constructor; [exact IH|].
      eapply Permutation_Forall; [apply sort_insert_perm|].
      now constructor.
Qed.

Lemma sort_sorted l :
  StronglySorted (fun a b => key a <= key b) (JS.sort compare l).
Proof.
  induction l as [|x l IH]; simpl; [constructor|].
  now apply sort_insert_sorted.
Qed.

(** Stability: the elements of one key keep their relative order. *)
Lemma sort_insert_stable k x l :
  filter (fun a => key a =? k)%nat (JS.sort_insert compare x l) =
  filter (fun a => key a =? k)%nat (x :: l).
Proof.
  induction l as [|y l IH]; [reflexivity|].
  simpl JS.sort_insert.
  destruct (compare x y <=? 0)%Z eqn:Hc; [reflexivity|].
  apply Z.leb_gt in Hc.
  assert (Hne : key x <> key y).
  { intros Heq. assert (Hle : key x <= key y) by lia.
    apply compare_key in Hle. lia. }
  change (filter (fun a => key a =? k)%nat (y :: JS.sort_insert compare x l))
    with (if (key y =? k)%nat
          then y :: filter (fun a => key a =? k)%nat (JS.sort_insert compare x l)
          else filter (fun a => key a =? k)%nat (JS.sort_insert compare x l)).
  rewrite IH. simpl.
  destruct (key x =? k)%nat eqn:Hx; destruct (key y =? k)%nat eqn:Hy;
    try reflexivity.
  apply Nat.eqb_eq in Hx, Hy. lia.
Qed.

Lemma sort_stable k l :
  filter (fun a => key a =? k)%nat (JS.sort compare l) =
  filter (fun a => key a =? k)%nat l.
Proof.
  induction l as [|x l IH]; [reflexivity|].
  simpl JS.sort. rewrite sort_insert_stable. simpl. now rewrite IH.
Qed.

End SortByKey.

Lemma StronglySorted_nth {A : Type} (R : A -> A -> Prop) (l : list A) :
  StronglySorted R l ->
  forall i j a b,
    i < j -> nth_error l i = Some a -> nth_error l j = Some b -> R a b.
Proof.
  induction 1 as [|x l Hs IH Hall]; intros i j a b Hij Hi Hj.
  - destruct i; discriminate.
  - destruct j as [|j]; [lia|]. simpl in Hj.
    destruct i as [|i]; simpl in Hi.
    + injection Hi as <-. rewrite Forall_forall in Hall.
      apply Hall. eapply nth_error_In; eauto.
    + apply (IH i j); auto; lia.
Qed.

(** ** The order of object fields *)

Lemma compareFields_rank a b :
  (compareFields a b <= 0)%Z <-> fieldRank a <= fieldRank b.
Proof.
  unfold compareFields, fieldRank.
  destruct (hasDiscriminator a), (hasDiscriminator b),
    (Field.isRequired a), (Field.isRequired b); simpl; lia.
Qed.

(** ** What [extractField] never changes *)

(** Case analysis along the branches of [extractField]. *)
Ltac extractField_cases a o :=
  destruct (includeDefaults o) as [[|]|], (Schema.default a);
  destruct (Schema.enum a), (Schema.const a);
  repeat match goal with
         | |- context [if ?c then _ else _] => destruct c
         | |- context [match Schema.additionalProperties a with _ => _ end] =>
             destruct (Schema.additionalProperties a) as [[?|?]|]
         | |- context [match Schema.items a with _ => _ end] =>
             destruct (Schema.items a) as [[?|?]|]
         | |- context [match Schema.type a with _ => _ end] =>
             destruct (Schema.type a) as [[?|?]|]
         | |- context [match scalar_type ?v with _ => _ end] =>
             destruct (scalar_type v)
         end.

(** Unfold [extractField] and name the field as it stands before the
    type-specific properties are set. *)
Ltac extractField_start s a n base :=
  unfold Open.extractField;
  destruct (unwrapNullable s) as [a n]; cbn [actualSchema]; cbv zeta;
  match goal with
  | |- context [if (0 <? ?k)%nat then ?x else ?y] =>
      set (base := if (0 <? k)%nat then x else y)
  end.

Lemma extractField_name_isRequired f name s r o d :
  Field.name (Open.extractField f name s r o d) = name /\
  Field.isRequired (Open.extractField f name s r o d) = r.
Proof.
  unfold Open.extractField.
  destruct (unwrapNullable s) as [a n]. cbv zeta.
  extractField_cases a o; split; reflexivity.
Qed.

Lemma extractObjectFields_sort s o d :
  extractObjectFields s o d =
  JS.sort compareFields (fieldsInDocumentOrder s o d).
Proof. rewrite extractObjectFields_unfold. reflexivity. Qed.

Lemma inBucket_rank tagged required f :
  inBucket tagged required f =
  (fieldRank f =?
     (if tagged then 0 else 2) + (if required then 0 else 1))%nat.
Proof.
  unfold inBucket, fieldRank.
  destruct (hasDiscriminator f), (Field.isRequired f), tagged, required;
    reflexivity.
Qed.

(** C5. For a root [{type: "object", properties: ...}], the model has one
    top-level Field per property of the root, named after it, and a
    Field is required exactly when its name is in the root's [required]
    list. *)
Theorem extractToModel_object_root schema options props :
  Schema.type schema = Some (TypeName "object") ->
  Schema.properties schema = Some props ->
  let top := model_fields (extractToModel schema options) in
  Permutation (map fst props) (map Field.name top) /\
  List.length top = List.length props /\
  (forall f, In f top ->
     Field.isRequired f = true <-> In (Field.name f) (requiredNames schema)).
Proof.
  intros Hty Hprops. cbv zeta. unfold extractToModel.
  unfold Schema.type_is. rewrite Hty, Hprops. simpl.
  rewrite extractObjectFields_sort.
  set (opts := merge_options options).
  pose proof (sort_perm compareFields (fieldsInDocumentOrder schema opts 0%Z))
    as Hperm.
  assert (Hnames : map Field.name (fieldsInDocumentOrder schema opts 0%Z) =
                   map fst props).
  { unfold fieldsInDocumentOrder. rewrite Hprops. rewrite map_map.
    apply map_ext. intros [name p].
    apply (extractField_name_isRequired extractObjectFields). }
  split; [|split].
  - rewrite <- Hnames. now apply Permutation_map.
  - rewrite <- (Permutation_length Hperm).
    rewrite <- (length_map Field.name), Hnames. apply length_map.
  - intros f Hin.
    apply (Permutation_in _ (Permutation_sym Hperm)) in Hin.
    unfold fieldsInDocumentOrder in Hin. rewrite Hprops in Hin.
    apply in_map_iff in Hin. destruct Hin as [[name p] [<- _]].
    destruct (extractField_name_isRequired extractObjectFields name p
                (JS.Set_has (requiredNames schema) name) opts 0%Z)
      as [Hn Hr].
    fold extractField in Hn, Hr. rewrite Hn, Hr.
    unfold JS.Set_has. rewrite existsb_exists. split.
    + intros [x [Hx Heq]]. apply String.eqb_eq in Heq. now subst.
    + intros Hx. exists name. split; [exact Hx|apply String.eqb_refl].
Qed.

Lemma extractToModel_object_root_witness :
  let top := model_fields (extractToModel Samples.name_and_age None) in
  Permutation ["name"; "age"] (map Field.name top) /\
  List.length top = 2 /\
  (forall f, In f top ->
     Field.isRequired f = true <-> In (Field.name f) ["name"]).
Proof.
  apply (extractToModel_object_root Samples.name_and_age None
           [("name", Samples.string_schema); ("age", Samples.number_schema)]);
    reflexivity.
Defined.

(** ** The order holds throughout the extracted tree *)

Lemma objectFieldsOrdered_unfold f :
  objectFieldsOrdered f =
  whenSome (fun l => fieldsOrdered l && forallb objectFieldsOrdered l)
    (Field.objectFields f)
  && whenSome (whenNested objectFieldsOrdered) (Field.arrayItemType f)
  && whenSome (forallb (whenNested objectFieldsOrdered)) (Field.tupleItems f)
  && whenSome (whenNested objectFieldsOrdered) (Field.recordValueType f)
  && whenSome (forallb (fun v => forallb objectFieldsOrdered (fields v)))
       (Field.unionVariants f)
  && whenSome (forallb (whenNested objectFieldsOrdered)) (Field.unionTypes f).
Proof. destruct f; reflexivity. Qed.

Lemma fieldsOrdered_sorted l :
  StronglySorted (fun a b => fieldRank a <= fieldRank b) l ->
  fieldsOrdered l = true.
Proof.
  induction 1 as [|a l Hs IH Hall]; [reflexivity|].
  simpl. rewrite IH, Bool.andb_true_r. apply forallb_forall.
  rewrite Forall_forall in Hall. intros b Hb. apply Nat.leb_le. auto.
Qed.

Lemma forallb_Permutation {A : Type} (p : A -> bool) (l l' : list A) :
  Permutation l l' -> forallb p l = true -> forallb p l' = true.
Proof.
  intros Hperm. rewrite !forallb_forall. intros H x Hx.
  apply H. eapply Permutation_in; [symmetry|]; eauto.
Qed.

Lemma wellOrdered_sort l :
  forallb objectFieldsOrdered l = true ->
  wellOrdered (JS.sort compareFields l) = true.
Proof.
  intros Hl. unfold wellOrdered. apply andb_true_intro. split.
  - apply fieldsOrdered_sorted.
    apply (sort_sorted compareFields fieldRank compareFields_rank).
  - eapply forallb_Permutation; [apply sort_perm|exact Hl].
Qed.

Section OrderedTree.

Variable f : JsonSchema -> ExtractOptions -> Z -> list SchemaField.

Lemma extractUnionData_ordered s o d :
  (forall v o' d', In v (union_branches s) -> wellOrdered (f v o' d') = true) ->
  whenSome (forallb (fun v => forallb objectFieldsOrdered (fields v)))
    (variants (extractUnionData s f o d)) = true /\
  whenSome (forallb (whenNested objectFieldsOrdered))
    (u_unionTypes (extractUnionData s f o d)) = true.
Proof.
  intros Hf. unfold extractUnionData.
  destruct (findDiscriminator (union_branches s)) as [n|]; simpl.
  - split; [|reflexivity].
    induction (union_branches s) as [|v vs IH]; [reflexivity|].
    simpl. rewrite forallb_app, IH by (intros; apply Hf; now right).
    rewrite Bool.andb_true_r.
    destruct (property_const v n); [|reflexivity].
    simpl. rewrite Bool.andb_true_r.
    specialize (Hf v o (d + 1)%Z (or_introl eq_refl)).
    unfold wellOrdered in Hf. apply andb_prop in Hf. tauto.
  - split; [reflexivity|].
    rewrite forallb_forall. intros t Ht. apply in_map_iff in Ht.
    destruct Ht as (v & <- & Hv).
    destruct (Schema.enum v); [reflexivity|].
    destruct (JS.defined (Schema.properties v)).
    + simpl. rewrite !Bool.andb_true_r. apply (Hf v o (d + 1)%Z Hv).
    + destruct (scalar_type v); reflexivity.
Qed.

Lemma extractUnionField_ordered name s r o d :
  (forall s' o' d', height s' <= height s -> wellOrdered (f s' o' d') = true) ->
  objectFieldsOrdered (Open.extractUnionField f name s r o d) = true.
Proof.
  intros Hf.
  destruct (extractUnionData_ordered s o d) as [Hv Ht].
  { intros v o' d' Hin. apply Hf.
    apply height_union_branches in Hin. lia. }
  unfold Open.extractUnionField. rewrite objectFieldsOrdered_unfold.
  destruct (isDiscriminated _); simpl; rewrite ?Hv, ?Ht; reflexivity.
Qed.

Lemma extractArrayItemType_ordered item o d :
  (forall s' o' d',
      height s' <= height item -> wellOrdered (f s' o' d') = true) ->
  whenNested objectFieldsOrdered (Open.extractArrayItemType f item o d) = true.
Proof.
  intros Hf. unfold Open.extractArrayItemType.
  pose proof (extractUnionField_ordered "item" item true o (d + 1)%Z Hf)
    as Hu.
  pose proof (Hf item o (d + 1)%Z (Nat.le_refl _)) as Hitem.
  assert (Hobj :
            objectFieldsOrdered
              (Field.set_objectFields (Field.literal "item" "object" true)
                 (Some (f item o (d + 1)%Z))) = true).
  { simpl. now rewrite !Bool.andb_true_r. }
  destruct (JS.defined (Schema.oneOf item) || JS.defined (Schema.anyOf item)).
  - destruct (if Field.type _ =? "union" then _ else _) as [[t|e]|];
      try exact Hu.
    destruct (Field.enumValues e); [reflexivity|exact Hu].
  - destruct (if negb _ then _ else _).
    + destruct (Schema.enum item); reflexivity.
    + destruct (_ || _); [exact Hobj|reflexivity].
Qed.

(** Where the nested parts of an extracted Field come from. *)
Lemma extractField_payload name s r o d :
  let a := actualSchema (unwrapNullable s) in
  let field := Open.extractField f name s r o d in
  (Field.objectFields field = None \/
   Field.objectFields field = Some (f a o (d + 1)%Z)) /\
  (Field.arrayItemType field = None \/
   exists items,
     Schema.items a = Some items /\
     Field.arrayItemType field =
     Some (Open.extractArrayItemType_of_items f items o d)) /\
  (Field.tupleItems field = None \/
   exists l,
     Schema.items a = Some (Many l) /\
     Field.tupleItems field =
     Some (map (fun item => Open.extractArrayItemType f item o d) l)) /\
  (Field.recordValueType field = None \/
   (exists t, Field.recordValueType field = Some (BareType t)) \/
   exists v,
     Schema.additionalProperties a = Some (IsSchema v) /\
     Field.recordValueType field =
     Some (NestedField
             (Field.set_objectFields (Field.literal "value" "object" true)
                (Some (f v o (d + 1)%Z))))) /\
  (Field.unionVariants field = None \/
   Field.unionVariants field = variants (extractUnionData a f o d)) /\
  (Field.unionTypes field = None \/
   (exists ts, Field.unionTypes field = Some (map BareType ts)) \/
   Field.unionTypes field = u_unionTypes (extractUnionData a f o d)).
Proof.
  cbv zeta. extractField_start s a n base.
  assert (Hbase :
            Field.objectFields base = None /\
            Field.arrayItemType base = None /\
            Field.tupleItems base = None /\
            Field.recordValueType base = None /\
            Field.unionVariants base = None /\
            Field.unionTypes base = None)
    by (subst base; destruct (0 <? _)%nat; repeat split; reflexivity).
  clearbody base.
  destruct Hbase as (Hb1 & Hb2 & Hb3 & Hb4 & Hb5 & Hb6).
  extractField_cases a o; cbn; rewrite ?Hb1, ?Hb2, ?Hb3, ?Hb4, ?Hb5, ?Hb6;
    repeat split; eauto 6.
Qed.

Lemma extractField_ordered name s r o d :
  (forall s' o' d', height s' <= height s -> wellOrdered (f s' o' d') = true) ->
  objectFieldsOrdered (Open.extractField f name s r o d) = true.
Proof.
  intros Hfs.
  pose proof (unwrapNullable_height s) as Hle.
  pose proof (extractField_payload name s r o d) as Hp. cbv zeta in Hp.
  set (a := actualSchema (unwrapNullable s)) in *.
  assert (Hf : forall s' o' d',
             height s' <= height a -> wellOrdered (f s' o' d') = true)
    by (intros; apply Hfs; lia).
  clear Hfs Hle.
  destruct (extractUnionData_ordered a o d) as [Hv Ht].
  { intros v o' d' Hin. apply Hf.
    apply height_union_branches in Hin. lia. }
  destruct Hp as (Hobj & Harr & Htup & Hrec & Hvar & Hty).
  rewrite objectFieldsOrdered_unfold.
  repeat (apply andb_true_intro; split).
  - destruct Hobj as [-> | ->]; [reflexivity|].
    apply (Hf a o (d + 1)%Z (Nat.le_refl _)).
  - destruct Harr as [-> | (items & Hi & ->)]; [reflexivity|].
    destruct items as [item|l]; [|reflexivity]. simpl.
    apply extractArrayItemType_ordered. intros. apply Hf.
    pose proof (height_items_one a item Hi). lia.
  - destruct Htup as [-> | (l & Hl & ->)]; [reflexivity|].
    simpl. rewrite forallb_forall. intros t Hin.
    apply in_map_iff in Hin. destruct Hin as (item & <- & Hin).
    apply extractArrayItemType_ordered. intros. apply Hf.
    pose proof (height_items_many a l item Hl Hin). lia.
  - destruct Hrec as [-> | [(t & ->) | (v & Hadd & ->)]]; try reflexivity.
    simpl. rewrite !Bool.andb_true_r. apply Hf.
    pose proof (height_additionalProperties a v Hadd). lia.
  - destruct Hvar as [-> | ->]; [reflexivity|exact Hv].
  - destruct Hty as [-> | [(ts & ->) | ->]]; [reflexivity| |exact Ht].
    simpl. induction ts; simpl; auto.
Qed.

End OrderedTree.

Lemma extractObjectFields_wellOrdered_upto n :
  forall s o d, height s <= n -> wellOrdered (extractObjectFields s o d) = true.
Proof.
  induction n as [|n IH]; intros s o d Hn.
  - pose proof (height_pos s). lia.
  - rewrite extractObjectFields_sort. apply wellOrdered_sort.
    unfold fieldsInDocumentOrder.
    destruct (Schema.properties s) as [props|] eqn:Hp; [|reflexivity].
    rewrite forallb_forall. intros x Hx. apply in_map_iff in Hx.
    destruct Hx as ([name p] & <- & Hin).
    pose proof (height_properties s props name p Hp Hin).
    apply extractField_ordered. intros s' o' d' Hs'. apply IH. lia.
Qed.

Lemma extractObjectFields_wellOrdered s o d :
  wellOrdered (extractObjectFields s o d) = true.
Proof. now apply (extractObjectFields_wellOrdered_upto (height s)). Qed.

Lemma extractToModel_ordered schema options :
  forallb objectFieldsOrdered (model_fields (extractToModel schema options))
  = true.
Proof.
  assert (Hall : forall s' o' d',
             wellOrdered (extractObjectFields s' o' d') = true)
    by (intros; apply extractObjectFields_wellOrdered).
  unfold extractToModel. cbn [model_fields].
  destruct (Schema.type_is schema "object" && _).
  - specialize (Hall schema (merge_options options) 0%Z).
    unfold wellOrdered in Hall. apply andb_prop in Hall. tauto.
  - destruct (Schema.type_is schema "array" && _).
    + simpl. rewrite Bool.andb_true_r.
      unfold extractArrayField, Open.extractArrayField.
      destruct (Schema.items schema) as [[item|l]|]; try reflexivity.
      simpl. rewrite !Bool.andb_true_r.
      apply extractArrayItemType_ordered. auto.
    + destruct (_ || _); simpl; rewrite Bool.andb_true_r.
      * apply extractUnionField_ordered. auto.
      * apply extractField_ordered. auto.
Qed.

Lemma fieldsOrdered_nth l :
  fieldsOrdered l = true ->
  forall i j a b,
    i < j -> nth_error l i = Some a -> nth_error l j = Some b ->
    fieldRank a <= fieldRank b.
Proof.
  intros Hl. apply StronglySorted_nth.
  induction l as [|x l IH]; [constructor|].
  simpl in Hl. apply andb_prop in Hl. destruct Hl as [Hx Hl].
  constructor; [now apply IH|].
  rewrite forallb_forall in Hx. apply Forall_forall.
  intros y Hy. apply Nat.leb_le. now apply Hx.
Qed.

(** C3. In the list [extractObjectFields] returns, which is where every
    [objectFields] list of an extracted Field comes from, a field with a
    non-empty [discriminatorField] never comes after one without; among
    the fields without one, a required field never comes after an
    optional one; the fields that agree on both criteria keep the order
    of the document's properties; and the list is a rearrangement of the
    extracted properties.  The order holds for every [objectFields] list
    inside a Field returned by [extractField] and inside the model
    returned by [extractToModel]. *)
Theorem objectFields_order_stable schema options depth :
  let sorted := extractObjectFields schema options depth in
  let source := fieldsInDocumentOrder schema options depth in
  (forall i j a b,
      i < j -> nth_error sorted i = Some a -> nth_error sorted j = Some b ->
      (hasDiscriminator b = true -> hasDiscriminator a = true) /\
      (hasDiscriminator a = false ->
       Field.isRequired b = true -> Field.isRequired a = true)) /\
  (forall tagged required,
      filter (inBucket tagged required) sorted =
      filter (inBucket tagged required) source) /\
  Permutation source sorted /\
  (forall name isRequired,
      objectFieldsOrdered (extractField name schema isRequired options depth)
      = true) /\
  (forall modelOptions,
      forallb objectFieldsOrdered
        (model_fields (extractToModel schema modelOptions)) = true).
Proof.
  cbv zeta. rewrite extractObjectFields_sort.
  set (source := fieldsInDocumentOrder schema options depth).
  split; [|split; [|split; [|split]]].
  - intros i j a b Hij Ha Hb.
    pose proof (sort_sorted compareFields fieldRank compareFields_rank source)
      as Hs.
    pose proof (StronglySorted_nth _ _ Hs i j a b Hij Ha Hb) as Hr.
    unfold fieldRank in Hr.
    destruct (hasDiscriminator a), (hasDiscriminator b),
      (Field.isRequired a), (Field.isRequired b); simpl in Hr;
      split; intros; try reflexivity; try discriminate; lia.
  - intros tagged required.
    rewrite (filter_ext _ _ (inBucket_rank tagged required)).
    rewrite (filter_ext _ _ (inBucket_rank tagged required) source).
    apply (sort_stable compareFields fieldRank compareFields_rank).
  - apply sort_perm.
  - intros name isRequired. apply extractField_ordered.
    intros. apply extractObjectFields_wellOrdered.
  - intros modelOptions. apply extractToModel_ordered.
Qed.

(** ** Discriminator detection *)









(** ** Nullability *)

Lemma unwrapNullable_unchanged schema :
  nullableAnyOf schema = false -> nullableTypeArray schema = false ->
  unwrapNullable schema = mkUnwrapped schema false.
Proof.
  unfold unwrapNullable, nullableAnyOf, nullableTypeArray.
  intros Hany Hty.
  assert (Htail :
            match Schema.type schema with
            | Some (TypeList ts) =>
                if existsb (String.eqb "null") ts
                then
                  mkUnwrapped
                    (Schema.with_type
                       (Some
                          match filter (fun t => negb (t =? "null")) ts with
                          | [t] => TypeName t
                          | _ => TypeList (filter (fun t => negb (t =? "null")) ts)
                          end) schema) true
                else mkUnwrapped schema false
            | _ => mkUnwrapped schema false
            end = mkUnwrapped schema false).
  { destruct (Schema.type schema) as [[t|ts]|]; try reflexivity.
    now rewrite Hty. }
  destruct (Schema.anyOf schema) as [l|]; [|exact Htail].
  destruct (filter _ l) as [|a [|b rest]]; try exact Htail.
  rewrite Bool.andb_true_r in Hany. rewrite Hany. exact Htail.
Qed.

Lemma unwrapNullable_nullable schema :
  nullableAnyOf schema = true \/ nullableTypeArray schema = true ->
  isNullable (unwrapNullable schema) = true.
Proof.
  unfold unwrapNullable, nullableAnyOf, nullableTypeArray.
  destruct (Schema.anyOf schema) as [l|].
  - destruct (filter _ l) as [|a [|b rest]]; simpl;
      rewrite ?Bool.andb_false_r, ?Bool.andb_true_r.
    + intros [H|H]; [discriminate|].
      destruct (Schema.type schema) as [[t|ts]|]; try discriminate.
      now rewrite H.
    + destruct (existsb _ l); [reflexivity|].
      intros [H|H]; [discriminate|].
      destruct (Schema.type schema) as [[t|ts]|]; try discriminate.
      now rewrite H.
    + intros [H|H]; [discriminate|].
      destruct (Schema.type schema) as [[t|ts]|]; try discriminate.
      now rewrite H.
  - intros [H|H]; [discriminate|].
    destruct (Schema.type schema) as [[t|ts]|]; try discriminate.
    now rewrite H.
Qed.

(** C4. [unwrapNullable] turns [{anyOf: [{type: "null"}, {type:
    "string"}]}] into [{type: "string"}] with [isNullable = true], leaves
    [{type: "string"}] as it is with [isNullable = false], and returns
    every schema that is in neither recognized encoding (an [anyOf] with
    a null branch and one other branch; a [type] array containing
    ["null"]) unchanged with [isNullable = false].  The function is
    total: it returns on every schema, and reports nullability exactly on
    the two encodings. *)
Theorem unwrapNullable_spec :
  unwrapNullable Samples.nullable_string =
    mkUnwrapped Samples.string_schema true /\
  unwrapNullable Samples.string_schema =
    mkUnwrapped Samples.string_schema false /\
  (forall schema,
      nullableAnyOf schema = false -> nullableTypeArray schema = false ->
      unwrapNullable schema = mkUnwrapped schema false) /\
  (forall schema,
      isNullable (unwrapNullable schema) =
      nullableAnyOf schema || nullableTypeArray schema).
Proof.
  split; [reflexivity|]. split; [reflexivity|]. split.
  - exact unwrapNullable_unchanged.
  - intros schema.
    destruct (nullableAnyOf schema) eqn:Hany.
    + apply unwrapNullable_nullable. now left.
    + destruct (nullableTypeArray schema) eqn:Hty.
      * apply unwrapNullable_nullable. now right.
      * now rewrite unwrapNullable_unchanged.
Qed.

Lemma unwrapNullable_spec_witness :
  unwrapNullable Samples.number_schema =
    mkUnwrapped Samples.number_schema false.
Proof.
  apply (proj1 (proj2 (proj2 unwrapNullable_spec)) Samples.number_schema);
    reflexivity.
Defined.

(** ** Unions with no branch *)

(** C10. When the list of branches a node offers ([oneOf], or [anyOf]
    when [oneOf] is absent) is present but empty, discriminator
    detection succeeds vacuously on ["type"]: [extractUnionField] returns
    a discriminated-union Field with [discriminatorField = "type"] and
    an empty [unionVariants], and so does [extractField] on a node that
    is otherwise bare and above the depth bound. *)
Theorem empty_union_is_discriminated name schema isRequired options depth :
  Schema.oneOf schema = Some [] \/
  (Schema.oneOf schema = None /\ Schema.anyOf schema = Some []) ->
  (let f := extractUnionField name schema isRequired options depth in
   Field.type f = "discriminated-union" /\
   Field.discriminatorField f = Some "type" /\
   Field.unionVariants f = Some [] /\
   Field.unionTypes f = None) /\
  (Schema.enum schema = None -> Schema.const schema = None ->
   nullableAnyOf schema = false -> nullableTypeArray schema = false ->
   type_is_union schema = false ->
   (depth < maxDepth_or_3 options)%Z ->
   let f := extractField name schema isRequired options depth in
   Field.type f = "discriminated-union" /\
   Field.discriminatorField f = Some "type" /\
   Field.unionVariants f = Some [] /\
   Field.unionTypes f = None).
Proof.
  intros Hempty.
  assert (Hb : union_branches schema = []).
  { unfold union_branches.
    destruct Hempty as [-> | [-> ->]]; reflexivity. }
  assert (Hdef : JS.defined (Schema.oneOf schema)
                 || JS.defined (Schema.anyOf schema) = true).
  { destruct Hempty as [-> | [-> ->]]; reflexivity. }
  split.
  - unfold extractUnionField, Open.extractUnionField, extractUnionData.
    rewrite Hb. simpl. auto.
  - intros Henum Hconst Hnull Hnulls Hnu Hdepth.
    pose proof (unwrapNullable_unchanged schema Hnull Hnulls) as Hu.
    unfold extractField, Open.extractField. rewrite Hu. cbv zeta.
    unfold extractUnionData. rewrite Hb. simpl findDiscriminator.
    cbv iota beta.
    rewrite Henum, Hconst.
    assert (Hty : detectFieldType schema = "union").
    { unfold detectFieldType. rewrite Henum, Hconst, Hdef. reflexivity. }
    apply Z.ltb_lt in Hdepth.
    match goal with
    | |- context [(0 <? ?n)%nat] => destruct (0 <? n)%nat
    end;
      cbn [Field.type Field.set_type Field.set_examples Field.set_constraints];
      rewrite Hty, Hdef, Hdepth, Hnu; simpl;
      destruct (includeDefaults options) as [[|]|], (Schema.default schema);
      repeat split; reflexivity.
Qed.

Lemma empty_union_is_discriminated_witness :
  (let f := extractUnionField "root" Samples.empty_oneOf true OPTIONS 0%Z in
   Field.type f = "discriminated-union" /\
   Field.discriminatorField f = Some "type" /\
   Field.unionVariants f = Some [] /\
   Field.unionTypes f = None) /\
  (let f := extractField "root" Samples.empty_oneOf true OPTIONS 0%Z in
   Field.type f = "discriminated-union" /\
   Field.discriminatorField f = Some "type" /\
   Field.unionVariants f = Some [] /\
   Field.unionTypes f = None).
Proof.
  destruct (empty_union_is_discriminated "root" Samples.empty_oneOf true
              OPTIONS 0%Z) as [Hfield Hnode].
  - left. reflexivity.
  - split; [exact Hfield|].
    apply Hnode; reflexivity.
Defined.

(** ** Literal fields *)

(** C6. When the unwrapped schema of a named node has no [enum] but a
    [const], [extractField] returns a Field of type ["enum"] whose
    [enumValues] is the one-element list of the stringified literal and
    whose [discriminatorField] is the field's own name. *)
Theorem extractField_const name schema isRequired options depth literal :
  let inner := actualSchema (unwrapNullable schema) in
  Schema.enum inner = None ->
  Schema.const inner = Some literal ->
  let f := extractField name schema isRequired options depth in
  Field.type f = "enum" /\
  Field.enumValues f = Some [JS.String_ literal] /\
  Field.discriminatorField f = Some name.
Proof.
  cbv zeta. unfold extractField, Open.extractField.
  destruct (unwrapNullable schema) as [a n]. cbn [actualSchema].
  intros -> ->.
  destruct (includeDefaults options) as [[|]|], (Schema.default a);
    repeat split; reflexivity.
Qed.

Lemma extractField_const_witness :
  let f :=
    extractField "kind" (Samples.const_schema "text") true OPTIONS 0%Z in
  Field.type f = "enum" /\
  Field.enumValues f = Some ["text"] /\
  Field.discriminatorField f = Some "kind".
Proof.
  apply (extractField_const "kind" (Samples.const_schema "text") true
           OPTIONS 0%Z (JStr "text")); reflexivity.
Defined.

(** ** Constraints *)

(** C8, as stated, fails on a [pattern] that is present and empty: the
    key is on the node and no entry is produced. *)
Lemma extractConstraints_empty_pattern :
  Schema.pattern Samples.empty_pattern = Some "" /\
  extractConstraints Samples.empty_pattern = [].
Proof. split; reflexivity. Qed.

(** C8, amended. [extractConstraints] returns, in the fixed order
    [minLength], [maxLength], [pattern], [format], [minimum], [maximum],
    [minItems], [maxItems], one entry (kind, raw value, display string)
    for each numeric key present on the node and for [pattern] and
    [format] when they hold a non-empty string, and nothing else. *)
Theorem extractConstraints_spec schema :
  extractConstraints schema =
  flat_map (fun kind => option_list (constraintFor kind schema))
    constraintOrder.
Proof.
  unfold extractConstraints, constraintOrder, constraintFor, push. simpl.
  destruct (Schema.minLength schema), (Schema.maxLength schema),
    (Schema.pattern schema) as [p|], (Schema.format schema) as [f|],
    (Schema.minimum schema), (Schema.maximum schema),
    (Schema.minItems schema), (Schema.maxItems schema);
    try destruct (p =? ""); try destruct (f =? ""); reflexivity.
Qed.

(** ** Description and examples *)

Lemma extractField_examples f name s r o d :
  Field.examples (Open.extractField f name s r o d) = resolvedExamples s.
Proof.
  unfold Open.extractField, resolvedExamples.
  destruct (unwrapNullable s) as [a n]. cbn [actualSchema]. cbv zeta.
  set (good := match or_defined (Schema.examples s) (Schema.examples a) with
               | Some values =>
                   map (fun value => mkFieldExample value true None) values
               | None => []
               end).
  assert (Hgood : match or_defined (Schema.examples s) (Schema.examples a) with
                  | Some values =>
                      ([] ++ map (fun value => mkFieldExample value true None)
                               values)%list
                  | None => []
                  end = good).
  { subst good. now destruct (or_defined _ _). }
  rewrite Hgood. clear Hgood.
  set (all := match JS.or_else JS.truthy_value (Schema.badExamples s)
                      (Schema.badExamples a) with
              | Some (JArr values) =>
                  (good ++ map (fun value => mkFieldExample value false None)
                             values)%list
              | _ => good
              end).
  assert (Hall : (good ++
                  match JS.or_else JS.truthy_value (Schema.badExamples s)
                          (Schema.badExamples a) with
                  | Some (JArr values) =>
                      map (fun value => mkFieldExample value false None) values
                  | _ => []
                  end)%list = all).
  { subst all.
    destruct (JS.or_else _ _ _) as [[| | | | |]|];
      rewrite ?app_nil_r; reflexivity. }
  rewrite Hall. clearbody all. clear Hall good.
  destruct all as [|e all];
    [ change (0 <? List.length (@nil FieldExample))%nat with false
    | change (0 <? List.length (e :: all))%nat with true ];
    cbv iota; extractField_cases a o; reflexivity.
Qed.

Lemma detectFieldType_union a :
  Schema.enum a = None -> Schema.const a = None ->
  JS.defined (Schema.oneOf a) || JS.defined (Schema.anyOf a) = true ->
  detectFieldType a = "union".
Proof.
  intros He Hc Hu. unfold detectFieldType. now rewrite He, Hc, Hu.
Qed.

Lemma extractField_description f name s r o d :
  Field.description (Open.extractField f name s r o d) =
  if resolvedAsPlainUnion s o d
  then
    Some ("Union of "
            ++ JS.join ", "
                 (map getVariantType
                    (union_branches (actualSchema (unwrapNullable s)))))
  else resolvedDescription s.
Proof.
  unfold Open.extractField, resolvedAsPlainUnion, resolvedDescription.
  destruct (unwrapNullable s) as [a n]. cbn [actualSchema]. cbv zeta.
  match goal with
  | |- context [(0 <? ?n)%nat] => destruct (0 <? n)%nat
  end;
    cbn [Field.type Field.set_type Field.set_examples Field.set_constraints].
  all: destruct (Schema.enum a) eqn:He;
    [destruct (includeDefaults o) as [[|]|], (Schema.default a); reflexivity|].
  all: destruct (Schema.const a) eqn:Hc;
    [destruct (includeDefaults o) as [[|]|], (Schema.default a); reflexivity|].
  all: cbn [JS.defined negb andb].
  all: destruct (JS.defined (Schema.oneOf a) || JS.defined (Schema.anyOf a))
         eqn:Hu.
  all: try (rewrite (detectFieldType_union a He Hc Hu);
            cbn [String.eqb Ascii.eqb Bool.eqb andb];
            destruct (type_is_union a) eqn:Hnu;
            [ destruct (Schema.type a) as [[?|?]|];
              destruct (includeDefaults o) as [[|]|], (Schema.default a);
              reflexivity
            | ];
            cbn [negb andb];
            destruct (d <? maxDepth_or_3 o)%Z;
            [ unfold extractUnionData;
              destruct (findDiscriminator (union_branches a));
              destruct (includeDefaults o) as [[|]|], (Schema.default a);
              reflexivity
            | destruct (includeDefaults o) as [[|]|], (Schema.default a);
              reflexivity ]).
  all: rewrite ?Bool.andb_false_r; cbn [andb].
  all: extractField_cases a o; reflexivity.
Qed.

(** C9, as stated, fails on a node resolved as a plain union: its
    top-level description is replaced by the generated one. *)
Lemma extractField_description_overridden :
  Schema.description Samples.described_union = Some "Top" /\
  Field.description
    (extractField "value" Samples.described_union true OPTIONS 0%Z) =
  Some "Union of string, number".
Proof. split; reflexivity. Qed.

(** C9, amended. [extractField] reads [description] and [examples] on
    the node before it unwraps nullability.  The Field's examples are the
    top-level examples when that key is present, else those of the
    unwrapped schema, each marked correct, followed by the bad examples
    marked incorrect (and no [examples] property when there are none).
    The Field's description is the top-level description when it is a
    non-empty string, else the unwrapped schema's, except on a node
    resolved as a plain union, whose description is the generated text
    ["Union of ..."] listing the branch type names. *)
Theorem extractField_metadata name schema isRequired options depth :
  let f := extractField name schema isRequired options depth in
  let inner := actualSchema (unwrapNullable schema) in
  Field.examples f = resolvedExamples schema /\
  Field.description f =
    if resolvedAsPlainUnion schema options depth
    then
      Some ("Union of "
              ++ JS.join ", " (map getVariantType (union_branches inner)))
    else resolvedDescription schema.
Proof.
  cbv zeta. split.
  - apply extractField_examples.
  - apply extractField_description.
Qed.

(** ** The depth bound *)

Lemma maxDepth_or_3_limit options limit :
  (maxDepth options = Some limit /\ (1 <= limit)%Z) \/
  (maxDepth options = None /\ limit = 3%Z) ->
  maxDepth_or_3 options = limit.
Proof.
  unfold maxDepth_or_3. intros [[-> Hpos] | [-> ->]]; [|reflexivity].
  destruct (Z.eqb_spec limit 0); [lia|reflexivity].
Qed.

Lemma forallb_isBare_map (ts : list string) :
  forallb isBare (map (@BareType SchemaField) ts) = true.
Proof. induction ts; simpl; auto. Qed.

Lemma extractField_beyond_bound f name s r o d :
  (maxDepth_or_3 o <= d)%Z ->
  let field := Open.extractField f name s r o d in
  Field.objectFields field = None /\
  Field.unionVariants field = None /\
  (forall ts, Field.unionTypes field = Some ts -> forallb isBare ts = true).
Proof.
  intros Hd. apply Z.ltb_ge in Hd. cbv zeta.
  unfold Open.extractField.
  destruct (unwrapNullable s) as [a n]. cbv zeta. rewrite Hd.
  rewrite !Bool.andb_false_r.
  extractField_cases a o; cbn;
    (split; [reflexivity|split; [reflexivity|]]);
    intros ts' Hts; try discriminate;
    injection Hts as <-; apply forallb_isBare_map.
Qed.

Lemma extractField_object_below_bound f name s r o d :
  (d < maxDepth_or_3 o)%Z ->
  let a := actualSchema (unwrapNullable s) in
  Schema.enum a = None -> Schema.const a = None ->
  detectFieldType a = "object" ->
  Field.objectFields (Open.extractField f name s r o d) =
  option_map (fun _ => f a o (d + 1)%Z) (Schema.properties a).
Proof.
  intros Hd. apply Z.ltb_lt in Hd. cbv zeta.
  unfold Open.extractField.
  destruct (unwrapNullable s) as [a n]. cbn [actualSchema]. cbv zeta.
  intros He Hc Hty. rewrite He, Hc, Hd.
  match goal with
  | |- context [(0 <? ?n)%nat] => destruct (0 <? n)%nat
  end;
    cbn [Field.type Field.set_type Field.set_examples Field.set_constraints];
    rewrite Hty; cbn [String.eqb Ascii.eqb Bool.eqb andb];
    destruct (Schema.properties a);
    destruct (includeDefaults o) as [[|]|], (Schema.default a); reflexivity.
Qed.

Lemma extractField_array_any_depth f name s r o d items :
  let a := actualSchema (unwrapNullable s) in
  Schema.enum a = None -> Schema.const a = None ->
  detectFieldType a = "array" ->
  Schema.items a = Some items ->
  Field.arrayItemType (Open.extractField f name s r o d) =
  Some (Open.extractArrayItemType_of_items f items o d).
Proof.
  cbv zeta. unfold Open.extractField.
  destruct (unwrapNullable s) as [a n]. cbn [actualSchema]. cbv zeta.
  intros He Hc Hty Hitems. rewrite He, Hc, Hitems.
  match goal with
  | |- context [(0 <? ?n)%nat] => destruct (0 <? n)%nat
  end;
    cbn [Field.type Field.set_type Field.set_examples Field.set_constraints];
    rewrite Hty; cbn [String.eqb Ascii.eqb Bool.eqb andb JS.defined];
    destruct (includeDefaults o) as [[|]|], (Schema.default a); reflexivity.
Qed.

Lemma extractArrayItemType_object f item o d props :
  Schema.oneOf item = None -> Schema.anyOf item = None ->
  Schema.properties item = Some props ->
  Open.extractArrayItemType f item o d =
  NestedField
    (Field.set_objectFields (Field.literal "item" "object" true)
       (Some (f item o (d + 1)%Z))).
Proof.
  intros Ho Ha Hp. unfold Open.extractArrayItemType.
  rewrite Ho, Ha, Hp. simpl. now rewrite Bool.orb_true_r.
Qed.

Lemma extractField_union f name s r o d :
  let a := actualSchema (unwrapNullable s) in
  let field := Open.extractField f name s r o d in
  let data := extractUnionData a f o d in
  Schema.enum a = None -> Schema.const a = None ->
  type_is_union a = false ->
  JS.defined (Schema.oneOf a) || JS.defined (Schema.anyOf a) = true ->
  if (d <? maxDepth_or_3 o)%Z
  then
    Field.type field =
      (if isDiscriminated data then "discriminated-union" else "union") /\
    Field.unionVariants field = variants data /\
    Field.unionTypes field = u_unionTypes data
  else
    Field.type field = "union" /\
    Field.unionVariants field = None /\
    Field.unionTypes field = None.
Proof.
  cbv zeta. extractField_start s a n base.
  intros He Hc Hnu Hu.
  assert (Hbase :
            Field.type base = "union" /\
            Field.unionVariants base = None /\
            Field.unionTypes base = None).
  { subst base. destruct (0 <? _)%nat;
      cbn [Field.type Field.unionVariants Field.unionTypes
           Field.set_examples Field.set_constraints];
      rewrite (detectFieldType_union a He Hc Hu); repeat split. }
  clearbody base. destruct Hbase as (Hb1 & Hb2 & Hb3).
  rewrite He, Hc, Hnu, Hu, Hb1.
  cbn [String.eqb Ascii.eqb Bool.eqb andb].
  destruct (d <? maxDepth_or_3 o)%Z.
  - unfold extractUnionData.
    destruct (findDiscriminator (union_branches a));
      cbn [isDiscriminated variants u_unionTypes u_discriminatorField types];
      destruct (includeDefaults o) as [[|]|], (Schema.default a);
      cbn; rewrite ?Hb2, ?Hb3; repeat split; reflexivity.
  - destruct (includeDefaults o) as [[|]|], (Schema.default a);
      cbn; rewrite ?Hb1, ?Hb2, ?Hb3; repeat split; reflexivity.
Qed.

(** C1 does not hold of the code.  With [maxDepth = 1] the array [b]
    of [array_below_bound] is reached at depth 1, and its item is
    expanded into a nested object Field with its own object fields,
    where the claim has it collapse to a bare kind; the value of the
    record [r] of [record_below_bound], reached at depth 1, is expanded
    in the same way.  With [maxDepth = 0] the bound that [extractField]
    reads is 3 ([options.maxDepth || 3]), so the three-level document
    is expanded in full, where the claim has nothing expanded. *)
Theorem depth_bound_not_enforced :
  (exists a b item c,
      model_fields
        (extractToModel Samples.array_below_bound (Some maxDepth1)) = [a] /\
      Field.objectFields a = Some [b] /\
      b = extractField "b"
            (Samples.array_schema
               (Samples.object_schema [("c", Samples.string_schema)]))
            false maxDepth1 1%Z /\
      Field.arrayItemType b = Some (NestedField item) /\
      Field.objectFields item = Some [c] /\
      Field.name c = "c" /\
      collapsed b = false) /\
  (exists a r value x,
      model_fields
        (extractToModel Samples.record_below_bound (Some maxDepth1)) = [a] /\
      Field.objectFields a = Some [r] /\
      Field.type r = "record" /\
      Field.recordValueType r = Some (NestedField value) /\
      Field.objectFields value = Some [x] /\
      Field.name x = "x") /\
  (maxDepth_or_3 maxDepth0 = 3%Z /\
   extractToModel Samples.three_levels (Some maxDepth0) =
   extractToModel Samples.three_levels None /\
   exists level1 level2 level3,
     model_fields (extractToModel Samples.three_levels (Some maxDepth0))
       = [level1] /\
     Field.objectFields level1 = Some [level2] /\
     Field.objectFields level2 = Some [level3] /\
     Field.name level3 = "level3").
Proof.
  split; [|split].
  - do 4 eexists. repeat split.
  - do 4 eexists. repeat split.
  - split; [reflexivity|]. split; [reflexivity|].
    do 3 eexists. repeat split.
Qed.

(** What the bound does gate.  With [maxDepth = limit >= 1] (or no
    [maxDepth], which is 3), [extractField] expands object properties
    and [oneOf]/[anyOf] branches only while the depth is strictly below
    the limit: at a depth [>= limit] the Field has no [objectFields] and
    no [unionVariants], and its [unionTypes], if any, are bare kinds (a
    [oneOf]/[anyOf] node stays a bare ["union"]); below the limit an
    object node gets the object fields of its properties, extracted one
    level deeper, and a [oneOf]/[anyOf] node gets what the union
    resolver returns.  The array branch has no test on the depth: at
    every depth an array node gets its item type from
    [extractArrayItemType], which expands an item with properties into
    a nested object Field.  Nothing is said here of tuple items and
    record values, which are not gated either. *)
Lemma depth_gate name schema isRequired options limit depth :
  (maxDepth options = Some limit /\ (1 <= limit)%Z) \/
  (maxDepth options = None /\ limit = 3%Z) ->
  let inner := actualSchema (unwrapNullable schema) in
  let f := extractField name schema isRequired options depth in
  ((limit <= depth)%Z ->
   Field.objectFields f = None /\
   Field.unionVariants f = None /\
   (forall ts, Field.unionTypes f = Some ts -> forallb isBare ts = true)) /\
  ((depth < limit)%Z ->
   Schema.enum inner = None -> Schema.const inner = None ->
   detectFieldType inner = "object" ->
   Field.objectFields f =
   option_map (fun _ => extractObjectFields inner options (depth + 1)%Z)
     (Schema.properties inner)) /\
  (Schema.enum inner = None -> Schema.const inner = None ->
   type_is_union inner = false ->
   JS.defined (Schema.oneOf inner) || JS.defined (Schema.anyOf inner) = true ->
   let data := extractUnionData inner extractObjectFields options depth in
   if (depth <? limit)%Z
   then
     Field.type f =
       (if isDiscriminated data then "discriminated-union" else "union") /\
     Field.unionVariants f = variants data /\
     Field.unionTypes f = u_unionTypes data
   else
     Field.type f = "union" /\
     Field.unionVariants f = None /\
     Field.unionTypes f = None) /\
  (forall items,
      Schema.enum inner = None -> Schema.const inner = None ->
      detectFieldType inner = "array" ->
      Schema.items inner = Some items ->
      Field.arrayItemType f =
      Some (extractArrayItemType_of_items items options depth)) /\
  (forall item props,
      Schema.oneOf item = None -> Schema.anyOf item = None ->
      Schema.properties item = Some props ->
      extractArrayItemType item options depth =
      NestedField
        (Field.set_objectFields (Field.literal "item" "object" true)
           (Some (extractObjectFields item options (depth + 1)%Z)))) /\
  (exists level1 level2,
      model_fields (extractToModel Samples.three_levels (Some maxDepth1))
        = [level1] /\
      Field.name level1 = "level1" /\
      Field.objectFields level1 = Some [level2] /\
      Field.name level2 = "level2" /\
      Field.objectFields level2 = None).
Proof.
  intros Hlimit. apply maxDepth_or_3_limit in Hlimit. cbv zeta.
  split; [|split; [|split; [|split; [|split]]]].
  - intros Hd. apply extractField_beyond_bound. lia.
  - intros Hd. apply extractField_object_below_bound. lia.
  - intros He Hc Hnu Hu. rewrite <- Hlimit.
    apply (extractField_union extractObjectFields name schema isRequired
             options depth He Hc Hnu Hu).
  - intros items. apply extractField_array_any_depth.
  - intros item props. apply extractArrayItemType_object.
  - do 2 eexists. repeat split.
Qed.

Lemma depth_gate_witness :
  let level2 :=
    extractField "level2"
      (Samples.object_schema [("level3", Samples.string_schema)])
      false maxDepth1 1%Z in
  Field.objectFields level2 = None /\
  Field.unionVariants level2 = None.
Proof.
  destruct (depth_gate "level2"
              (Samples.object_schema [("level3", Samples.string_schema)])
              false maxDepth1 1%Z 1%Z) as [Hbeyond _].
  - left. split; [reflexivity|lia].
  - destruct (Hbeyond ltac:(lia)) as (Ho & Hv & _). split; assumption.
Defined.

(** ** The theme registry *)

Section FormattersProperties.

Variable StandardTheme_format :
  SchemaModel -> option ThemeOptions -> Outcome string.
Variable ExpandedTheme_format :
  SchemaModel -> option ThemeOptions -> Outcome string.
Variable CondensedTheme_format :
  SchemaModel -> option ThemeOptions -> Outcome string.
Variable JSONTheme_format :
  SchemaModel -> option ThemeOptions -> Outcome string.

Local Abbreviation registry :=
  (defaultRegistry StandardTheme_format ExpandedTheme_format
     CondensedTheme_format JSONTheme_format).

Lemma defaultRegistry_list :
  ThemeRegistry.list registry = ["standard"; "expanded"; "condensed"; "json"].
Proof. reflexivity. Qed.

Lemma defaultRegistry_get themeName :
  ThemeRegistry.get registry themeName =
  if "standard" =? themeName then Some (StandardTheme StandardTheme_format)
  else if "expanded" =? themeName
  then Some (ExpandedTheme ExpandedTheme_format)
  else if "condensed" =? themeName
  then Some (CondensedTheme CondensedTheme_format)
  else if "json" =? themeName then Some (JSONTheme JSONTheme_format)
  else None.
Proof. reflexivity. Qed.


Lemma defaultRegistry_get_some themeName :
  In themeName (ThemeRegistry.list registry) ->
  exists theme,
    ThemeRegistry.get registry themeName = Some theme /\
    theme_name theme = themeName.
Proof.
  rewrite defaultRegistry_list, defaultRegistry_get.
  intros [<-|[<-|[<-|[<-|[]]]]]; eexists; split; reflexivity.
Qed.

End FormattersProperties.

(** ** Properties of every Field of an extracted tree *)

Lemma everyField_unfold p f :
  everyField p f =
  p f
  && whenSome (forallb (everyField p)) (Field.objectFields f)
  && whenSome (whenNested (everyField p)) (Field.arrayItemType f)
  && whenSome (forallb (whenNested (everyField p))) (Field.tupleItems f)
  && whenSome (whenNested (everyField p)) (Field.recordValueType f)
  && whenSome (forallb (fun v => forallb (everyField p) (fields v)))
       (Field.unionVariants f)
  && whenSome (forallb (whenNested (everyField p))) (Field.unionTypes f).
Proof. destruct f; reflexivity. Qed.

(** A check that holds of each Field the extractors build holds of every
    Field of the trees they return.  The options are the same in every
    recursive call, so the check may depend on them. *)
Section EveryField.

Variable p : SchemaField -> bool.
Variable o : ExtractOptions.

Hypothesis p_extractField :
  forall f name s r d, p (Open.extractField f name s r o d) = true.
Hypothesis p_extractUnionField :
  forall f name s r d, p (Open.extractUnionField f name s r o d) = true.
Hypothesis p_extractArrayField :
  forall f name s r d, p (Open.extractArrayField f name s r o d) = true.
Hypothesis p_enum :
  forall name values,
    p (Field.set_enumValues (Field.literal name "enum" true) (Some values))
    = true.
Hypothesis p_object :
  forall name fs,
    p (Field.set_objectFields (Field.literal name "object" true) (Some fs))
    = true.

Section WithCallback.

Variable f : JsonSchema -> ExtractOptions -> Z -> list SchemaField.

Lemma everyField_enum name values :
  everyField p
    (Field.set_enumValues (Field.literal name "enum" true) (Some values))
  = true.
Proof. rewrite everyField_unfold, p_enum. reflexivity. Qed.

Lemma everyField_object name fs :
  forallb (everyField p) fs = true ->
  everyField p
    (Field.set_objectFields (Field.literal name "object" true) (Some fs))
  = true.
Proof. intros Hfs. rewrite everyField_unfold, p_object. cbn. now rewrite Hfs. Qed.

Lemma extractUnionData_every s d :
  (forall v d', In v (union_branches s) ->
                forallb (everyField p) (f v o d') = true) ->
  whenSome (forallb (fun v => forallb (everyField p) (fields v)))
    (variants (extractUnionData s f o d)) = true /\
  whenSome (forallb (whenNested (everyField p)))
    (u_unionTypes (extractUnionData s f o d)) = true.
Proof.
  intros Hf. unfold extractUnionData.
  destruct (findDiscriminator (union_branches s)) as [n|]; simpl.
  - split; [|reflexivity].
    induction (union_branches s) as [|v vs IH]; [reflexivity|].
    simpl. rewrite forallb_app, IH by (intros; apply Hf; now right).
    rewrite Bool.andb_true_r.
    destruct (property_const v n); [|reflexivity].
    simpl. rewrite Bool.andb_true_r. apply Hf. now left.
  - split; [reflexivity|].
    rewrite forallb_forall. intros t Ht. apply in_map_iff in Ht.
    destruct Ht as (v & <- & Hv).
    destruct (Schema.enum v); [apply everyField_enum|].
    destruct (JS.defined (Schema.properties v)).
    + apply everyField_object. now apply Hf.
    + destruct (scalar_type v); reflexivity.
Qed.

Lemma extractUnionField_every name s r d :
  (forall s' d', height s' <= height s ->
                 forallb (everyField p) (f s' o d') = true) ->
  everyField p (Open.extractUnionField f name s r o d) = true.
Proof.
  intros Hf.
  destruct (extractUnionData_every s d) as [Hv Ht].
  { intros v d' Hin. apply Hf. apply height_union_branches in Hin. lia. }
  rewrite everyField_unfold, p_extractUnionField.
  unfold Open.extractUnionField.
  destruct (isDiscriminated _); cbn; rewrite ?Hv, ?Ht; reflexivity.
Qed.

Lemma extractArrayItemType_every item d :
  (forall s' d', height s' <= height item ->
                 forallb (everyField p) (f s' o d') = true) ->
  whenNested (everyField p) (Open.extractArrayItemType f item o d) = true.
Proof.
  intros Hf. unfold Open.extractArrayItemType.
  pose proof (extractUnionField_every "item" item true (d + 1)%Z Hf) as Hu.
  pose proof (Hf item (d + 1)%Z (Nat.le_refl _)) as Hitem.
  destruct (JS.defined (Schema.oneOf item) || JS.defined (Schema.anyOf item)).
  - destruct (if Field.type _ =? "union" then _ else _) as [[t|e]|];
      try exact Hu.
    destruct (Field.enumValues e); [apply everyField_enum|exact Hu].
  - destruct (if negb _ then _ else _).
    + destruct (Schema.enum item); [apply everyField_enum|reflexivity].
    + destruct (_ || _); [now apply everyField_object|reflexivity].
Qed.

Lemma extractArrayItemType_of_items_every s items d :
  Schema.items s = Some items ->
  (forall s' d', height s' <= height s ->
                 forallb (everyField p) (f s' o d') = true) ->
  whenNested (everyField p)
    (Open.extractArrayItemType_of_items f items o d) = true.
Proof.
  intros Hi Hf. destruct items as [item|l]; [|reflexivity]. simpl.
  apply extractArrayItemType_every. intros. apply Hf.
  pose proof (height_items_one s item Hi). lia.
Qed.

Lemma extractField_every name s r d :
  (forall s' d', height s' <= height s ->
                 forallb (everyField p) (f s' o d') = true) ->
  everyField p (Open.extractField f name s r o d) = true.
Proof.
  intros Hfs.
  pose proof (unwrapNullable_height s) as Hle.
  pose proof (extractField_payload f name s r o d) as Hp. cbv zeta in Hp.
  set (a := actualSchema (unwrapNullable s)) in *.
  assert (Hf : forall s' d',
             height s' <= height a ->
             forallb (everyField p) (f s' o d') = true)
    by (intros; apply Hfs; lia).
  clear Hfs Hle.
  destruct (extractUnionData_every a d) as [Hv Ht].
  { intros v d' Hin. apply Hf. apply height_union_branches in Hin. lia. }
  destruct Hp as (Hobj & Harr & Htup & Hrec & Hvar & Hty).
  rewrite everyField_unfold, p_extractField. cbn [andb].
  repeat (apply andb_true_intro; split).
  - destruct Hobj as [-> | ->]; [reflexivity|]. apply Hf. lia.
  - destruct Harr as [-> | (items & Hi & ->)]; [reflexivity|].
    now apply (extractArrayItemType_of_items_every a).
  - destruct Htup as [-> | (l & Hl & ->)]; [reflexivity|].
    simpl. rewrite forallb_forall. intros t Hin.
    apply in_map_iff in Hin. destruct Hin as (item & <- & Hin).
    apply extractArrayItemType_every. intros. apply Hf.
    pose proof (height_items_many a l item Hl Hin). lia.
  - destruct Hrec as [-> | [(t & ->) | (v & Hadd & ->)]]; try reflexivity.
    simpl. apply everyField_object. apply Hf.
    pose proof (height_additionalProperties a v Hadd). lia.
  - destruct Hvar as [-> | ->]; [reflexivity|exact Hv].
  - destruct Hty as [-> | [(ts & ->) | ->]]; [reflexivity| |exact Ht].
    simpl. induction ts; simpl; auto.
Qed.

End WithCallback.

Lemma extractObjectFields_every_upto n :
  forall s d,
    height s <= n ->
    forallb (everyField p) (extractObjectFields s o d) = true.
Proof.
  induction n as [|n IH]; intros s d Hn.
  - pose proof (height_pos s). lia.
  - rewrite extractObjectFields_sort.
    eapply forallb_Permutation; [apply sort_perm|].
    unfold fieldsInDocumentOrder.
    destruct (Schema.properties s) as [props|] eqn:Hp; [|reflexivity].
    rewrite forallb_forall. intros x Hx. apply in_map_iff in Hx.
    destruct Hx as ([name q] & <- & Hin).
    pose proof (height_properties s props name q Hp Hin).
    apply extractField_every. intros s' d' Hs'. apply IH. lia.
Qed.

Lemma extractObjectFields_every s d :
  forallb (everyField p) (extractObjectFields s o d) = true.
Proof. now apply (extractObjectFields_every_upto (height s)). Qed.

Lemma extractField_everyField name s r d :
  everyField p (extractField name s r o d) = true.
Proof.
  apply extractField_every. intros. apply extractObjectFields_every.
Qed.

Lemma extractToModel_every schema options :
  merge_options options = o ->
  forallb (everyField p) (model_fields (extractToModel schema options)) = true.
Proof.
  intros Ho. unfold extractToModel. rewrite Ho. cbn [model_fields].
  assert (Hall : forall s' d',
             forallb (everyField p) (extractObjectFields s' o d') = true)
    by (intros; apply extractObjectFields_every).
  destruct (Schema.type_is schema "object" && _); [apply Hall|].
  destruct (Schema.type_is schema "array" && _).
  - simpl. rewrite Bool.andb_true_r.
    rewrite everyField_unfold.
    unfold extractArrayField. rewrite p_extractArrayField.
    unfold Open.extractArrayField.
    destruct (Schema.items schema) as [items|] eqn:Hi; [|reflexivity].
    cbn. rewrite !Bool.andb_true_r.
    apply (extractArrayItemType_of_items_every _ schema); auto.
  - destruct (_ || _); simpl; rewrite Bool.andb_true_r.
    + apply extractUnionField_every. auto.
    + apply extractField_every. auto.
Qed.

End EveryField.

(** ** Kinds and payloads *)

(** Reduce the projections of a Field built by assignments. *)
Ltac field_simpl :=
  cbn [Field.name Field.type Field.isRequired Field.isNullable
       Field.enumValues Field.arrayItemType Field.tupleItems
       Field.recordKeyType Field.recordValueType Field.objectFields
       Field.unionVariants Field.unionTypes Field.discriminatorField
       Field.description Field.constraints Field.examples Field.defaultValue
       Field.set_type Field.set_enumValues Field.set_arrayItemType
       Field.set_tupleItems Field.set_recordKeyType Field.set_recordValueType
       Field.set_objectFields Field.set_unionVariants Field.set_unionTypes
       Field.set_discriminatorField Field.set_description
       Field.set_constraints Field.set_examples Field.set_defaultValue
       Field.literal] in *.

Lemma detectFieldType_kind s : isFieldKind (detectFieldType s) = true.
Proof.
  unfold detectFieldType.
  repeat match goal with
         | |- context [if ?c then _ else _] => destruct c
         end; reflexivity.
Qed.

Lemma extractField_wellTyped f name s r o d :
  wellTyped (Open.extractField f name s r o d) = true.
Proof.
  extractField_start s a n base.
  assert (Hbase :
            Field.type base = detectFieldType a /\
            Field.enumValues base = None /\
            Field.arrayItemType base = None /\
            Field.tupleItems base = None /\
            Field.recordKeyType base = None /\
            Field.recordValueType base = None /\
            Field.objectFields base = None /\
            Field.unionVariants base = None /\
            Field.unionTypes base = None)
    by (subst base; destruct (0 <? _)%nat; repeat split; reflexivity).
  clearbody base.
  destruct Hbase as (Hty & Hb1 & Hb2 & Hb3 & Hb4 & Hb5 & Hb6 & Hb7 & Hb8).
  pose proof (detectFieldType_kind a) as Hkind. rewrite <- Hty in Hkind.
  clear Hty.
  unfold wellTyped, payloadMatchesType.
  destruct (String.eqb_spec (Field.type base) "record") as [Hrec|_];
    [rewrite Hrec in *|];
    (destruct (String.eqb_spec (Field.type base) "object") as [Hobj|_];
     [rewrite Hobj in *|]);
    (destruct (String.eqb_spec (Field.type base) "tuple") as [Htup|_];
     [rewrite Htup in *|]);
    (destruct (String.eqb_spec (Field.type base) "array") as [Harr|_];
     [rewrite Harr in *|]);
    try discriminate;
    cbn [andb String.eqb Ascii.eqb Bool.eqb];
    extractField_cases a o; field_simpl;
    try match goal with
        | H : Field.type base = _ |- _ => rewrite ?H
        end;
    rewrite ?Hb1, ?Hb2, ?Hb3, ?Hb4, ?Hb5, ?Hb6, ?Hb7, ?Hb8, ?Hkind;
    cbn [JS.defined implb orb andb String.eqb Ascii.eqb Bool.eqb];
    rewrite ?Bool.implb_true_r; reflexivity.
Qed.

Lemma extractUnionField_wellTyped f name s r o d :
  wellTyped (Open.extractUnionField f name s r o d) = true.
Proof.
  unfold Open.extractUnionField, wellTyped, payloadMatchesType.
  destruct (isDiscriminated _); field_simpl;
    cbn [JS.defined implb orb andb String.eqb Ascii.eqb Bool.eqb];
    rewrite ?Bool.implb_true_r; reflexivity.
Qed.

Lemma extractArrayField_wellTyped f name s r o d :
  wellTyped (Open.extractArrayField f name s r o d) = true.
Proof.
  unfold Open.extractArrayField. destruct (Schema.items s); reflexivity.
Qed.

(** X1. Every Field of the model [extractToModel] returns, at any
    nesting, has one of the thirteen field kinds as its [type], and
    carries a payload property ([enumValues], [arrayItemType],
    [tupleItems], the record types, [objectFields], [unionVariants],
    [unionTypes]) only if its [type] is the matching kind; so no Field
    carries the payloads of two kinds. *)
Theorem extractToModel_wellTyped schema options :
  forallb (everyField wellTyped)
    (model_fields (extractToModel schema options)) = true.
Proof.
  apply (extractToModel_every wellTyped (merge_options options)); auto.
  - intros. apply extractField_wellTyped.
  - intros. apply extractUnionField_wellTyped.
  - intros. apply extractArrayField_wellTyped.
Qed.

(** ** What extraction reads of its options *)

Section SameReading.

Variables o o' : ExtractOptions.
Hypothesis same : sameReading o o'.

Section WithCallbacks.

Variables f g : JsonSchema -> ExtractOptions -> Z -> list SchemaField.

Lemma extractUnionData_options s d :
  (forall v d', In v (union_branches s) -> f v o d' = g v o' d') ->
  extractUnionData s f o d = extractUnionData s g o' d.
Proof.
  intros Hfg. unfold extractUnionData.
  destruct (findDiscriminator (union_branches s)) as [n|].
  - f_equal. f_equal.
    induction (union_branches s) as [|v vs IH]; [reflexivity|].
    simpl. rewrite IH by (intros; apply Hfg; now right).
    destruct (property_const v n); [|reflexivity].
    rewrite Hfg by now left. reflexivity.
  - f_equal. f_equal. apply map_ext_in. intros v Hv.
    destruct (Schema.enum v); [reflexivity|].
    destruct (JS.defined (Schema.properties v)); [|reflexivity].
    now rewrite Hfg.
Qed.

Lemma extractUnionData_options_height s d :
  (forall s' d', height s' <= height s -> f s' o d' = g s' o' d') ->
  extractUnionData s f o d = extractUnionData s g o' d.
Proof.
  intros Hfg. apply extractUnionData_options. intros v d' Hv.
  apply Hfg. apply height_union_branches in Hv. lia.
Qed.

Lemma extractArrayItemType_options item d :
  (forall s' d', height s' <= height item -> f s' o d' = g s' o' d') ->
  Open.extractArrayItemType f item o d = Open.extractArrayItemType g item o' d.
Proof.
  intros Hfg. unfold Open.extractArrayItemType, Open.extractUnionField.
  rewrite (extractUnionData_options_height item (d + 1)%Z Hfg).
  rewrite (Hfg item (d + 1)%Z (Nat.le_refl _)).
  reflexivity.
Qed.

Lemma extractField_options name s r d :
  (forall s' d', height s' <= height s -> f s' o d' = g s' o' d') ->
  Open.extractField f name s r o d = Open.extractField g name s r o' d.
Proof.
  intros Hfg. destruct same as [Hmax Hdef].
  unfold Open.extractField.
  pose proof (unwrapNullable_height s) as Hle.
  destruct (unwrapNullable s) as [a n]. cbn [actualSchema] in Hle.
  assert (Ha : forall s' d', height s' <= height a -> f s' o d' = g s' o' d')
    by (intros; apply Hfg; lia).
  rewrite (extractUnionData_options_height a d Ha).
  rewrite (Ha a (d + 1)%Z (Nat.le_refl _)).
  rewrite <- Hmax.
  cbv zeta.
  match goal with
  | |- context [if (0 <? ?k)%nat then ?x else ?y] =>
      set (base := if (0 <? k)%nat then x else y)
  end.
  clearbody base.
  assert (Hitems : forall items,
             Schema.items a = Some items ->
             Open.extractArrayItemType_of_items f items o d =
             Open.extractArrayItemType_of_items g items o' d).
  { intros [item|l] Hi; [|reflexivity]. simpl.
    apply extractArrayItemType_options. intros. apply Ha.
    pose proof (height_items_one a item Hi). lia. }
  assert (Htuple : forall l,
             Schema.items a = Some (Many l) ->
             map (fun item => Open.extractArrayItemType f item o d) l =
             map (fun item => Open.extractArrayItemType g item o' d) l).
  { intros l Hl. apply map_ext_in. intros item Hin.
    apply extractArrayItemType_options. intros. apply Ha.
    pose proof (height_items_many a l item Hl Hin). lia. }
  unfold includesDefaults in Hdef.
  destruct (Schema.additionalProperties a) as [[b|v]|] eqn:Hadd;
    try (rewrite (Ha v (d + 1)%Z)
           by (pose proof (height_additionalProperties a v Hadd); lia));
    destruct (Schema.items a) as [[item|l]|];
    rewrite ?(Hitems _ eq_refl), ?(Htuple _ eq_refl);
    destruct (includeDefaults o) as [[|]|], (includeDefaults o') as [[|]|];
    try discriminate; reflexivity.
Qed.

End WithCallbacks.

Lemma extractObjectFields_rounds_options n :
  forall s d,
    extractObjectFields_rounds n s o d = extractObjectFields_rounds n s o' d.
Proof.
  induction n as [|n IH]; intros s d; [reflexivity|].
  simpl. unfold extractObjectFields_body. f_equal.
  destruct (Schema.properties s) as [props|]; [|reflexivity].
  apply map_ext. intros [name q]. apply extractField_options.
  intros. apply IH.
Qed.

Lemma extractObjectFields_options s d :
  extractObjectFields s o d = extractObjectFields s o' d.
Proof. apply extractObjectFields_rounds_options. Qed.

End SameReading.

(** X2. Extraction reads its options only as [maxDepth || 3] and as
    whether [includeDefaults] is true: two option records that agree on
    these give the same model for every document.  In particular
    [maxDepth: 0] gives the model of the default [maxDepth: 3]. *)
Theorem extractToModel_same_reading schema options options' :
  sameReading (merge_options options) (merge_options options') ->
  extractToModel schema options = extractToModel schema options'.
Proof.
  intros Hsame. unfold extractToModel.
  set (o := merge_options options) in *.
  set (o' := merge_options options') in *.
  assert (Hobj : forall s d,
             extractObjectFields s o d = extractObjectFields s o' d)
    by (intros; now apply extractObjectFields_options).
  assert (Hfield : forall name s r d,
             extractField name s r o d = extractField name s r o' d).
  { intros. apply extractField_options; auto. }
  assert (Hunion : forall name s r d,
             extractUnionField name s r o d = extractUnionField name s r o' d).
  { intros. unfold extractUnionField, Open.extractUnionField.
    rewrite (extractUnionData_options o o' extractObjectFields
               extractObjectFields s d); auto. }
  assert (Harray : forall name s r d,
             extractArrayField name s r o d = extractArrayField name s r o' d).
  { intros. unfold extractArrayField, Open.extractArrayField.
    destruct (Schema.items s) as [[item|l]|]; try reflexivity.
    simpl.
    rewrite (extractArrayItemType_options o o' extractObjectFields
               extractObjectFields item d); auto. }
  now rewrite Hobj, Hfield, Hunion, Harray.
Qed.

Lemma extractToModel_same_reading_witness :
  extractToModel Samples.three_levels (Some maxDepth0) =
  extractToModel Samples.three_levels None.
Proof.
  apply extractToModel_same_reading. split; reflexivity.
Defined.

(** ** Array items *)

Lemma extractUnionData_plain eof s o d :
  findDiscriminator (union_branches s) = None ->
  extractUnionData s eof o d =
  mkUnionData false None None (map getVariantType (union_branches s))
    (Some (map (alternativeOf eof o d) (union_branches s))).
Proof.
  intros Hf. unfold extractUnionData. rewrite Hf. reflexivity.
Qed.

Lemma find_enum_variant eof o d before v after values :
  Forall (fun b => Schema.enum b = None) before ->
  Schema.enum v = Some values ->
  find Open.is_enum_variant
    (map (alternativeOf eof o d) (before ++ v :: after)) =
  Some (alternativeOf eof o d v).
Proof.
  intros Hbefore Hv. induction Hbefore as [|b before Hb _ IH]; simpl.
  - unfold alternativeOf at 1. rewrite Hv. simpl.
    unfold alternativeOf. now rewrite Hv.
  - unfold alternativeOf at 1. rewrite Hb.
    destruct (JS.defined (Schema.properties b)); [exact IH|].
    destruct (scalar_type b); exact IH.
Qed.

Lemma find_no_enum_variant eof o d branches :
  Forall (fun b => Schema.enum b = None) branches ->
  find Open.is_enum_variant (map (alternativeOf eof o d) branches) = None.
Proof.
  induction 1 as [|b branches Hb _ IH]; [reflexivity|]. simpl.
  unfold alternativeOf at 1. rewrite Hb.
  destruct (JS.defined (Schema.properties b)); [exact IH|].
  destruct (scalar_type b); exact IH.
Qed.

(** X3. When the item schema of an array is a plain union (it has
    [oneOf] or [anyOf] and no discriminator qualifies), the first branch
    that declares an [enum] is hoisted: [extractArrayItemType] returns
    an enum Field named ["item"] with that branch's stringified values,
    and the other branches are dropped.  When no branch declares an
    [enum], it returns the union Field itself. *)
Theorem extractArrayItemType_hoists_enum item options depth :
  JS.defined (Schema.oneOf item) || JS.defined (Schema.anyOf item) = true ->
  findDiscriminator (union_branches item) = None ->
  (forall before v after values,
      union_branches item = (before ++ v :: after)%list ->
      Forall (fun b => Schema.enum b = None) before ->
      Schema.enum v = Some values ->
      extractArrayItemType item options depth =
      NestedField
        (Field.set_enumValues (Field.literal "item" "enum" true)
           (Some (map JS.String_ values)))) /\
  (Forall (fun b => Schema.enum b = None) (union_branches item) ->
   extractArrayItemType item options depth =
   NestedField (extractUnionField "item" item true options (depth + 1)%Z)).
Proof.
  intros Hdef Hplain.
  unfold extractArrayItemType, Open.extractArrayItemType,
    extractUnionField, Open.extractUnionField.
  rewrite Hdef, (extractUnionData_plain _ _ _ _ Hplain).
  cbn [isDiscriminated u_unionTypes types]. field_simpl.
  cbn [String.eqb Ascii.eqb Bool.eqb].
  split.
  - intros before v after values Hb Hbefore Hv.
    rewrite Hb, (find_enum_variant _ _ _ before v after values Hbefore Hv).
    unfold alternativeOf. rewrite Hv. reflexivity.
  - intros Hnone. now rewrite (find_no_enum_variant _ _ _ _ Hnone).
Qed.

Lemma extractArrayItemType_hoists_enum_witness :
  extractArrayItemType MoreSamples.string_or_enum OPTIONS 0%Z =
  NestedField
    (Field.set_enumValues (Field.literal "item" "enum" true)
       (Some ["a"; "b"])).
Proof.
  refine (proj1 (extractArrayItemType_hoists_enum MoreSamples.string_or_enum
                   OPTIONS 0%Z _ _)
            [Samples.string_schema] MoreSamples.a_or_b []
            [JStr "a"; JStr "b"] _ _ _); try reflexivity.
  repeat constructor.
Defined.

(** X4. What [extractArrayItemType] returns for an array item is either
    a bare kind -- the item's own [type] string, or ["any"] -- or a
    Field named ["item"], required, of kind enum, object, union or
    discriminated-union, that carries no nullability, constraints,
    examples or default value: those properties of an item schema are
    not extracted. *)
Theorem extractArrayItemType_item item options depth :
  match extractArrayItemType item options depth with
  | BareType t => t = "any" \/ scalar_type item = Some t
  | NestedField f =>
      Field.name f = "item" /\
      Field.isRequired f = true /\
      In (Field.type f) ["enum"; "object"; "union"; "discriminated-union"] /\
      Field.isNullable f = None /\
      Field.constraints f = None /\
      Field.examples f = None /\
      Field.defaultValue f = None
  end.
Proof.
  unfold extractArrayItemType, Open.extractArrayItemType,
    Open.extractUnionField.
  destruct (JS.defined (Schema.oneOf item) || JS.defined (Schema.anyOf item)).
  - destruct (isDiscriminated _); field_simpl;
      cbn [String.eqb Ascii.eqb Bool.eqb].
    + simpl. tauto.
    + destruct (u_unionTypes _) as [ts|]; [|simpl; tauto].
      destruct (find Open.is_enum_variant ts) as [[t|e]|]; try (simpl; tauto).
      destruct (Field.enumValues e); simpl; tauto.
  - destruct (Schema.properties item); cbn [JS.defined negb].
    + rewrite Bool.orb_true_r. simpl. tauto.
    + destruct (scalar_type item) as [t|] eqn:Hs.
      * destruct (Schema.enum item); simpl; tauto.
      * rewrite Bool.orb_false_r.
        destruct (Schema.type_is item "object"); simpl; tauto.
Qed.

(** ** The tag field of a discriminated variant *)

Lemma get_In {A : Type} key (entries : list (string * A)) v :
  JS.get key entries = Some v -> In (key, v) entries.
Proof.
  induction entries as [|[k w] rest IH]; simpl; [discriminate|].
  destruct (String.eqb_spec k key) as [->|_].
  - intros [= ->]. now left.
  - intros H. right. auto.
Qed.

Lemma unwrapNullable_keeps_literals s :
  nullableAnyOf s = false ->
  Schema.enum (actualSchema (unwrapNullable s)) = Schema.enum s /\
  Schema.const (actualSchema (unwrapNullable s)) = Schema.const s.
Proof.
  intros Hany.
  destruct (nullableTypeArray s) eqn:Hty.
  - unfold unwrapNullable. unfold nullableAnyOf in Hany.
    unfold nullableTypeArray in Hty.
    assert (Hskip :
              match Schema.anyOf s with
              | Some anyOf =>
                  match filter (fun s0 => negb (Schema.type_is s0 "null")) anyOf with
                  | [actualSchema] =>
                      if existsb (fun s0 => Schema.type_is s0 "null") anyOf
                      then
                        Some
                          (mkUnwrapped
                             match Schema.anyOf actualSchema with
                             | Some inner =>
                                 match
                                   find (fun s0 => negb (JS.defined (Schema.not s0)))
                                     inner
                                 with
                                 | Some innerActual => innerActual
                                 | None => actualSchema
                                 end
                             | None => actualSchema
                             end true)
                      else None
                  | _ => None
                  end
              | None => None
              end = None).
    { destruct (Schema.anyOf s) as [l|]; [|reflexivity].
      destruct (filter _ l) as [|x [|y rest]]; try reflexivity.
      rewrite Bool.andb_true_r in Hany. now rewrite Hany. }
    rewrite Hskip.
    destruct (Schema.type s) as [[t|ts]|]; try discriminate.
    rewrite Hty. split; reflexivity.
  - rewrite (unwrapNullable_unchanged s Hany Hty). split; reflexivity.
Qed.

Lemma extractField_literal f name s r o d literal :
  Schema.enum (actualSchema (unwrapNullable s)) = None ->
  Schema.const (actualSchema (unwrapNullable s)) = Some literal ->
  let field := Open.extractField f name s r o d in
  Field.type field = "enum" /\
  Field.enumValues field = Some [JS.String_ literal] /\
  Field.discriminatorField field = Some name.
Proof.
  cbv zeta. unfold Open.extractField.
  destruct (unwrapNullable s) as [a n]. cbn [actualSchema].
  intros -> ->.
  destruct (includeDefaults o) as [[|]|], (Schema.default a);
    repeat split; reflexivity.
Qed.

Lemma StronglySorted_before {A : Type} (R : A -> A -> Prop) before x after :
  StronglySorted R (before ++ x :: after) -> Forall (fun y => R y x) before.
Proof.
  induction before as [|y before IH]; simpl; intros Hs; [constructor|].
  inversion Hs as [|? ? Hrest Hall]; subst.
  constructor; [|now apply IH].
  rewrite Forall_forall in Hall. apply Hall.
  apply in_or_app. right. now left.
Qed.

(** X5. In a discriminated union on the tag [name], the fields of a
    variant contain the tag property itself: when the tag property of a
    branch declares no [enum] and is not an [anyOf]-nullable wrapper,
    the variant's field list has a Field named [name], of kind enum,
    whose single value is the variant's discriminator value and whose
    [discriminatorField] is [name]; and every field listed before it
    has a discriminator too. *)
Theorem variant_fields_contain_tag schema options depth name v props p literal :
  findDiscriminator (union_branches schema) = Some name ->
  In v (union_branches schema) ->
  Schema.properties v = Some props ->
  JS.get name props = Some p ->
  Schema.const p = Some literal ->
  Schema.enum p = None ->
  nullableAnyOf p = false ->
  exists before tag after,
    extractObjectFields v options (depth + 1)%Z
      = (before ++ tag :: after)%list /\
    Forall (fun x => hasDiscriminator x = true) before /\
    Field.name tag = name /\
    Field.type tag = "enum" /\
    Field.enumValues tag = Some [JS.String_ literal] /\
    Field.discriminatorField tag = Some name /\
    In (mkUnionVariant (JS.String_ literal)
          (extractObjectFields v options (depth + 1)%Z))
       (match variants (extractUnionData schema extractObjectFields
                          options depth) with
        | Some vs => vs
        | None => []
        end).
Proof.
  intros Hfind Hv Hprops Hget Hconst Henum Hnull.
  set (tag := extractField name p (JS.Set_has (requiredNames v) name) options
                (depth + 1)%Z).
  destruct (unwrapNullable_keeps_literals p Hnull) as [He Hc].
  rewrite Henum in He. rewrite Hconst in Hc.
  destruct (extractField_literal extractObjectFields name p
              (JS.Set_has (requiredNames v) name) options (depth + 1)%Z
              literal He Hc) as (Hty & Hvals & Hdisc).
  fold extractField in Hty, Hvals, Hdisc. fold tag in Hty, Hvals, Hdisc.
  assert (Hname : name <> "").
  { pose proof (find_some _ _ Hfind) as [Hin _].
    simpl in Hin. intuition (subst; discriminate). }
  assert (Htagged : hasDiscriminator tag = true).
  { unfold hasDiscriminator. rewrite Hdisc. simpl.
    destruct (String.eqb_spec name ""); [contradiction|reflexivity]. }
  assert (Hin : In tag (extractObjectFields v options (depth + 1)%Z)).
  { rewrite extractObjectFields_sort.
    eapply Permutation_in; [apply sort_perm|].
    unfold fieldsInDocumentOrder. rewrite Hprops.
    apply in_map_iff. exists (name, p). split; [reflexivity|].
    now apply get_In. }
  destruct (in_split _ _ Hin) as (before & after & Hsplit).
  exists before, tag, after.
  split; [exact Hsplit|]. split.
  - pose proof (sort_sorted compareFields fieldRank compareFields_rank
                  (fieldsInDocumentOrder v options (depth + 1)%Z)) as Hs.
    rewrite <- extractObjectFields_sort, Hsplit in Hs.
    apply StronglySorted_before in Hs.
    eapply Forall_impl; [|exact Hs]. simpl. intros x Hx.
    unfold fieldRank in Hx. rewrite Htagged in Hx.
    destruct (hasDiscriminator x); [reflexivity|].
    destruct (Field.isRequired x), (Field.isRequired tag); simpl in Hx; lia.
  - split; [apply (extractField_name_isRequired extractObjectFields)|].
    repeat split; auto.
    unfold extractUnionData. rewrite Hfind. cbn [variants].
    apply in_flat_map. exists v. split; [exact Hv|].
    unfold property_const. rewrite Hprops, Hget, Hconst. now left.
Qed.

Lemma variant_fields_contain_tag_witness :
  exists before tag after,
    extractObjectFields
      (Samples.object_schema
         [("type", Samples.const_schema "text");
          ("content", Samples.string_schema)]) OPTIONS (0 + 1)%Z
      = (before ++ tag :: after)%list /\
    Forall (fun x => hasDiscriminator x = true) before /\
    Field.name tag = "type" /\
    Field.type tag = "enum" /\
    Field.enumValues tag = Some ["text"] /\
    Field.discriminatorField tag = Some "type" /\
    In (mkUnionVariant "text"
          (extractObjectFields
             (Samples.object_schema
                [("type", Samples.const_schema "text");
                 ("content", Samples.string_schema)]) OPTIONS (0 + 1)%Z))
       (match variants (extractUnionData Samples.text_or_image
                          extractObjectFields OPTIONS 0%Z) with
        | Some vs => vs
        | None => []
        end).
Proof.
  apply (variant_fields_contain_tag Samples.text_or_image OPTIONS 0%Z "type"
           (Samples.object_schema
              [("type", Samples.const_schema "text");
               ("content", Samples.string_schema)])
           [("type", Samples.const_schema "text");
            ("content", Samples.string_schema)]
           (Samples.const_schema "text") (JStr "text"));
    try reflexivity.
  left. reflexivity.
Defined.

(** ** The root of the model *)

(** X6. [extractToModel] always attaches the root's [title],
    [description] and [examples] as metadata.  Unless the root is an
    object with properties, the model has exactly one Field, named
    ["root"] and required: for an array root with [items] an array Field
    with the root's constraints and description; otherwise, for a root
    with [oneOf] or [anyOf], the union Field of [extractUnionField]
    (not unwrapped for nullability, and without constraints); and in
    every other case the Field [extractField] returns for the root. *)
Theorem extractToModel_root schema options :
  let model := extractToModel schema options in
  let opts := merge_options options in
  model_metadata model =
    Some (mkModelMetadata (Schema.title schema) (Schema.description schema)
            None (Schema.examples schema)) /\
  (Schema.type_is schema "object" && JS.defined (Schema.properties schema)
   = false ->
   exists root,
     model_fields model = [root] /\
     Field.name root = "root" /\
     Field.isRequired root = true /\
     (if Schema.type_is schema "array" && JS.defined (Schema.items schema)
      then
        Field.type root = "array" /\
        Field.constraints root = Some (extractConstraints schema) /\
        Field.description root = Schema.description schema /\
        Field.isNullable root = None
      else if JS.defined (Schema.oneOf schema)
              || JS.defined (Schema.anyOf schema)
      then
        root = extractUnionField "root" schema true opts 0%Z /\
        In (Field.type root) ["union"; "discriminated-union"] /\
        Field.constraints root = None /\
        Field.isNullable root = None
      else root = extractField "root" schema true opts 0%Z)).
Proof.
  cbv zeta. split; [reflexivity|].
  intros Hobj. unfold extractToModel. rewrite Hobj. cbn [model_fields].
  destruct (Schema.type_is schema "array" && JS.defined (Schema.items schema)).
  - eexists. split; [reflexivity|].
    unfold extractArrayField, Open.extractArrayField.
    destruct (Schema.items schema); repeat split; reflexivity.
  - destruct (JS.defined (Schema.oneOf schema)
              || JS.defined (Schema.anyOf schema)).
    + eexists. split; [reflexivity|].
      unfold extractUnionField, Open.extractUnionField.
      destruct (isDiscriminated _); simpl; repeat split; auto.
    + eexists. split; [reflexivity|].
      split; [apply (extractField_name_isRequired extractObjectFields)|].
      split; [apply (extractField_name_isRequired extractObjectFields)|].
      reflexivity.
Qed.

Lemma extractToModel_root_witness :
  exists root,
    model_fields (extractToModel Samples.nullable_string None) = [root] /\
    Field.name root = "root" /\
    Field.isRequired root = true /\
    root = extractUnionField "root" Samples.nullable_string true OPTIONS 0%Z /\
    In (Field.type root) ["union"; "discriminated-union"] /\
    Field.constraints root = None /\
    Field.isNullable root = None.
Proof.
  destruct (proj2 (extractToModel_root Samples.nullable_string None))
    as (root & Hfields & Hname & Hreq & Hrest); [reflexivity|].
  exists root. repeat split; try assumption; apply Hrest.
Defined.

(** ** Default values *)

Lemma extractField_defaultValue f name s r o d :
  Field.defaultValue (Open.extractField f name s r o d) =
  if includesDefaults o
  then Schema.default (actualSchema (unwrapNullable s))
  else None.
Proof.
  extractField_start s a n base.
  assert (Hbase : Field.defaultValue base = None)
    by (subst base; destruct (0 <? _)%nat; reflexivity).
  clearbody base. unfold includesDefaults.
  extractField_cases a o; field_simpl; rewrite ?Hbase; reflexivity.
Qed.

(** X7. A default value is attached only on request: the Field that
    [extractField] returns has the unwrapped schema's [default] as its
    [defaultValue] when [includeDefaults] is true and none otherwise;
    and when [includeDefaults] is not true -- as with the default
    options -- no Field of the model, at any nesting, has a
    [defaultValue]. *)
Theorem defaults_only_on_request schema options :
  (forall name isRequired o depth,
      Field.defaultValue (extractField name schema isRequired o depth) =
      if includesDefaults o
      then Schema.default (actualSchema (unwrapNullable schema))
      else None) /\
  (includesDefaults (merge_options options) = false ->
   forallb (everyField withoutDefault)
     (model_fields (extractToModel schema options)) = true).
Proof.
  split.
  - intros. apply extractField_defaultValue.
  - intros Hno.
    apply (extractToModel_every withoutDefault (merge_options options)); auto.
    + intros. unfold withoutDefault.
      now rewrite extractField_defaultValue, Hno.
    + intros. unfold Open.extractUnionField.
      destruct (isDiscriminated _); reflexivity.
    + intros. unfold Open.extractArrayField.
      destruct (Schema.items s); reflexivity.
Qed.

Lemma defaults_only_on_request_witness :
  forallb (everyField withoutDefault)
    (model_fields (extractToModel Samples.name_and_age None)) = true.
Proof.
  apply (proj2 (defaults_only_on_request Samples.name_and_age None)).
  reflexivity.
Defined.

(** ** Registering themes *)

Lemma Map_set_get key value m name :
  JS.get name (ThemeRegistry.Map_set key value m) =
  if key =? name then Some value else JS.get name m.
Proof.
  induction m as [|[k v] rest IH]; simpl.
  - reflexivity.
  - destruct (String.eqb_spec k key) as [->|Hk]; simpl.
    + destruct (key =? name); reflexivity.
    + rewrite IH. destruct (String.eqb_spec k name) as [->|_];
        [|reflexivity].
      destruct (String.eqb_spec key name) as [->|_];
        [contradiction|reflexivity].
Qed.

Lemma Map_set_keys key value m :
  map fst (ThemeRegistry.Map_set key value m) =
  if JS.defined (JS.get key m) then map fst m
  else (map fst m ++ [key])%list.
Proof.
  induction m as [|[k v] rest IH]; simpl; [reflexivity|].
  destruct (String.eqb_spec k key) as [->|Hk]; simpl; [reflexivity|].
  rewrite IH. destruct (JS.defined (JS.get key rest)); reflexivity.
Qed.

Lemma get_defined_In {A : Type} key (m : list (string * A)) :
  JS.defined (JS.get key m) = true <-> In key (map fst m).
Proof.
  induction m as [|[k v] rest IH]; simpl.
  - split; [discriminate|tauto].
  - destruct (String.eqb_spec k key) as [->|Hk]; simpl.
    + split; auto.
    + rewrite IH. split; [auto|]. intros [H|H]; [contradiction|exact H].
Qed.

(** X8. Registering and looking up themes: after [register(theme)],
    [get] and [has] find [theme] under its name -- also when a theme of
    that name was registered before, which is replaced -- every other
    name is looked up as before, and [format] under that name renders
    with [theme]: it returns what the [format] method of [theme]
    returns and throws what it throws. *)
Theorem register_then_get theme registry name model options :
  ThemeRegistry.get (ThemeRegistry.register theme registry) name =
    (if theme_name theme =? name then Some theme
     else ThemeRegistry.get registry name) /\
  ThemeRegistry.has (ThemeRegistry.register theme registry) name =
    ((theme_name theme =? name) || ThemeRegistry.has registry name) /\
  ThemeRegistry.format (ThemeRegistry.register theme registry) model
    (theme_name theme) options =
    theme_format theme model options.
Proof.
  unfold ThemeRegistry.get, ThemeRegistry.has, ThemeRegistry.format,
    ThemeRegistry.register, ThemeRegistry.get.
  rewrite !Map_set_get. rewrite String.eqb_refl.
  repeat split. destruct (theme_name theme =? name); reflexivity.
Qed.

(** X9. The names [list] returns stay free of duplicates: registering
    a theme whose name is already registered leaves the list as it is,
    and registering a new name appends it at the end. *)
Theorem register_list theme registry :
  ThemeRegistry.list (ThemeRegistry.register theme registry) =
    (if ThemeRegistry.has registry (theme_name theme)
     then ThemeRegistry.list registry
     else (ThemeRegistry.list registry ++ [theme_name theme])%list) /\
  (NoDup (ThemeRegistry.list registry) ->
   NoDup (ThemeRegistry.list (ThemeRegistry.register theme registry))).
Proof.
  unfold ThemeRegistry.list, ThemeRegistry.register, ThemeRegistry.has.
  rewrite Map_set_keys. split; [reflexivity|].
  intros Hnodup.
  destruct (JS.defined (JS.get (theme_name theme) registry)) eqn:Hhas;
    [exact Hnodup|].
  apply NoDup_app; [exact Hnodup|repeat constructor; simpl; tauto|].
  intros x Hx [<-|[]].
  apply get_defined_In in Hx. rewrite Hx in Hhas. discriminate.
Qed.

Lemma register_list_witness :
  NoDup
    (ThemeRegistry.list
       (ThemeRegistry.register (StandardTheme blank_format)
          (defaultRegistry blank_format blank_format blank_format
             blank_format))).
Proof.
  apply (proj2 (register_list (StandardTheme blank_format)
                  (defaultRegistry blank_format blank_format blank_format
                     blank_format))).
  repeat constructor; simpl; intuition discriminate.
Defined.

(** ** Adapters and the safe mode *)

Section PromptSchemaProperties.

Context {Unknown : Type}.
Variable StandardTheme_format :
  SchemaModel -> option ThemeOptions -> Outcome string.
Variable ExpandedTheme_format :
  SchemaModel -> option ThemeOptions -> Outcome string.
Variable CondensedTheme_format :
  SchemaModel -> option ThemeOptions -> Outcome string.
Variable JSONTheme_format :
  SchemaModel -> option ThemeOptions -> Outcome string.

Local Abbreviation toPrompt' :=
  (toPrompt StandardTheme_format ExpandedTheme_format CondensedTheme_format
     JSONTheme_format).
Local Abbreviation convertWith' :=
  (convertWith StandardTheme_format ExpandedTheme_format
     CondensedTheme_format JSONTheme_format).

Lemma find_skips {A : Type} (q : A -> bool) before x after :
  Forall (fun y => q y = false) before ->
  q x = true ->
  find q (before ++ x :: after) = Some x.
Proof.
  induction 1 as [|y before Hy _ IH]; simpl; intros Hx.
  - now rewrite Hx.
  - rewrite Hy. auto.
Qed.

Lemma find_none_all {A : Type} (q : A -> bool) l :
  Forall (fun y => q y = false) l -> find q l = None.
Proof.
  induction 1 as [|y l Hy _ IH]; simpl; [reflexivity|]. now rewrite Hy.
Qed.

(** X10. [toPrompt] converts with the most recently registered adapter
    whose [canHandle] returns true: adapters registered after it whose
    [canHandle] returns false or throws are skipped, and adapters
    registered before it are not consulted.  An error thrown by that
    adapter's [toJsonSchema] is the error of [toPrompt]. *)
Theorem toPrompt_latest_capable
    (later earlier : list (SchemaAdapter Unknown))
    (adapter : SchemaAdapter Unknown) schema options :
  Forall (fun a => canHandle a schema <> Returns true) later ->
  canHandle adapter schema = Returns true ->
  let this :=
    fold_right registerAdapter
      (registerAdapter adapter (fold_right registerAdapter [] earlier))
      later in
  toPrompt' this schema options = convertWith' adapter schema options /\
  (forall message,
      toJsonSchema adapter schema = Throws message ->
      toPrompt' this schema options = Throws message).
Proof.
  intros Hlater Hcan. cbv zeta.
  assert (Hthis : forall l : list (SchemaAdapter Unknown),
             fold_right registerAdapter [] l = l).
  { induction l as [|a l IH]; simpl; [reflexivity|].
    unfold registerAdapter at 1. now rewrite IH. }
  assert (Hfold :
            fold_right registerAdapter
              (registerAdapter adapter (fold_right registerAdapter [] earlier))
              later = (later ++ adapter :: earlier)%list).
  { rewrite Hthis. clear. induction later as [|a l IH]; simpl.
    - reflexivity.
    - unfold registerAdapter at 1. now rewrite IH. }
  rewrite Hfold.
  assert (Hfind : find (handles schema) (later ++ adapter :: earlier)
                  = Some adapter).
  { apply find_skips.
    - eapply Forall_impl; [|exact Hlater]. simpl. intros a Ha.
      unfold handles. destruct (canHandle a schema) as [[|]|]; congruence.
    - unfold handles. now rewrite Hcan. }
  assert (Heq : toPrompt' (later ++ adapter :: earlier)%list schema options
                = convertWith' adapter schema options).
  { unfold toPrompt, convertWith. rewrite Hfind. reflexivity. }
  split; [exact Heq|].
  intros message Hthrow. rewrite Heq. unfold convertWith. now rewrite Hthrow.
Qed.

(** X11. When no registered adapter's [canHandle] returns true --
    in particular when none is registered -- [toPrompt] throws, and the
    message lists the names [getAdapters] returns, latest registration
    first. *)
Theorem toPrompt_no_adapter (this : PromptSchema Unknown) schema options :
  Forall (fun a => canHandle a schema <> Returns true) this ->
  toPrompt' this schema options =
  Throws
    ("No adapter found for schema. Registered adapters: "
       ++ JS.join ", " (getAdapters this)).
Proof.
  intros Hnone. unfold toPrompt.
  rewrite find_none_all; [reflexivity|].
  eapply Forall_impl; [|exact Hnone]. simpl. intros a Ha.
  unfold handles. destruct (canHandle a schema) as [[|]|]; congruence.
Qed.

Variable has_zod : Unknown -> bool.
Variables zodV3Adapter zodV4Adapter : SchemaAdapter Unknown.

Local Abbreviation getPrompts' :=
  (getPrompts StandardTheme_format ExpandedTheme_format CondensedTheme_format
     JSONTheme_format has_zod zodV3Adapter zodV4Adapter).

(** X12. [getPrompts] consults one adapter only, the zod-v4 adapter for
    a schema with a [_zod] property and the zod-v3 adapter otherwise.
    In safe mode it never throws: it returns the prompt, or the fixed
    fallback text whenever that adapter cannot handle the schema, its
    conversion throws or the theme name is unknown.  Outside safe mode
    it behaves as [toPrompt] with that adapter. *)
Theorem getPrompts_safe schema options :
  let adapter := if has_zod schema then zodV4Adapter else zodV3Adapter in
  let attempt := toPrompt' [adapter] schema options in
  (isSafe options = false -> getPrompts' schema options = attempt) /\
  (isSafe options = true ->
   getPrompts' schema options =
   Returns match attempt with
           | Returns prompt => prompt
           | Throws _ => fallbackPrompt
           end).
Proof.
  cbv zeta. unfold getPrompts, registerAdapter, isSafe.
  destruct (has_zod schema);
    match goal with
    | |- context [toPrompt ?a ?b ?c ?d ?e ?f ?g] =>
        destruct (toPrompt a b c d e f g)
    end;
    destruct options as [[t m [[|]|]]|]; simpl;
    split; intros; try discriminate; reflexivity.
Qed.

End PromptSchemaProperties.

Lemma toPrompt_latest_capable_witness :
  toPrompt blank_format blank_format blank_format blank_format
    (registerAdapter MoreAdapters.refusing
       (registerAdapter MoreAdapters.accepting []))
    tt None =
  convertWith blank_format blank_format blank_format blank_format
    MoreAdapters.accepting tt None.
Proof.
  refine (proj1 (toPrompt_latest_capable blank_format blank_format
                   blank_format blank_format [MoreAdapters.refusing] []
                   MoreAdapters.accepting tt None _ _)).
  - repeat constructor. discriminate.
  - reflexivity.
Defined.

Lemma toPrompt_no_adapter_witness :
  toPrompt blank_format blank_format blank_format blank_format
    (registerAdapter MoreAdapters.refusing []) tt None =
  Throws "No adapter found for schema. Registered adapters: refusing".
Proof.
  apply (toPrompt_no_adapter blank_format blank_format blank_format
           blank_format [MoreAdapters.refusing] tt None).
  repeat constructor. discriminate.
Defined.

Lemma getPrompts_safe_witness :
  getPrompts blank_format blank_format blank_format blank_format
    (fun _ => false) MoreAdapters.refusing MoreAdapters.accepting tt
    (Some (mkPromptOptions None None (Some true))) =
  Returns fallbackPrompt.
Proof.
  apply (proj2 (getPrompts_safe blank_format blank_format blank_format
                  blank_format (fun _ => false) MoreAdapters.refusing
                  MoreAdapters.accepting tt
                  (Some (mkPromptOptions None None (Some true))))).
  reflexivity.
Defined.

(** ** Induction on the tree of a Field *)

Section FieldTree.

Variable P : SchemaField -> Prop.

Lemma belowP_all : (forall f, P f) -> forall f, belowP P f.
Proof.
  intros IH f.
  assert (Hn : forall t, nestedP P t) by (intros [k|g]; [exact I | apply IH]).
  assert (Hl : forall l, Forall P l)
    by (intros l; apply Forall_forall; intros; apply IH).
  assert (Hnl : forall l, Forall (nestedP P) l)
    by (intros l; apply Forall_forall; intros; apply Hn).
  assert (Hv : forall l : list UnionVariant,
             Forall (fun v => Forall P (fields v)) l)
    by (intros l; apply Forall_forall; intros; apply Hl).
  unfold belowP.
  destruct (Field.objectFields f), (Field.arrayItemType f),
    (Field.tupleItems f), (Field.recordValueType f),
    (Field.unionVariants f), (Field.unionTypes f); cbn; auto 10.
Qed.

Hypothesis step : forall f, belowP P f -> P f.

Lemma SchemaField_tree_ind : forall f, P f.
Proof.
  fix IH 1. intros f.
  assert (Hn : forall t, nestedP P t) by (intros [k|g]; [exact I | apply IH]).
  assert (Hl : forall l, Forall P l).
  { fix IHl 1. intros [|a r]; constructor; [apply IH | apply IHl]. }
  assert (Hnl : forall l, Forall (nestedP P) l).
  { fix IHl 1. intros [|a r]; constructor; [apply Hn | apply IHl]. }
  assert (Hv : forall l : list UnionVariant,
             Forall (fun v => Forall P (fields v)) l).
  { fix IHl 1. intros [|a r]; constructor; [apply Hl | apply IHl]. }
  apply step. unfold belowP. repeat split.
  - destruct (Field.objectFields f); [apply Hl | exact I].
  - destruct (Field.arrayItemType f); [apply Hn | exact I].
  - destruct (Field.tupleItems f); [apply Hnl | exact I].
  - destruct (Field.recordValueType f); [apply Hn | exact I].
  - destruct (Field.unionVariants f); [apply Hv | exact I].
  - destruct (Field.unionTypes f); [apply Hnl | exact I].
Qed.

End FieldTree.

(** The same with the property available two levels below. *)
Lemma SchemaField_deep_ind (P : SchemaField -> Prop) :
  (forall f, belowP (fun g => P g /\ belowP P g) f -> P f) ->
  forall f, P f.
Proof.
  intros step f.
  enough (H : P f /\ belowP P f) by apply H.
  induction f as [f Hf] using SchemaField_tree_ind.
  split; [now apply step|].
  destruct Hf as (Hobj & Harr & Htup & Hrec & Hvar & Huni).
  assert (Hn : forall t, nestedP (fun g => P g /\ belowP P g) t ->
                         nestedP P t)
    by (intros [k|g]; cbn; tauto).
  assert (Hl : forall l, Forall (fun g => P g /\ belowP P g) l ->
                         Forall P l)
    by (intros l; apply Forall_impl; tauto).
  unfold belowP.
  destruct (Field.objectFields f), (Field.arrayItemType f),
    (Field.tupleItems f), (Field.recordValueType f),
    (Field.unionVariants f), (Field.unionTypes f); cbn in *;
    repeat split;
    auto; try (eapply Forall_impl; [|eassumption]; cbv beta; auto).
Qed.


(** ** Loops that append *)

Lemma appendEach_returns {A : Type} (f : A -> Outcome string) l :
  Forall (fun x => exists text, f x = Returns text) l ->
  forall output, exists text, appendEach f l output = Returns text.
Proof.
  induction 1 as [|x r [text Hx] _ IH]; intros output; simpl.
  - now exists output.
  - rewrite Hx. simpl. apply IH.
Qed.

Lemma appendEach_throws {A : Type} (f : A -> Outcome string) x r output :
  (exists message, f x = Throws message) ->
  exists message, appendEach f (x :: r) output = Throws message.
Proof. intros [message Hx]. simpl. rewrite Hx. now exists message. Qed.

Lemma appendEach_ext {A B : Type} (f : A -> Outcome string)
    (g : B -> Outcome string) (h : A -> B) l :
  Forall (fun x => g (h x) = f x) l ->
  forall output, appendEach g (map h l) output = appendEach f l output.
Proof.
  induction 1 as [|x r Hx _ IH]; intros output; simpl; [reflexivity|].
  rewrite Hx. destruct (f x); simpl; [apply IH | reflexivity].
Qed.

(** ** The defining equations of the two themes *)

Lemma indent_returns depth options :
  (0 <= depth)%Z -> (0 <= BaseTheme.size options)%Z ->
  exists text, BaseTheme.indent depth options = Returns text.
Proof.
  intros Hd Hs. unfold BaseTheme.indent, JSString.repeat_space.
  destruct (Z.ltb_spec (depth * BaseTheme.size options) 0); [nia|].
  eauto.
Qed.

Lemma indent_throws depth options :
  (0 < depth)%Z -> (BaseTheme.size options < 0)%Z ->
  exists message, BaseTheme.indent depth options = Throws message.
Proof.
  intros Hd Hs. unfold BaseTheme.indent, JSString.repeat_space.
  destruct (Z.ltb_spec (depth * BaseTheme.size options) 0); [|nia].
  eauto.
Qed.

Lemma indent_zero options : BaseTheme.indent 0 options = Returns "".
Proof. reflexivity. Qed.

(** ** The defining equations of the two themes *)

Lemma Standard_formatField_unfold inherited field depth options :
  Standard_formatField inherited field depth options =
  StandardTheme.formatField inherited (Standard_formatField inherited)
    field depth options.
Proof. destruct field; reflexivity. Qed.

Lemma Condensed_formatField_unfold inherited field depth options :
  Condensed_formatField inherited field depth options =
  CondensedTheme.formatField inherited (Condensed_formatField inherited)
    field depth options.
Proof. destruct field; reflexivity. Qed.

(** ** The themes return *)

Section Returns.

Variable options : option ThemeOptions.
Hypothesis size_nonneg : (0 <= BaseTheme.size options)%Z.

Variable formatField : SchemaField -> Z -> option ThemeOptions -> Outcome string.

Abbreviation returns := (returnsAt (fun f depth => formatField f depth options)).

Lemma fields_return l depth output :
  Forall returns l -> (0 <= depth)%Z ->
  exists text,
    appendEach (fun f => formatField f depth options) l output = Returns text.
Proof.
  intros Hl Hd. apply appendEach_returns.
  eapply Forall_impl; [|exact Hl]. intros f Hf. now apply Hf.
Qed.

Lemma Standard_variants_return parentName l depth output :
  Forall (fun v => Forall returns (fields v)) l ->
  (0 <= depth)%Z ->
  exists text,
    appendEach
      (fun v =>
         StandardTheme.formatVariant formatField v parentName depth options)
      l output = Returns text.
Proof.
  intros Hl Hd. apply appendEach_returns.
  eapply Forall_impl; [|exact Hl]. intros v Hv. cbv beta.
  unfold StandardTheme.formatVariant.
  destruct (indent_returns depth options Hd size_nonneg) as [indent ->].
  cbn [bind]. apply fields_return; [exact Hv | lia].
Qed.

Lemma Condensed_variants_return parentName l depth output :
  Forall (fun v => Forall returns (fields v)) l ->
  (0 <= depth)%Z ->
  exists text,
    appendEach
      (fun v =>
         CondensedTheme.formatVariant formatField v parentName depth options)
      l output = Returns text.
Proof.
  intros Hl Hd. apply appendEach_returns.
  eapply Forall_impl; [|exact Hl]. intros v Hv. cbv beta.
  unfold CondensedTheme.formatVariant.
  destruct (indent_returns depth options Hd size_nonneg) as [indent ->].
  cbn [bind]. apply fields_return; [exact Hv | lia].
Qed.

End Returns.

Lemma Forall_deep (P B : SchemaField -> Prop) l :
  Forall (fun g => P g /\ B g) l -> Forall P l.
Proof. apply Forall_impl. tauto. Qed.

Lemma Forall_deep_variants (P B : SchemaField -> Prop)
    (l : list UnionVariant) :
  Forall (fun v => Forall (fun g => P g /\ B g) (fields v)) l ->
  Forall (fun v => Forall P (fields v)) l.
Proof. apply Forall_impl. intros v. apply Forall_deep. Qed.

(** Case analysis on the test a method makes first, with what the
    induction hypothesis says of the Fields that are found. *)
Ltac use_below :=
  repeat match goal with
    | H : belowP _ _ |- _ => destruct H as (? & ? & ? & ? & ? & ?)
    | H : _ /\ _ |- _ => destruct H
    | H : optionP _ None |- _ => clear H
    | H : optionP _ (Some _) |- _ => cbn [optionP nestedP] in H
    | H : nestedP _ (BareType _) |- _ => clear H
    | H : nestedP _ (NestedField _) |- _ => cbn [nestedP] in H
    end.

Ltac destruct_scrutinee x :=
  lazymatch x with
  | String.eqb ?a ?b =>
      let e := fresh "e" in
      destruct (String.eqb_spec a b) as [e|];
      [rewrite ?e in *; cbn [String.eqb Ascii.eqb Bool.eqb]|]
  | _ =>
      lazymatch type of x with
      | bool => destruct x
      | TypeOrField _ => destruct x; use_below
      | _ =>
          let E := fresh "E" in
          destruct x eqn:E; rewrite ?E in *; use_below
      end
  end.

Ltac destruct_head t :=
  lazymatch t with
  | match ?x with _ => _ end =>
      first [destruct_head x | destruct_scrutinee x]
  end.

Ltac formatField_cases :=
  use_below;
  repeat lazymatch goal with
    | |- exists text, ?lhs = Returns text => destruct_head lhs
    end.

Lemma Standard_formatField_returns inherited options f :
  (0 <= BaseTheme.size options)%Z ->
  returnsAt
    (fun f depth => Standard_formatField inherited f depth options) f.
Proof.
  intros Hs.
  induction f as [f Hf] using SchemaField_deep_ind.
  intros depth Hd. rewrite Standard_formatField_unfold.
  unfold StandardTheme.formatField.
  destruct (indent_returns depth options Hd Hs) as [indent ->].
  cbn [bind]. cbv zeta.
  formatField_cases;
    first
      [ eexists; reflexivity
      | apply (fields_return options (Standard_formatField inherited));
        [first [assumption | eapply Forall_deep; eassumption] | lia]
      | apply (Standard_variants_return options Hs
                 (Standard_formatField inherited));
        [first [assumption | eapply Forall_deep_variants; eassumption]
        | lia] ].
Qed.

Lemma Condensed_formatField_returns inherited options f :
  (0 <= BaseTheme.size options)%Z ->
  returnsAt
    (fun f depth => Condensed_formatField inherited f depth options) f.
Proof.
  intros Hs.
  induction f as [f Hf] using SchemaField_deep_ind.
  intros depth Hd. rewrite Condensed_formatField_unfold.
  unfold CondensedTheme.formatField.
  destruct (indent_returns depth options Hd Hs) as [indent ->].
  cbn [bind]. cbv zeta.
  formatField_cases;
    first
      [ eexists; reflexivity
      | apply (fields_return options (Condensed_formatField inherited));
        [first [assumption | eapply Forall_deep; eassumption] | lia]
      | apply (Condensed_variants_return options Hs
                 (Condensed_formatField inherited));
        [first [assumption | eapply Forall_deep_variants; eassumption]
        | lia] ].
Qed.

Lemma appendEach_In_throws {A : Type} (f : A -> Outcome string) l x :
  In x l -> (exists message, f x = Throws message) ->
  forall output, exists message, appendEach f l output = Throws message.
Proof.
  intros Hin Hx. induction l as [|a r IH]; [contradiction|].
  intros output. simpl.
  destruct (f a) as [text|message] eqn:Ha; simpl; [|eauto].
  destruct Hin as [-> | Hin]; [|now apply IH].
  destruct Hx as [message Hx]. congruence.
Qed.

Lemma Standard_formatField_throws inherited options f depth :
  (BaseTheme.size options < 0)%Z -> (0 < depth)%Z ->
  exists message,
    Standard_formatField inherited f depth options = Throws message.
Proof.
  intros Hs Hd. rewrite Standard_formatField_unfold.
  unfold StandardTheme.formatField.
  destruct (indent_throws depth options Hd Hs) as [message ->]. simpl. eauto.
Qed.

Lemma Condensed_formatField_throws inherited options f depth :
  (BaseTheme.size options < 0)%Z -> (0 < depth)%Z ->
  exists message,
    Condensed_formatField inherited f depth options = Throws message.
Proof.
  intros Hs Hd. rewrite Condensed_formatField_unfold.
  unfold CondensedTheme.formatField.
  destruct (indent_throws depth options Hd Hs) as [message ->]. simpl. eauto.
Qed.

Lemma Standard_format_total inherited model options :
  (0 <= BaseTheme.size options)%Z ->
  exists text, Standard_format inherited model options = Returns text.
Proof.
  intros Hs. unfold Standard_format. cbv zeta.
  destruct
    (fields_return options (Standard_formatField inherited)
       (model_fields model) 0 ("## Schema" ++ JSString.nl ++ JSString.nl))
    as [text ->]; [|lia|simpl; eauto].
  apply Forall_forall. intros f _.
  now apply Standard_formatField_returns.
Qed.

Lemma Condensed_format_total inherited model options :
  (0 <= BaseTheme.size options)%Z ->
  exists text, Condensed_format inherited model options = Returns text.
Proof.
  intros Hs. unfold Condensed_format. cbv zeta.
  destruct
    (fields_return options (Condensed_formatField inherited)
       (model_fields model) 0 "")
    as [text ->]; [|lia|simpl; eauto].
  apply Forall_forall. intros f _.
  now apply Condensed_formatField_returns.
Qed.

(** X13. With [indentSize] absent or not negative, [format] of the
    standard and of the condensed theme returns a string for every
    model: no Field, however nested and whatever its properties, makes
    them throw (the limits of an engine on string length and call depth
    set aside). *)
Theorem themes_return inherited model options :
  (0 <= BaseTheme.size options)%Z ->
  (exists text, Standard_format inherited model options = Returns text) /\
  (exists text, Condensed_format inherited model options = Returns text).
Proof.
  intros Hs. split.
  - now apply Standard_format_total.
  - now apply Condensed_format_total.
Qed.

Lemma themes_return_witness :
  (exists text,
      Standard_format (fun _ => None)
        (extractToModel Samples.text_or_image None) None = Returns text) /\
  (exists text,
      Condensed_format (fun _ => None)
        (extractToModel Samples.text_or_image None) None = Returns text).
Proof. apply themes_return. vm_compute. discriminate. Defined.

(** X14. A negative [indentSize] makes both themes throw as soon as
    something is rendered below the top level: [format] throws for every
    model with a Field that has a nested object field and is not
    rendered as a discriminated union, because [indent] asks
    [' '.repeat] for a negative count at depth 1. *)
Theorem negative_indentSize_throws
    inherited model options field nested rest :
  (BaseTheme.size options < 0)%Z ->
  In field (model_fields model) ->
  Field.objectFields field = Some (nested :: rest) ->
  Field.unionVariants field = None \/
  Field.type field <> "discriminated-union" ->
  (exists message,
      Standard_format inherited model options = Throws message) /\
  (exists message,
      Condensed_format inherited model options = Throws message).
Proof.
  intros Hs Hin Hobj Hregular.
  assert (Hunion :
            match Field.unionVariants field with
            | Some _ => Field.type field =? "discriminated-union"
            | None => false
            end = false).
  { destruct (Field.unionVariants field); [|reflexivity].
    destruct Hregular as [|Hty]; [discriminate|].
    now apply String.eqb_neq. }
  unfold Standard_format, Condensed_format. cbv zeta. split.
  - destruct
      (appendEach_In_throws
         (fun f => Standard_formatField inherited f 0 options)
         (model_fields model) field Hin) with
      (output := "## Schema" ++ JSString.nl ++ JSString.nl)
      as [message ->]; [|simpl; eauto].
    rewrite Standard_formatField_unfold. unfold StandardTheme.formatField.
    rewrite indent_zero. cbn [bind]. cbv zeta. rewrite Hobj.
    destruct (Field.unionVariants field);
      [rewrite Hunion|];
      (apply appendEach_throws, Standard_formatField_throws; [exact Hs|lia]).
  - destruct
      (appendEach_In_throws
         (fun f => Condensed_formatField inherited f 0 options)
         (model_fields model) field Hin) with (output := "")
      as [message ->]; [|simpl; eauto].
    rewrite Condensed_formatField_unfold. unfold CondensedTheme.formatField.
    rewrite indent_zero. cbn [bind]. cbv zeta. rewrite Hobj.
    destruct (Field.unionVariants field);
      [rewrite Hunion|];
      (apply appendEach_throws, Condensed_formatField_throws; [exact Hs|lia]).
Qed.

Lemma negative_indentSize_throws_witness :
  (exists message,
      Standard_format (fun _ => None)
        (extractToModel Samples.three_levels None)
        (Some (mkThemeOptions (Some (-2)%Z) None)) = Throws message) /\
  (exists message,
      Condensed_format (fun _ => None)
        (extractToModel Samples.three_levels None)
        (Some (mkThemeOptions (Some (-2)%Z) None)) = Throws message).
Proof.
  eapply negative_indentSize_throws.
  - reflexivity.
  - vm_compute. left. reflexivity.
  - reflexivity.
  - left. reflexivity.
Defined.

(** ** What the themes do not read *)

Lemma undocumented_type g : Field.type (undocumented g) = Field.type g.
Proof. destruct g; reflexivity. Qed.

Lemma undocumented_enumValues g :
  Field.enumValues (undocumented g) = Field.enumValues g.
Proof. destruct g; reflexivity. Qed.

Lemma undocumented_discriminatorField g :
  Field.discriminatorField (undocumented g) = Field.discriminatorField g.
Proof. destruct g; reflexivity. Qed.

Lemma undocumented_objectFields g :
  Field.objectFields (undocumented g) =
  option_map (map undocumented) (Field.objectFields g).
Proof. destruct g; reflexivity. Qed.

Lemma undocumented_unionVariants g :
  Field.unionVariants (undocumented g) =
  option_map (map (mapFields undocumented)) (Field.unionVariants g).
Proof. destruct g; reflexivity. Qed.

Lemma undocumented_arrayItemType g :
  Field.arrayItemType (undocumented g) =
  option_map (mapNested undocumented) (Field.arrayItemType g).
Proof. destruct g; reflexivity. Qed.

Lemma undocumented_recordValueType g :
  Field.recordValueType (undocumented g) =
  option_map (mapNested undocumented) (Field.recordValueType g).
Proof. destruct g; reflexivity. Qed.

Lemma undocumented_unionTypes g :
  Field.unionTypes (undocumented g) =
  option_map (map (mapNested undocumented)) (Field.unionTypes g).
Proof. destruct g; reflexivity. Qed.

Lemma undocumented_tupleItems g :
  Field.tupleItems (undocumented g) =
  option_map (map (mapNested undocumented)) (Field.tupleItems g).
Proof. destruct g; reflexivity. Qed.

Lemma undocumented_recordKeyType g :
  Field.recordKeyType (undocumented g) = Field.recordKeyType g.
Proof. destruct g; reflexivity. Qed.

Lemma truthy_undocumented o :
  truthy_typeOrField (option_map (mapNested undocumented) o) =
  truthy_typeOrField o.
Proof. destruct o as [[k|g]|]; reflexivity. Qed.

Lemma undocumented_name g : Field.name (undocumented g) = Field.name g.
Proof. destruct g; reflexivity. Qed.

Lemma kindOf_undocumented_one t :
  kindOf (mapNested undocumented t) = kindOf t.
Proof. destruct t as [k|g]; [reflexivity | apply undocumented_type]. Qed.

Lemma compactKindOf_undocumented_one inherited t :
  CondensedTheme.compactKindOf inherited (mapNested undocumented t) =
  CondensedTheme.compactKindOf inherited t.
Proof. destruct t as [k|g]; [reflexivity | apply undocumented_type]. Qed.

Lemma kindOf_undocumented l :
  map kindOf (map (mapNested undocumented) l) = map kindOf l.
Proof.
  rewrite map_map. apply map_ext. intros [k|g]; [reflexivity|].
  apply undocumented_type.
Qed.

Lemma compactKindOf_undocumented inherited l :
  map (CondensedTheme.compactKindOf inherited)
    (map (mapNested undocumented) l) =
  map (CondensedTheme.compactKindOf inherited) l.
Proof.
  rewrite map_map. apply map_ext. intros [k|g]; [reflexivity|].
  apply undocumented_type.
Qed.

Lemma discriminatorValue_undocumented (l : list UnionVariant) :
  map discriminatorValue (map (mapFields undocumented) l) =
  map discriminatorValue l.
Proof. rewrite map_map. now apply map_ext. Qed.

Lemma getModifiersString_undocumented f :
  StandardTheme.getModifiersString (undocumented f) =
  StandardTheme.getModifiersString f.
Proof. destruct f; reflexivity. Qed.

Lemma discriminatorNameOf_undocumented f :
  discriminatorNameOf (undocumented f) = discriminatorNameOf f.
Proof. destruct f; reflexivity. Qed.

Lemma getCriticalConstraints_undocumented f :
  CondensedTheme.getCriticalConstraints (undocumented f) =
  CondensedTheme.getCriticalConstraints f.
Proof. destruct f; reflexivity. Qed.

Lemma req_undocumented f :
  CondensedTheme.req (undocumented f) = CondensedTheme.req f.
Proof. destruct f; reflexivity. Qed.

(** Case analysis on what a method finds in the Field, next to what it
    finds in the Field without its documentation. *)
Ltac undocumented_item :=
  repeat progress
    (rewrite ?undocumented_type, ?undocumented_enumValues,
       ?undocumented_discriminatorField;
     cbn [option_map mapNested kindOf CondensedTheme.compactKindOf
          truthy_typeOrField]).

Ltac undocumented_fields :=
  repeat progress
    (rewrite ?undocumented_unionVariants, ?undocumented_type,
       ?undocumented_objectFields, ?undocumented_recordValueType,
       ?undocumented_arrayItemType;
     cbn [option_map mapNested]).

Ltac undocumented_cases_with rewriting :=
  repeat (rewriting;
          lazymatch goal with |- _ = ?rhs => destruct_head rhs end);
  rewriting.

Lemma getTypeRepresentation_undocumented inherited f :
  StandardTheme.getTypeRepresentation inherited (undocumented f) =
  StandardTheme.getTypeRepresentation inherited f.
Proof.
  destruct f as [name type isRequired isNullable enumValues arrayItemType
                   tupleItems recordKeyType recordValueType objectFields
                   unionVariants unionTypes discriminatorField description
                   constraints examples defaultValue].
  unfold StandardTheme.getTypeRepresentation. cbv zeta.
  cbn [undocumented Field.type Field.enumValues Field.unionTypes
       Field.tupleItems Field.recordKeyType Field.recordValueType
       Field.arrayItemType].
  rewrite truthy_undocumented.
  undocumented_cases_with undocumented_item;
    rewrite ?kindOf_undocumented, ?kindOf_undocumented_one; reflexivity.
Qed.

Lemma getCompactType_undocumented inherited f :
  CondensedTheme.getCompactType inherited (undocumented f) =
  CondensedTheme.getCompactType inherited f.
Proof.
  destruct f as [name type isRequired isNullable enumValues arrayItemType
                   tupleItems recordKeyType recordValueType objectFields
                   unionVariants unionTypes discriminatorField description
                   constraints examples defaultValue].
  unfold CondensedTheme.getCompactType. cbv zeta.
  cbn [undocumented Field.type Field.enumValues Field.unionTypes
       Field.tupleItems Field.recordKeyType Field.recordValueType
       Field.arrayItemType].
  rewrite truthy_undocumented.
  undocumented_cases_with undocumented_item;
    rewrite ?compactKindOf_undocumented, ?compactKindOf_undocumented_one;
    reflexivity.
Qed.

Section Ignores.

Variable options : option ThemeOptions.
Variable formatField :
  SchemaField -> Z -> option ThemeOptions -> Outcome string.

Abbreviation ignores :=
  (ignoresDocumentation (fun f depth => formatField f depth options)).

Lemma fields_ignore l depth output :
  Forall ignores l ->
  appendEach (fun f => formatField f depth options) (map undocumented l)
    output =
  appendEach (fun f => formatField f depth options) l output.
Proof.
  intros Hl. apply appendEach_ext.
  eapply Forall_impl; [|exact Hl]. intros f Hf. apply Hf.
Qed.

Lemma Standard_variants_ignore parentName (l : list UnionVariant) depth
    output :
  Forall (fun v => Forall ignores (fields v)) l ->
  appendEach
    (fun v =>
       StandardTheme.formatVariant formatField v parentName depth options)
    (map (mapFields undocumented) l) output =
  appendEach
    (fun v =>
       StandardTheme.formatVariant formatField v parentName depth options)
    l output.
Proof.
  intros Hl. apply appendEach_ext.
  eapply Forall_impl; [|exact Hl]. intros v Hv. cbv beta.
  unfold StandardTheme.formatVariant.
  destruct (BaseTheme.indent depth options); [|reflexivity].
  cbn [bind mapFields fields discriminatorValue].
  now apply fields_ignore.
Qed.

Lemma Condensed_variants_ignore parentName (l : list UnionVariant) depth
    output :
  Forall (fun v => Forall ignores (fields v)) l ->
  appendEach
    (fun v =>
       CondensedTheme.formatVariant formatField v parentName depth options)
    (map (mapFields undocumented) l) output =
  appendEach
    (fun v =>
       CondensedTheme.formatVariant formatField v parentName depth options)
    l output.
Proof.
  intros Hl. apply appendEach_ext.
  eapply Forall_impl; [|exact Hl]. intros v Hv. cbv beta.
  unfold CondensedTheme.formatVariant.
  destruct (BaseTheme.indent depth options); [|reflexivity].
  cbn [bind mapFields fields discriminatorValue].
  now apply fields_ignore.
Qed.

End Ignores.

Lemma Standard_formatField_undocumented inherited options f :
  ignoresDocumentation
    (fun f depth => Standard_formatField inherited f depth options) f.
Proof.
  induction f as [f Hf] using SchemaField_deep_ind.
  intros depth. rewrite !Standard_formatField_unfold.
  unfold StandardTheme.formatField.
  destruct (BaseTheme.indent depth options) as [indent|]; [|reflexivity].
  cbn [bind]. cbv zeta.
  rewrite ?undocumented_name, getModifiersString_undocumented,
    getTypeRepresentation_undocumented.
  use_below.
  undocumented_cases_with undocumented_fields;
    rewrite ?discriminatorNameOf_undocumented,
      ?discriminatorValue_undocumented;
    first
      [ reflexivity
      | apply (fields_ignore options (Standard_formatField inherited));
        first [assumption | eapply Forall_deep; eassumption]
      | apply (Standard_variants_ignore options
                 (Standard_formatField inherited));
        first [assumption | eapply Forall_deep_variants; eassumption] ].
Qed.

Lemma Condensed_formatField_undocumented inherited options f :
  ignoresDocumentation
    (fun f depth => Condensed_formatField inherited f depth options) f.
Proof.
  induction f as [f Hf] using SchemaField_deep_ind.
  intros depth. rewrite !Condensed_formatField_unfold.
  unfold CondensedTheme.formatField.
  destruct (BaseTheme.indent depth options) as [indent|]; [|reflexivity].
  cbn [bind]. cbv zeta.
  rewrite ?undocumented_name, getCompactType_undocumented,
    req_undocumented, getCriticalConstraints_undocumented.
  use_below.
  undocumented_cases_with undocumented_fields;
    rewrite ?discriminatorNameOf_undocumented,
      ?discriminatorValue_undocumented;
    first
      [ reflexivity
      | apply (fields_ignore options (Condensed_formatField inherited));
        first [assumption | eapply Forall_deep; eassumption]
      | apply (Condensed_variants_ignore options
                 (Condensed_formatField inherited));
        first [assumption | eapply Forall_deep_variants; eassumption] ].
Qed.

(** X15. The standard and the condensed theme render the structure
    only: [description], [examples] and [defaultValue] of a Field, at
    any nesting, and the metadata of the model are not read.  Two
    models whose fields agree once these are removed are rendered
    alike, also when rendering throws. *)
Theorem themes_ignore_documentation inherited model model' options :
  map undocumented (model_fields model) =
  map undocumented (model_fields model') ->
  Standard_format inherited model options =
    Standard_format inherited model' options /\
  Condensed_format inherited model options =
    Condensed_format inherited model' options.
Proof.
  intros Hsame. unfold Standard_format, Condensed_format. cbv zeta.
  split.
  - rewrite <- (fields_ignore options (Standard_formatField inherited)
                  (model_fields model)),
      <- (fields_ignore options (Standard_formatField inherited)
            (model_fields model')), Hsame;
      try (apply Forall_forall; intros f _;
           apply Standard_formatField_undocumented).
    reflexivity.
  - rewrite <- (fields_ignore options (Condensed_formatField inherited)
                  (model_fields model)),
      <- (fields_ignore options (Condensed_formatField inherited)
            (model_fields model')), Hsame;
      try (apply Forall_forall; intros f _;
           apply Condensed_formatField_undocumented).
    reflexivity.
Qed.

Lemma themes_ignore_documentation_witness :
  Standard_format (fun _ => None)
    (extractToModel ThemeSamples.described_name None) None =
  Standard_format (fun _ => None)
    (extractToModel ThemeSamples.plain_name None) None /\
  Condensed_format (fun _ => None)
    (extractToModel ThemeSamples.described_name None) None =
  Condensed_format (fun _ => None)
    (extractToModel ThemeSamples.plain_name None) None.
Proof. apply themes_ignore_documentation. reflexivity. Defined.

(** ** Constraints as the themes show them *)

Lemma extractConstraints_displayed s :
  forallb (fun c => JS.truthy_string (c_display c)) (extractConstraints s)
  = true.
Proof.
  unfold extractConstraints, push. cbv zeta.
  repeat match goal with
    | |- context [match ?x with _ => _ end] => destruct x
    end;
    rewrite ?forallb_app; reflexivity.
Qed.

Lemma extractField_constraints f name s r o d :
  Field.constraints (Open.extractField f name s r o d) =
  Some (extractConstraints (actualSchema (unwrapNullable s))).
Proof.
  extractField_start s a n base.
  assert (Hbase : Field.constraints base = Some (extractConstraints a))
    by (subst base; destruct (0 <? _)%nat; reflexivity).
  clearbody base.
  extractField_cases a o; field_simpl; rewrite ?Hbase; reflexivity.
Qed.

Lemma extractUnionField_constraints f name s r o d :
  Field.constraints (Open.extractUnionField f name s r o d) = None.
Proof.
  unfold Open.extractUnionField.
  destruct (isDiscriminated _); reflexivity.
Qed.

Lemma extractArrayField_constraints f name s r o d :
  Field.constraints (Open.extractArrayField f name s r o d) =
  Some (extractConstraints s).
Proof.
  unfold Open.extractArrayField. destruct (Schema.items s); reflexivity.
Qed.

Lemma formatModifiers_constraints constraints modifiers :
  forallb (fun c => JS.truthy_string (c_display c)) constraints = true ->
  fold_left
    (fun modifiers constraint =>
       push modifiers
         (if JS.truthy_string (c_display constraint)
          then
            match c_display constraint with
            | Some display => display
            | None => ""
            end
          else
            constraintTypeName (c_type constraint) ++ ": "
              ++ constraintValueText (c_value constraint)))
    constraints modifiers =
  (modifiers ++ map displayOf constraints)%list.
Proof.
  revert modifiers.
  induction constraints as [|c r IH]; intros modifiers H; simpl.
  - now rewrite app_nil_r.
  - apply andb_prop in H. destruct H as [Hc Hr].
    rewrite IH by exact Hr. rewrite Hc. unfold push.
    now rewrite <- app_assoc.
Qed.

(** X16. Every constraint of every Field of an extracted model, at any
    nesting, carries a non-empty [display] text; so for these Fields
    [formatModifiers] lists ["required"] and ["nullable"] when they
    apply and then the [display] of each constraint in order, and its
    fallback text [type: value] is never produced. *)
Theorem extracted_constraints_displayed schema options :
  forallb (everyField constraintsDisplayed)
    (model_fields (extractToModel schema options)) = true /\
  (forall f includeRequired,
      constraintsDisplayed f = true ->
      BaseTheme.formatModifiers f includeRequired =
      ((if includeRequired && Field.isRequired f then ["required"] else [])
         ++ (match Field.isNullable f with
             | Some true => ["nullable"]
             | _ => []
             end)
         ++ match Field.constraints f with
            | Some constraints => map displayOf constraints
            | None => []
            end)%list).
Proof.
  split.
  - apply (extractToModel_every constraintsDisplayed
             (merge_options options));
      intros; unfold constraintsDisplayed;
      rewrite ?extractField_constraints, ?extractUnionField_constraints,
        ?extractArrayField_constraints;
      cbn [whenSome Field.constraints Field.set_enumValues
           Field.set_objectFields Field.literal];
      try reflexivity; apply extractConstraints_displayed.
  - intros f includeRequired Hf. unfold BaseTheme.formatModifiers, push.
    cbv zeta. unfold constraintsDisplayed in Hf.
    destruct (Field.constraints f) as [constraints|]; cbn [whenSome] in Hf.
    + rewrite (formatModifiers_constraints constraints) by exact Hf.
      destruct (includeRequired && Field.isRequired f),
        (Field.isNullable f) as [[|]|]; reflexivity.
    + destruct (includeRequired && Field.isRequired f),
        (Field.isNullable f) as [[|]|]; reflexivity.
Qed.

Lemma extracted_constraints_displayed_witness :
  BaseTheme.formatModifiers
    (extractField "email" Samples.email_schema true OPTIONS 0%Z) true =
  ["required"; "min 3 chars"; "format: email"].
Proof.
  exact (proj2 (extracted_constraints_displayed Samples.email_schema None)
           (extractField "email" Samples.email_schema true OPTIONS 0%Z)
           true eq_refl).
Defined.

(** ** The heading of the standard theme *)

Lemma string_append_assoc (a b c : string) : (a ++ b) ++ c = a ++ b ++ c.
Proof. induction a as [|x a IH]; simpl; [reflexivity | now rewrite IH]. Qed.

Lemma list_ascii_of_string_append a b :
  list_ascii_of_string (a ++ b) =
  (list_ascii_of_string a ++ list_ascii_of_string b)%list.
Proof. induction a as [|c a IH]; simpl; [reflexivity | now rewrite IH]. Qed.

Lemma string_of_list_ascii_append a b :
  string_of_list_ascii (a ++ b)%list =
  string_of_list_ascii a ++ string_of_list_ascii b.
Proof. induction a as [|c a IH]; simpl; [reflexivity | now rewrite IH]. Qed.

Lemma reverse_append a b :
  JSString.reverse (a ++ b) = JSString.reverse b ++ JSString.reverse a.
Proof.
  unfold JSString.reverse.
  now rewrite list_ascii_of_string_append, rev_app_distr,
    string_of_list_ascii_append.
Qed.

Lemma isSpace2_nl c : JSString.isSpace2 "010" c = false.
Proof. reflexivity. Qed.

Lemma isSpace3_nl c2 c1 : JSString.isSpace3 "010" c2 c1 = false.
Proof. reflexivity. Qed.

(** Stripping white space from the reversed bytes stops at the letter
    that ends the heading ["## Schema"]. *)
Lemma stripLeading_stops n :
  forall a,
    String.length a <= n ->
    exists a',
      JSString.stripLeading JSString.isSpace1
        (fun c2 c1 => JSString.isSpace2 c1 c2)
        (fun c3 c2 c1 => JSString.isSpace3 c1 c2 c3)
        (a ++ JSString.nl ++ JSString.nl ++ "amehcS ##") =
      a' ++ "amehcS ##".
Proof.
  induction n as [|n IH]; intros a Hn.
  - destruct a; [|simpl in Hn; lia]. now exists "".
  - destruct a as [|c1 [|c2 [|c3 r3]]].
    + now exists "".
    + cbn [append JSString.stripLeading JSString.nl].
      destruct (JSString.isSpace1 c1); [apply (IH ""); simpl; lia|].
      rewrite isSpace2_nl, isSpace3_nl.
      exists (String c1 (JSString.nl ++ JSString.nl)).
      reflexivity.
    + cbn [append JSString.stripLeading JSString.nl].
      destruct (JSString.isSpace1 c1).
      { apply (IH (String c2 "")). simpl in *. lia. }
      destruct (JSString.isSpace2 c2 c1); [apply (IH ""); simpl; lia|].
      rewrite isSpace3_nl.
      exists (String c1 (String c2 (JSString.nl ++ JSString.nl))).
      reflexivity.
    + cbn [append JSString.stripLeading JSString.nl].
      destruct (JSString.isSpace1 c1).
      { apply (IH (String c2 (String c3 r3))). simpl in *. lia. }
      destruct (JSString.isSpace2 c2 c1).
      { apply (IH (String c3 r3)). simpl in *. lia. }
      destruct (JSString.isSpace3 c3 c2 c1).
      { apply (IH r3). simpl in *. lia. }
      exists (String c1 (String c2 (String c3 r3))
                ++ JSString.nl ++ JSString.nl).
      now rewrite !string_append_assoc.
Qed.

Lemma trim_heading s :
  exists rest,
    JSString.trim ("## Schema" ++ JSString.nl ++ JSString.nl ++ s) =
    "## Schema" ++ rest.
Proof.
  unfold JSString.trim.
  change (JSString.trimStart
            ("## Schema" ++ JSString.nl ++ JSString.nl ++ s))
    with (("## Schema" ++ JSString.nl ++ JSString.nl) ++ s).
  unfold JSString.trimEnd. rewrite reverse_append.
  change (JSString.reverse ("## Schema" ++ JSString.nl ++ JSString.nl))
    with (JSString.nl ++ JSString.nl ++ "amehcS ##").
  destruct (stripLeading_stops (String.length (JSString.reverse s))
              (JSString.reverse s) (Nat.le_refl _)) as [a' ->].
  rewrite reverse_append. now exists (JSString.reverse a').
Qed.

Lemma appendEach_prefix {A : Type} (f : A -> Outcome string) l :
  forall output text,
    appendEach f l output = Returns text ->
    exists rest, text = output ++ rest.
Proof.
  induction l as [|x r IH]; intros output text; simpl.
  - intros [= <-]. exists "". clear. induction output; simpl; congruence.
  - destruct (f x) as [line|]; simpl; [|discriminate].
    intros H. apply IH in H. destruct H as [rest ->].
    exists (line ++ rest). apply string_append_assoc.
Qed.

(** X17. Whenever the standard theme returns, its output begins with
    the heading ["## Schema"]: trimming the output never reaches into
    the heading, whatever the fields render as.  A model without fields
    renders as the heading alone. *)
Theorem Standard_format_heading inherited model options :
  (model_fields model = [] ->
   Standard_format inherited model options = Returns "## Schema") /\
  (forall text,
      Standard_format inherited model options = Returns text ->
      exists rest, text = "## Schema" ++ rest).
Proof.
  unfold Standard_format. cbv zeta. split.
  - intros ->. reflexivity.
  - intros text.
    destruct (appendEach _ _ _) as [output|] eqn:Hout; simpl;
      [|discriminate].
    intros [= <-]. apply appendEach_prefix in Hout.
    destruct Hout as [rest ->].
    rewrite !string_append_assoc. apply trim_heading.
Qed.

Lemma Standard_format_heading_witness :
  Standard_format (fun _ => None) (mkSchemaModel [] None) None =
  Returns "## Schema".
Proof.
  exact (proj1 (Standard_format_heading (fun _ => None)
                  (mkSchemaModel [] None) None) eq_refl).
Defined.

(** ** The expanded theme *)

Lemma Expanded_formatField_unfold inherited stringify field depth options :
  Expanded_formatField inherited stringify field depth options =
  ExpandedTheme.formatField inherited stringify
    (Expanded_formatField inherited stringify) field depth options.
Proof. destruct field; reflexivity. Qed.

Lemma Expanded_variants_return options formatField parentName l depth
    output :
  (0 <= BaseTheme.size options)%Z ->
  Forall
    (fun v =>
       Forall (returnsAt (fun f depth => formatField f depth options))
         (fields v)) l ->
  (0 <= depth)%Z ->
  exists text,
    appendEach
      (fun v =>
         ExpandedTheme.formatVariant formatField v parentName depth options)
      l output = Returns text.
Proof.
  intros Hs Hl Hd. apply appendEach_returns.
  eapply Forall_impl; [|exact Hl]. intros v Hv. cbv beta.
  unfold ExpandedTheme.formatVariant.
  destruct (indent_returns depth options Hd Hs) as [indent ->].
  cbn [bind]. apply fields_return; [exact Hv | lia].
Qed.

Lemma Expanded_formatField_returns inherited stringify options f :
  (0 <= BaseTheme.size options)%Z ->
  returnsAt
    (fun f depth => Expanded_formatField inherited stringify f depth options)
    f.
Proof.
  intros Hs.
  induction f as [f Hf] using SchemaField_deep_ind.
  intros depth Hd. rewrite Expanded_formatField_unfold.
  unfold ExpandedTheme.formatField.
  destruct (indent_returns depth options Hd Hs) as [indent ->].
  cbn [bind]. cbv zeta.
  formatField_cases;
    first
      [ eexists; reflexivity
      | apply (fields_return options
                 (Expanded_formatField inherited stringify));
        [first [assumption | eapply Forall_deep; eassumption] | lia]
      | apply (Expanded_variants_return options
                 (Expanded_formatField inherited stringify));
        [exact Hs
        |first [assumption | eapply Forall_deep_variants; eassumption]
        | lia] ].
Qed.


(** X18. With [indentSize] absent or not negative, [format] of the
    expanded theme returns for every model, whatever [JSON.stringify]
    gives for the examples, and its output begins with the heading
    ["## Schema"] (the limits of an engine on string length and call
    depth set aside). *)
Theorem Expanded_format_returns
    inherited stringify stringifyPretty model options :
  (0 <= BaseTheme.size options)%Z ->
  exists rest,
    Expanded_format inherited stringify stringifyPretty model options =
    Returns ("## Schema" ++ rest).
Proof.
  intros Hs. unfold Expanded_format. cbv zeta.
  destruct
    (fields_return options (Expanded_formatField inherited stringify)
       (model_fields model) 0 ("## Schema" ++ JSString.nl ++ JSString.nl))
    as [text Hout]; [|lia|].
  { apply Forall_forall. intros f _.
    now apply Expanded_formatField_returns. }
  rewrite Hout. cbn [bind].
  apply appendEach_prefix in Hout. destruct Hout as [rest ->].
  match goal with
  | |- exists _, Returns (JSString.trim ?o) = _ =>
      assert (H : exists more,
                 o = "## Schema" ++ JSString.nl ++ JSString.nl ++ more)
  end.
  { destruct (model_metadata model) as [metadata|];
      [destruct (m_examples metadata) as [[|first others]|]|];
      rewrite ?string_append_assoc; eauto. }
  destruct H as [more ->].
  destruct (trim_heading more) as [final ->]. eauto.
Qed.

Lemma Expanded_format_returns_witness :
  exists rest,
    Expanded_format (fun _ => None) JS.String_ JS.String_
      (extractToModel Samples.described_union None) None =
    Returns ("## Schema" ++ rest).
Proof. apply Expanded_format_returns. vm_compute. discriminate. Defined.

(** ** The expanded theme on Fields without documentation *)

Lemma appendEach_same {A : Type} (f g : A -> Outcome string) l :
  Forall (fun x => g x = f x) l ->
  forall output, appendEach g l output = appendEach f l output.
Proof.
  induction 1 as [|x r Hx _ IH]; intros output; simpl; [reflexivity|].
  rewrite Hx. destruct (f x); simpl; [apply IH | reflexivity].
Qed.

Lemma plainField_facts f :
  plainField f = true ->
  JS.truthy_string (Field.description f) = false /\
  match Field.examples f with
  | Some (_ :: _) => false
  | _ => true
  end = true /\
  (Field.type f =? "discriminated-union")
    && JS.defined (Field.unionVariants f) = false /\
  (Field.type f =? "array")
    && match Field.arrayItemType f with
       | Some (NestedField itemField) =>
           (Field.type itemField =? "enum")
           && JS.defined (Field.enumValues itemField)
       | _ => false
       end = false /\
  (Field.type f =? "union")
    && match Field.unionTypes f with
       | Some unionTypes => existsb ExpandedTheme.isEnumVariant unionTypes
       | None => false
       end = false.
Proof.
  unfold plainField. intros H.
  repeat (apply andb_prop in H; destruct H as [H ?]).
  repeat match goal with
    | H : negb _ = true |- _ => apply Bool.negb_true_iff in H
    end.
  auto.
Qed.

Lemma withDescription_plain f indent output :
  JS.truthy_string (Field.description f) = false ->
  ExpandedTheme.withDescription f indent output = output.
Proof.
  unfold ExpandedTheme.withDescription, JS.truthy_string.
  destruct (Field.description f) as [d|]; [|reflexivity].
  now intros ->.
Qed.

Lemma withExamples_plain stringify f indent output :
  match Field.examples f with
  | Some (_ :: _) => false
  | _ => true
  end = true ->
  ExpandedTheme.withExamples stringify f indent output = output /\
  ExpandedTheme.withExampleLines stringify f indent output = output.
Proof.
  unfold ExpandedTheme.withExamples, ExpandedTheme.withExampleLines.
  destruct (Field.examples f) as [[|e r]|]; [auto|discriminate|auto].
Qed.

Lemma withWarning_plain f indent output :
  (Field.type f =? "array")
    && match Field.arrayItemType f with
       | Some (NestedField itemField) =>
           (Field.type itemField =? "enum")
           && JS.defined (Field.enumValues itemField)
       | _ => false
       end = false ->
  ExpandedTheme.withWarning f indent output = output.
Proof.
  unfold ExpandedTheme.withWarning.
  destruct (Field.arrayItemType f) as [[k|item]|]; try reflexivity.
  destruct (Field.type f =? "array"); [|reflexivity].
  destruct (Field.type item =? "enum"); [|reflexivity].
  cbn [andb]. now intros ->.
Qed.

Lemma getTypeRepresentation_plain inherited f :
  (Field.type f =? "union")
    && match Field.unionTypes f with
       | Some unionTypes => existsb ExpandedTheme.isEnumVariant unionTypes
       | None => false
       end = false ->
  ExpandedTheme.getTypeRepresentation inherited f =
  StandardTheme.getTypeRepresentation inherited f.
Proof.
  intros H.
  unfold ExpandedTheme.getTypeRepresentation,
    StandardTheme.getTypeRepresentation. cbv zeta.
  destruct (if Field.type f =? "enum" then _ else _); [reflexivity|].
  destruct (Field.type f =? "union"); [|reflexivity].
  destruct (Field.unionTypes f) as [ts|]; [|reflexivity].
  cbn [andb] in H.
  destruct (find ExpandedTheme.isEnumVariant ts) as [t|] eqn:Hfind;
    [|reflexivity].
  apply find_some in Hfind. destruct Hfind as [Hin Ht].
  assert (Hex : existsb ExpandedTheme.isEnumVariant ts = true)
    by (apply existsb_exists; eauto).
  congruence.
Qed.

Section Agree.

Variable options : option ThemeOptions.
Variables E S : SchemaField -> Z -> option ThemeOptions -> Outcome string.

Abbreviation agrees :=
  (fun f =>
     everyField plainField f = true ->
     forall depth, E f depth options = S f depth options).

Lemma fields_agree l depth output :
  Forall agrees l ->
  forallb (everyField plainField) l = true ->
  appendEach (fun f => E f depth options) l output =
  appendEach (fun f => S f depth options) l output.
Proof.
  intros Hl Hplain. apply appendEach_same.
  rewrite forallb_forall in Hplain. rewrite Forall_forall in *.
  intros f Hin. apply Hl; auto.
Qed.

Lemma variants_agree parentName (l : list UnionVariant) depth output :
  Forall (fun v => Forall agrees (fields v)) l ->
  forallb (fun v => forallb (everyField plainField) (fields v)) l = true ->
  appendEach
    (fun v => ExpandedTheme.formatVariant E v parentName depth options)
    l output =
  appendEach
    (fun v => StandardTheme.formatVariant S v parentName depth options)
    l output.
Proof.
  intros Hl Hplain. apply appendEach_same.
  rewrite forallb_forall in Hplain. rewrite Forall_forall in *.
  intros v Hin.
  unfold ExpandedTheme.formatVariant, StandardTheme.formatVariant.
  destruct (BaseTheme.indent depth options); [|reflexivity].
  cbn [bind]. apply fields_agree; auto.
Qed.

End Agree.

(** What holds of the Fields below, from what holds of every Field. *)
Ltac use_every :=
  repeat match goal with
    | E : ?x = _, H : whenSome _ ?x = true |- _ => rewrite E in H
    | H : whenSome _ None = true |- _ => clear H
    | H : whenSome _ (Some _) = true |- _ => cbn [whenSome] in H
    | H : whenNested _ (BareType _) = true |- _ => clear H
    | H : whenNested _ (NestedField _) = true |- _ => cbn [whenNested] in H
    | H : everyField plainField _ = true |- _ =>
        rewrite everyField_unfold in H;
        do 6 (let H' := fresh "H" in
              apply andb_prop in H; destruct H as [H H']);
        apply plainField_facts in H;
        destruct H as (? & ? & ? & ? & ?)
    | e : Field.type ?g = _, H : context [Field.type ?g] |- _ =>
        rewrite e in H
    | e : Field.unionVariants ?g = _,
      H : context [Field.unionVariants ?g] |- _ =>
        rewrite e in H
    end.

Lemma Expanded_formatField_plain inherited stringify options f :
  everyField plainField f = true ->
  forall depth,
    Expanded_formatField inherited stringify f depth options =
    Standard_formatField inherited f depth options.
Proof.
  induction f as [f Hf] using SchemaField_deep_ind.
  intros Hplain depth.
  rewrite Expanded_formatField_unfold, Standard_formatField_unfold.
  unfold ExpandedTheme.formatField, StandardTheme.formatField.
  destruct (BaseTheme.indent depth options) as [indent|]; [|reflexivity].
  cbn [bind]. cbv zeta.
  rewrite everyField_unfold in Hplain.
  do 6 (let H' := fresh "H" in
        apply andb_prop in Hplain; destruct Hplain as [Hplain H']).
  apply plainField_facts in Hplain.
  destruct Hplain as (Hd & He & Hu & Hw & Ht).
  rewrite (getTypeRepresentation_plain _ _ Ht),
    !(withWarning_plain _ _ _ Hw), !(withDescription_plain _ _ _ Hd),
    !(proj2 (withExamples_plain _ _ _ _ He)),
    ?(proj1 (withExamples_plain _ _ _ _ He)).
  change (ExpandedTheme.getModifiersString f)
    with (StandardTheme.getModifiersString f).
  use_below.
  repeat lazymatch goal with |- _ = ?rhs => destruct_head rhs end.
  all: use_every.
  all: first
      [ reflexivity
      | apply (fields_agree options);
        first [assumption | eapply Forall_deep; eassumption]
      | apply (variants_agree options);
        first [assumption | eapply Forall_deep_variants; eassumption]
      | exfalso;
        match goal with
        | H : _ = false |- _ => cbn in H; discriminate H
        end ].
Qed.

(** X19. On a model without documentation the expanded theme renders
    what the standard theme renders: when no Field at any nesting has a
    description or examples, is rendered as a discriminated union, is
    an array of enum values or a union with an enum alternative, and
    the model metadata has no examples, the two themes give the same
    string, or throw alike. *)
Theorem Expanded_agrees_with_Standard
    inherited stringify stringifyPretty model options :
  forallb (everyField plainField) (model_fields model) = true ->
  withoutModelExamples model = true ->
  Expanded_format inherited stringify stringifyPretty model options =
  Standard_format inherited model options.
Proof.
  intros Hplain Hmeta. unfold Expanded_format, Standard_format. cbv zeta.
  rewrite (fields_agree options (Expanded_formatField inherited stringify)
             (Standard_formatField inherited)); [| |exact Hplain].
  - destruct (appendEach _ _ _); cbn [bind]; [|reflexivity].
    unfold withoutModelExamples in Hmeta.
    destruct (model_metadata model) as [metadata|]; [|reflexivity].
    destruct (m_examples metadata) as [[|first others]|];
      [reflexivity|discriminate|reflexivity].
  - apply Forall_forall. intros f _.
    apply Expanded_formatField_plain.
Qed.

Lemma Expanded_agrees_with_Standard_witness :
  Expanded_format (fun _ => None) JS.String_ JS.String_
    (extractToModel Samples.name_and_age None) None =
  Standard_format (fun _ => None)
    (extractToModel Samples.name_and_age None) None.
Proof. apply Expanded_agrees_with_Standard; reflexivity. Defined.

(** ** Rendering through the registry of the theme classes *)

Section ThemeClasses.

Variable inherited : string -> option string.
Variables stringify stringifyPretty : JsonValue -> string.
Variable JSONTheme_format :
  SchemaModel -> option ThemeOptions -> Outcome string.

Local Abbreviation registry :=
  (defaultRegistry (Standard_format inherited)
     (Expanded_format inherited stringify stringifyPretty)
     (Condensed_format inherited) JSONTheme_format).

Local Abbreviation render :=
  (formatModel (Standard_format inherited)
     (Expanded_format inherited stringify stringifyPretty)
     (Condensed_format inherited) JSONTheme_format).





End ThemeClasses.


